(** * Blog platform: entities, repositories and use cases

    A shallow embedding of the domain layer of the blog platform
    (src/domain/entities, src/domain/use_cases) together with the
    SQLAlchemy repositories and models it runs against
    (src/infrastructure/database), followed by the properties of the
    specification that concern them.

    Conventions of the embedding.
    - A Python [str] is a [string] whose characters are read as the code
      points 0..255; the character classes of [str.isspace], [str.isupper],
      [str.islower], [str.isdigit] and [str.lower] are the ones Python has
      on that range.
    - A [datetime] is an integer number of microseconds ([Z]); a [UUID] is
      a number ([N]).
    - Python objects are mutated in place and exceptions leave the
      mutations made so far in place: a method is a state transformer that
      returns either a value or the exception raised, together with the
      state reached.
    - [datetime.utcnow] and [uuid4] read an environment that holds the
      sequence of clock readings and of identifiers still to come. *)

From stdpp Require Import gmap strings list fin_maps pretty sorting.
From Stdlib Require Import ZArith Lia Ascii.

Local Open Scope Z_scope.

(** ** Python strings *)

Module Py.

Definition code (c : ascii) : N := N_of_ascii c.

Definition in_range (lo hi : N) (c : ascii) : bool :=
  ((lo <=? code c) && (code c <=? hi))%N.

Definition is_code (n : N) (c : ascii) : bool := (code c =? n)%N.

(** [str.isspace] on one character. *)
Definition isspace (c : ascii) : bool :=
  in_range 9 13 c || in_range 28 32 c || is_code 133 c || is_code 160 c.

(** [str.isupper] on one character. *)
Definition isupper (c : ascii) : bool :=
  in_range 65 90 c || (in_range 192 222 c && negb (is_code 215 c)).

(** [str.islower] on one character. *)
Definition islower (c : ascii) : bool :=
  in_range 97 122 c || (in_range 223 255 c && negb (is_code 247 c))
  || is_code 170 c || is_code 181 c || is_code 186 c.

(** [str.isdigit] on one character. *)
Definition isdigit (c : ascii) : bool :=
  in_range 48 57 c || is_code 178 c || is_code 179 c || is_code 185 c.

(** The character classes written out in the regular expressions of the
    source: [a-z], [A-Z], [0-9]. *)
Definition az (c : ascii) : bool := in_range 97 122 c.
Definition AZ (c : ascii) : bool := in_range 65 90 c.
Definition d09 (c : ascii) : bool := in_range 48 57 c.

Definition lower_char (c : ascii) : ascii :=
  if isupper c then ascii_of_N (code c + 32) else c.

Fixpoint lower (s : string) : string :=
  match s with
  | EmptyString => EmptyString
  | String c s' => String (lower_char c) (lower s')
  end.

Fixpoint lstrip (s : string) : string :=
  match s with
  | EmptyString => EmptyString
  | String c s' => if isspace c then lstrip s' else s
  end.

Definition rstrip (s : string) : string := String.rev (lstrip (String.rev s)).

Definition strip (s : string) : string := rstrip (lstrip s).

Definition len (s : string) : nat := String.length s.

(** Truth value of a string: [bool(s)]. *)
Definition truthy (s : string) : bool :=
  match s with EmptyString => false | String _ _ => true end.

Fixpoint any (p : ascii -> bool) (s : string) : bool :=
  match s with
  | EmptyString => false
  | String c s' => p c || any p s'
  end.

Fixpoint all (p : ascii -> bool) (s : string) : bool :=
  match s with
  | EmptyString => true
  | String c s' => p c && all p s'
  end.

(** [c in s] for a one-character string [c]. *)
Definition char_in (c : ascii) (s : string) : bool :=
  any (fun d => Ascii.eqb c d) s.

Definition startswith_char (c : ascii) (s : string) : bool :=
  match s with
  | EmptyString => false
  | String d _ => Ascii.eqb c d
  end.

Definition endswith_char (c : ascii) (s : string) : bool :=
  startswith_char c (String.rev s).

(** The part of [s] before its first [c] and the part after it. *)
Fixpoint partition (c : ascii) (s : string) : option (string * string) :=
  match s with
  | EmptyString => None
  | String d s' =>
      if Ascii.eqb c d then Some (EmptyString, s')
      else match partition c s' with
           | Some (a, b) => Some (String d a, b)
           | None => None
           end
  end.

(** The part of [s] before its last [c] and the part after it. *)
Definition rpartition (c : ascii) (s : string) : option (string * string) :=
  match partition c (String.rev s) with
  | Some (b, a) => Some (String.rev a, String.rev b)
  | None => None
  end.

(** [$] of [re] without flags matches at the end of the string and just
    before a newline that ends the string: the candidates for the text
    that the rest of the pattern has to match in full. *)
Definition dollar_candidates (s : string) : list string :=
  match String.rev s with
  | String c r => if is_code 10 c then [s; String.rev r] else [s]
  | EmptyString => [s]
  end.

(** [re.match(r'^[a-zA-Z0-9_]+$', s)]. *)
Definition word_char (c : ascii) : bool :=
  az c || AZ c || d09 c || is_code 95 c.

Definition match_username_pattern (s : string) : bool :=
  existsb (fun t => truthy t && all word_char t) (dollar_candidates s).

(** [re.match(r'^[a-zA-Z0-9._%+-]+@[a-zA-Z0-9.-]+\.[a-zA-Z]{2,}$', s)].
    The local part has no [@] and the last group has no dot, so the
    pattern splits the text at its first [@] and at the last dot after
    it. *)
Definition local_char (c : ascii) : bool :=
  az c || AZ c || d09 c || char_in c "._%+-".

Definition domain_char (c : ascii) : bool :=
  az c || AZ c || d09 c || char_in c ".-".

Definition alpha_char (c : ascii) : bool := az c || AZ c.

Definition match_email_text (s : string) : bool :=
  match partition "@" s with
  | None => false
  | Some (loc, rest) =>
      truthy loc && all local_char loc &&
      match rpartition "." rest with
      | None => false
      | Some (dom, tld) =>
          truthy dom && all domain_char dom &&
          (2 <=? len tld)%nat && all alpha_char tld
      end
  end.

Definition match_email_pattern (s : string) : bool :=
  existsb match_email_text (dollar_candidates s).

(** [s[:n]]: the first [n] characters, or all but the last [-n] when
    [n] is negative. *)
Fixpoint take (n : nat) (s : string) : string :=
  match n, s with
  | S n', String c s' => String c (take n' s')
  | _, _ => EmptyString
  end.


End Py.

(** ** Exceptions, results and the state-and-exception monad *)

Abbreviation UUID := N (only parsing).
Abbreviation datetime := Z (only parsing).

(** [str(id)]: the text of an identifier (its decimal digits here). *)
Definition str_of_uuid (u : UUID) : string := pretty u.

Inductive exn :=
| ValueError (msg : string)
| TypeError
| JWTError
| TokenInvalidError (msg : string)
| BlogPostRepositoryError
| BlogPostNotFoundError (blog_post_id : UUID)
| DuplicateBlogPostError (blog_post_id : UUID)
| CommentRepositoryError
| CommentNotFoundError (comment_id : UUID)
| DuplicateCommentError (comment_id : UUID)
| UserRepositoryError
| UserNotFoundError (identifier field : string)
| DuplicateUserError (identifier field : string).

(** [except ValueError]. *)
Definition is_ValueError (e : exn) : bool :=
  match e with ValueError _ => true | _ => false end.

Inductive result (A : Type) :=
| Ok (a : A)
| Raise (e : exn).
Arguments Ok {A} a.
Arguments Raise {A} e.

(** A computation over a state [S]: what it returns or raises, and the
    state it leaves.  The state reached at a [Raise] is kept: Python does
    not undo the assignments made before an exception. *)
Definition M (S A : Type) : Type := S -> result A * S.

Definition ret {S A} (a : A) : M S A := fun s => (Ok a, s).

Definition bind {S A B} (m : M S A) (k : A -> M S B) : M S B :=
  fun s => match m s with
           | (Ok a, s') => k a s'
           | (Raise e, s') => (Raise e, s')
           end.

Definition raise {S A} (e : exn) : M S A := fun s => (Raise e, s).

Definition gets {S A} (f : S -> A) : M S A := fun s => (Ok (f s), s).

Definition modify {S} (f : S -> S) : M S unit := fun s => (Ok tt, f s).

(** [try: m  except <handled>: h e]: the clause is the partial function
    [h], which is [None] on an exception the clause does not name. *)
Definition try_except {S A} (m : M S A) (h : exn -> option (M S A)) : M S A :=
  fun s => match m s with
           | (Ok a, s') => (Ok a, s')
           | (Raise e, s') =>
               match h e with
               | Some k => k s'
               | None => (Raise e, s')
               end
           end.

#[global] Instance M_ret {S} : MRet (M S) := fun A => @ret S A.
#[global] Instance M_bind {S} : MBind (M S) := fun A B k m => @bind S A B m k.

(** ** The environment: clock and identifier source *)

Record Env := {
  now_at : nat -> datetime;   (* the successive readings of the clock *)
  ticks : nat;                (* how many readings were taken *)
  uuid_at : nat -> UUID;      (* the successive results of uuid4 *)
  drawn : nat                 (* how many identifiers were drawn *)
}.

Definition tick (e : Env) : Env :=
  {| now_at := now_at e; ticks := S (ticks e);
     uuid_at := uuid_at e; drawn := drawn e |}.

Definition draw (e : Env) : Env :=
  {| now_at := now_at e; ticks := ticks e;
     uuid_at := uuid_at e; drawn := S (drawn e) |}.

Class HasEnv (S : Type) := {
  env_of : S -> Env;
  with_env : Env -> S -> S
}.

#[global] Instance Env_HasEnv : HasEnv Env :=
  {| env_of := fun e => e; with_env := fun e _ => e |}.

#[global] Instance Obj_HasEnv {E} : HasEnv (E * Env) :=
  {| env_of := snd; with_env := fun e s => (fst s, e) |}.

(** [datetime.utcnow()]. *)
Definition utcnow {S} `{HasEnv S} : M S datetime :=
  fun s => let e := env_of s in
           (Ok (now_at e (ticks e)), with_env (tick e) s).

(** [uuid4()]. *)
Definition uuid4 {S} `{HasEnv S} : M S UUID :=
  fun s => let e := env_of s in
           (Ok (uuid_at e (drawn e)), with_env (draw e) s).

(** A method body reads and assigns the fields of [self]. *)
Definition self_ {E A} (f : E -> A) : M (E * Env) A :=
  gets (fun s => f (fst s)).

Definition assign {E} (f : E -> E) : M (E * Env) unit :=
  modify (fun s => (f (fst s), snd s)).

(** The dataclass [__init__]: the object with its fields filled in is
    handed to [__post_init__]; the caller gets the object if that returns
    and nothing if it raises. *)
Definition construct {E} (self : E) (post_init : M (E * Env) unit) : M Env E :=
  fun e => match post_init (self, e) with
           | (Ok _, (self', e')) => (Ok self', e')
           | (Raise x, (_, e')) => (Raise x, e')
           end.

(** ** BlogPost entity (src/domain/entities/blog_post.py) *)

Module BlogPost.

Record t := mk {
  title : string;
  content : string;
  id : UUID;
  created_at : datetime;
  updated_at : datetime;
  comment_ids : list UUID
}.

Definition set_title (v : string) (p : t) : t :=
  mk v (content p) (id p) (created_at p) (updated_at p) (comment_ids p).
Definition set_content (v : string) (p : t) : t :=
  mk (title p) v (id p) (created_at p) (updated_at p) (comment_ids p).
Definition set_updated_at (v : datetime) (p : t) : t :=
  mk (title p) (content p) (id p) (created_at p) v (comment_ids p).
Definition set_comment_ids (v : list UUID) (p : t) : t :=
  mk (title p) (content p) (id p) (created_at p) (updated_at p) v.

Definition _validate_title : M (t * Env) unit :=
  title ← self_ title;
  if negb (Py.truthy (Py.strip title)) then
    raise (ValueError "Title cannot be empty")
  else if (200 <? Py.len title)%nat then
    raise (ValueError "Title cannot exceed 200 characters")
  else ret tt.

Definition _validate_content : M (t * Env) unit :=
  content ← self_ content;
  if negb (Py.truthy (Py.strip content)) then
    raise (ValueError "Content cannot be empty")
  else ret tt.

(** [BlogPost(title=..., content=...)], as the use cases call it: the
    dataclass fills the other fields from their default factories, in
    the order of declaration ([id], [created_at], [updated_at],
    [comment_ids]), and then runs [__post_init__]. *)
Definition __init__ (title content : string) : M Env t :=
  id ← uuid4;
  created_at ← utcnow;
  updated_at ← utcnow;
  construct (mk title content id created_at updated_at [])
            (_validate_title;; _validate_content).

Definition update_title (new_title : string) : M (t * Env) unit :=
  old_title ← self_ title;
  assign (set_title new_title);;
  try_except
    (_validate_title;;
     now ← utcnow;
     assign (set_updated_at now))
    (fun e => if is_ValueError e
              then Some (assign (set_title old_title);; raise e)
              else None).

Definition update_content (new_content : string) : M (t * Env) unit :=
  old_content ← self_ content;
  assign (set_content new_content);;
  try_except
    (_validate_content;;
     now ← utcnow;
     assign (set_updated_at now))
    (fun e => if is_ValueError e
              then Some (assign (set_content old_content);; raise e)
              else None).

Definition add_comment_id (comment_id : UUID) : M (t * Env) unit :=
  ids ← self_ comment_ids;
  if bool_decide (comment_id ∈ ids) then
    raise (ValueError "Comment ID already exists for this post")
  else
    assign (set_comment_ids (ids ++ [comment_id]));;
    now ← utcnow;
    assign (set_updated_at now).

(** [list.remove] takes out the first occurrence. *)
Fixpoint list_remove (x : UUID) (l : list UUID) : list UUID :=
  match l with
  | [] => []
  | y :: l' => if bool_decide (x = y) then l' else y :: list_remove x l'
  end.

Definition remove_comment_id (comment_id : UUID) : M (t * Env) unit :=
  ids ← self_ comment_ids;
  if negb (bool_decide (comment_id ∈ ids)) then
    raise (ValueError "Comment ID not found for this post")
  else
    assign (set_comment_ids (list_remove comment_id ids));;
    now ← utcnow;
    assign (set_updated_at now).

Definition get_comment_count : M (t * Env) nat :=
  ids ← self_ comment_ids;
  ret (length ids).

End BlogPost.

(** ** Comment entity (src/domain/entities/comment.py) *)

Module Comment.

Record t := mk {
  content : string;
  blog_post_id : UUID;
  id : UUID;
  author_name : string;
  author_email : string;
  created_at : datetime;
  updated_at : datetime;
  is_approved : bool
}.

Definition set_content (v : string) (c : t) : t :=
  mk v (blog_post_id c) (id c) (author_name c) (author_email c)
     (created_at c) (updated_at c) (is_approved c).
Definition set_author_name (v : string) (c : t) : t :=
  mk (content c) (blog_post_id c) (id c) v (author_email c)
     (created_at c) (updated_at c) (is_approved c).
Definition set_author_email (v : string) (c : t) : t :=
  mk (content c) (blog_post_id c) (id c) (author_name c) v
     (created_at c) (updated_at c) (is_approved c).
Definition set_updated_at (v : datetime) (c : t) : t :=
  mk (content c) (blog_post_id c) (id c) (author_name c) (author_email c)
     (created_at c) v (is_approved c).
Definition set_is_approved (v : bool) (c : t) : t :=
  mk (content c) (blog_post_id c) (id c) (author_name c) (author_email c)
     (created_at c) (updated_at c) v.

Definition _validate_content : M (t * Env) unit :=
  content ← self_ content;
  if negb (Py.truthy (Py.strip content)) then
    raise (ValueError "Content cannot be empty")
  else if (1000 <? Py.len content)%nat then
    raise (ValueError "Content cannot exceed 1000 characters")
  else ret tt.

(** The only check is [isinstance(self.blog_post_id, UUID)], which the
    type of the field settles. *)
Definition _validate_blog_post_id : M (t * Env) unit := ret tt.

Definition _validate_author_name : M (t * Env) unit :=
  author_name ← self_ author_name;
  if (100 <? Py.len author_name)%nat then
    raise (ValueError "Author name cannot exceed 100 characters")
  else ret tt.

Definition _validate_author_email : M (t * Env) unit :=
  author_email ← self_ author_email;
  if (255 <? Py.len author_email)%nat then
    raise (ValueError "Author email cannot exceed 255 characters")
  else if Py.truthy author_email && negb (Py.char_in "@" author_email) then
    raise (ValueError "Author email must be a valid email address")
  else ret tt.

(** [Comment(content=..., blog_post_id=..., author_name=...,
    author_email=...)], as the use cases call it: identifier, time stamps
    and approval flag come from their defaults. *)
Definition __init__ (content : string) (blog_post_id : UUID)
    (author_name author_email : string) : M Env t :=
  id ← uuid4;
  created_at ← utcnow;
  updated_at ← utcnow;
  construct
    (mk content blog_post_id id author_name author_email
        created_at updated_at true)
    (_validate_content;; _validate_blog_post_id;;
     _validate_author_name;; _validate_author_email).

Definition update_content (new_content : string) : M (t * Env) unit :=
  old_content ← self_ content;
  assign (set_content new_content);;
  try_except
    (_validate_content;;
     now ← utcnow;
     assign (set_updated_at now))
    (fun e => if is_ValueError e
              then Some (assign (set_content old_content);; raise e)
              else None).

Definition update_author_info (name email : option string) : M (t * Env) unit :=
  old_name ← self_ author_name;
  old_email ← self_ author_email;
  try_except
    (match name with
     | Some name => assign (set_author_name name);; _validate_author_name
     | None => ret tt
     end;;
     match email with
     | Some email => assign (set_author_email email);; _validate_author_email
     | None => ret tt
     end;;
     now ← utcnow;
     assign (set_updated_at now))
    (fun e => if is_ValueError e
              then Some (assign (set_author_name old_name);;
                         assign (set_author_email old_email);;
                         raise e)
              else None).

Definition approve : M (t * Env) unit :=
  is_approved ← self_ is_approved;
  if negb is_approved then
    assign (set_is_approved true);;
    now ← utcnow;
    assign (set_updated_at now)
  else ret tt.

Definition reject : M (t * Env) unit :=
  is_approved ← self_ is_approved;
  if (is_approved : bool) then
    assign (set_is_approved false);;
    now ← utcnow;
    assign (set_updated_at now)
  else ret tt.


End Comment.

(** ** User entity (src/domain/entities/user.py) *)

Module User.

Record t := mk {
  username : string;
  email : string;
  password_hash : string;
  id : UUID;
  full_name : option string;
  is_active : bool;
  is_superuser : bool;
  created_at : datetime;
  updated_at : datetime
}.

Definition set_username (v : string) (u : t) : t :=
  mk v (email u) (password_hash u) (id u) (full_name u)
     (is_active u) (is_superuser u) (created_at u) (updated_at u).
Definition set_email (v : string) (u : t) : t :=
  mk (username u) v (password_hash u) (id u) (full_name u)
     (is_active u) (is_superuser u) (created_at u) (updated_at u).
Definition set_password_hash (v : string) (u : t) : t :=
  mk (username u) (email u) v (id u) (full_name u)
     (is_active u) (is_superuser u) (created_at u) (updated_at u).
Definition set_full_name (v : option string) (u : t) : t :=
  mk (username u) (email u) (password_hash u) (id u) v
     (is_active u) (is_superuser u) (created_at u) (updated_at u).
Definition set_is_active (v : bool) (u : t) : t :=
  mk (username u) (email u) (password_hash u) (id u) (full_name u)
     v (is_superuser u) (created_at u) (updated_at u).
Definition set_is_superuser (v : bool) (u : t) : t :=
  mk (username u) (email u) (password_hash u) (id u) (full_name u)
     (is_active u) v (created_at u) (updated_at u).
Definition set_updated_at (v : datetime) (u : t) : t :=
  mk (username u) (email u) (password_hash u) (id u) (full_name u)
     (is_active u) (is_superuser u) (created_at u) v.

Definition _validate_username : M (t * Env) unit :=
  raw ← self_ username;
  if negb (Py.truthy (Py.strip raw)) then
    raise (ValueError "Username cannot be empty")
  else
    let username := Py.strip raw in
    if (Py.len username <? 3)%nat then
      raise (ValueError "Username must be at least 3 characters long")
    else if (50 <? Py.len username)%nat then
      raise (ValueError "Username cannot exceed 50 characters")
    else if negb (Py.match_username_pattern username) then
      raise (ValueError
               "Username can only contain letters, numbers, and underscores")
    else if Py.startswith_char "_" username || Py.endswith_char "_" username then
      raise (ValueError "Username cannot start or end with underscore")
    else assign (set_username username).

Definition _validate_email : M (t * Env) unit :=
  raw ← self_ email;
  if negb (Py.truthy (Py.strip raw)) then
    raise (ValueError "Email cannot be empty")
  else
    let email := Py.lower (Py.strip raw) in
    if (255 <? Py.len email)%nat then
      raise (ValueError "Email cannot exceed 255 characters")
    else if negb (Py.match_email_pattern email) then
      raise (ValueError "Email must have a valid format")
    else assign (set_email email).

Definition _validate_password_hash : M (t * Env) unit :=
  password_hash ← self_ password_hash;
  if negb (Py.truthy (Py.strip password_hash)) then
    raise (ValueError "Password hash cannot be empty")
  else ret tt.

Definition _validate_full_name : M (t * Env) unit :=
  full_name ← self_ full_name;
  match full_name with
  | Some name =>
      if (100 <? Py.len (Py.strip name))%nat then
        raise (ValueError "Full name cannot exceed 100 characters")
      else
        assign (set_full_name
                  (if Py.truthy (Py.strip name) then Some (Py.strip name)
                   else None))
  | None => ret tt
  end.

(** Truth value of an optional string: [None] and the empty string are
    false. *)
Definition truthy_opt (o : option string) : bool :=
  match o with Some s => Py.truthy s | None => false end.

(** [User(username=..., email=..., password_hash=..., full_name=...)], as
    the registration use case calls it: the flags and the time stamps
    come from their defaults. *)
Definition __init__ (username email password_hash : string)
    (full_name : option string) : M Env t :=
  id ← uuid4;
  created_at ← utcnow;
  updated_at ← utcnow;
  construct
    (mk username email password_hash id full_name true false
        created_at updated_at)
    (_validate_username;; _validate_email;; _validate_password_hash;;
     if truthy_opt full_name then _validate_full_name else ret tt).

Definition update_username (new_username : string) : M (t * Env) unit :=
  old_username ← self_ username;
  assign (set_username new_username);;
  try_except
    (_validate_username;;
     now ← utcnow;
     assign (set_updated_at now))
    (fun e => if is_ValueError e
              then Some (assign (set_username old_username);; raise e)
              else None).

Definition update_email (new_email : string) : M (t * Env) unit :=
  old_email ← self_ email;
  assign (set_email new_email);;
  try_except
    (_validate_email;;
     now ← utcnow;
     assign (set_updated_at now))
    (fun e => if is_ValueError e
              then Some (assign (set_email old_email);; raise e)
              else None).

Definition update_password_hash (new_password_hash : string) : M (t * Env) unit :=
  old_password_hash ← self_ password_hash;
  assign (set_password_hash new_password_hash);;
  try_except
    (_validate_password_hash;;
     now ← utcnow;
     assign (set_updated_at now))
    (fun e => if is_ValueError e
              then Some (assign (set_password_hash old_password_hash);; raise e)
              else None).

Definition update_full_name (new_full_name : option string) : M (t * Env) unit :=
  old_full_name ← self_ full_name;
  assign (set_full_name new_full_name);;
  try_except
    (_validate_full_name;;
     now ← utcnow;
     assign (set_updated_at now))
    (fun e => if is_ValueError e
              then Some (assign (set_full_name old_full_name);; raise e)
              else None).

Definition activate : M (t * Env) unit :=
  is_active ← self_ is_active;
  if negb is_active then
    assign (set_is_active true);;
    now ← utcnow;
    assign (set_updated_at now)
  else ret tt.

Definition deactivate : M (t * Env) unit :=
  is_active ← self_ is_active;
  if (is_active : bool) then
    assign (set_is_active false);;
    now ← utcnow;
    assign (set_updated_at now)
  else ret tt.

Definition make_superuser : M (t * Env) unit :=
  is_active ← self_ is_active;
  if negb is_active then
    raise (ValueError "Cannot grant superuser privileges to inactive user")
  else
    is_superuser ← self_ is_superuser;
    if negb is_superuser then
      assign (set_is_superuser true);;
      now ← utcnow;
      assign (set_updated_at now)
    else ret tt.

Definition remove_superuser : M (t * Env) unit :=
  is_superuser ← self_ is_superuser;
  if (is_superuser : bool) then
    assign (set_is_superuser false);;
    now ← utcnow;
    assign (set_updated_at now)
  else ret tt.

End User.

(** ** Database models (src/infrastructure/database/models)

    A table is a finite map from the primary key to the row.  The rows of
    [comments] and [users] have the columns of the entity; a row of
    [blog_posts] has no list of comment identifiers: the model reads it
    through the [comments] relationship.  Column widths, unique indexes
    and foreign keys of the schema are not part of the model, and no
    statement fails for a reason of the database engine. *)

Module BlogPostModel.

Record t := mk {
  id : UUID;
  title : string;
  content : string;
  created_at : datetime;
  updated_at : datetime
}.

(** [to_entity], given the rows of the [comments] relationship. *)
Definition to_entity (self : t) (comments : list Comment.t) : BlogPost.t :=
  BlogPost.mk (title self) (content self) (id self)
              (created_at self) (updated_at self)
              (map Comment.id comments).

Definition from_entity (entity : BlogPost.t) : t :=
  mk (BlogPost.id entity) (BlogPost.title entity) (BlogPost.content entity)
     (BlogPost.created_at entity) (BlogPost.updated_at entity).

Definition update_from_entity (entity : BlogPost.t) (self : t) : t :=
  mk (id self) (BlogPost.title entity) (BlogPost.content entity)
     (created_at self) (BlogPost.updated_at entity).

End BlogPostModel.

Module CommentModel.

Abbreviation t := Comment.t (only parsing).

Definition to_entity (self : t) : Comment.t :=
  Comment.mk (Comment.content self) (Comment.blog_post_id self)
             (Comment.id self) (Comment.author_name self)
             (Comment.author_email self) (Comment.created_at self)
             (Comment.updated_at self) (Comment.is_approved self).

Definition from_entity (entity : Comment.t) : t :=
  Comment.mk (Comment.content entity) (Comment.blog_post_id entity)
             (Comment.id entity) (Comment.author_name entity)
             (Comment.author_email entity) (Comment.created_at entity)
             (Comment.updated_at entity) (Comment.is_approved entity).

Definition update_from_entity (entity : Comment.t) (self : t) : t :=
  Comment.mk (Comment.content entity) (Comment.blog_post_id self)
             (Comment.id self) (Comment.author_name entity)
             (Comment.author_email entity) (Comment.created_at self)
             (Comment.updated_at entity) (Comment.is_approved entity).

End CommentModel.

Module UserModel.

Abbreviation t := User.t (only parsing).

Definition to_entity (self : t) : User.t :=
  User.mk (User.username self) (User.email self) (User.password_hash self)
          (User.id self) (User.full_name self) (User.is_active self)
          (User.is_superuser self) (User.created_at self)
          (User.updated_at self).

Definition from_entity (entity : User.t) : t :=
  User.mk (User.username entity) (User.email entity)
          (User.password_hash entity) (User.id entity)
          (User.full_name entity) (User.is_active entity)
          (User.is_superuser entity) (User.created_at entity)
          (User.updated_at entity).

Definition update_from_entity (entity : User.t) (self : t) : t :=
  User.mk (User.username entity) (User.email entity)
          (User.password_hash entity) (User.id self)
          (User.full_name entity) (User.is_active entity)
          (User.is_superuser entity) (User.created_at self)
          (User.updated_at entity).

End UserModel.

(** ** The world the use cases run in *)

Record Db := {
  blog_posts : gmap UUID BlogPostModel.t;
  comments : gmap UUID Comment.t;
  users : gmap UUID User.t
}.

(** The calls that reach a collaborator, in the order they are made. *)
Inductive Event :=
| BlogPostRepo (method : string) (key : UUID)
| CommentRepo (method : string) (key : UUID)
| UserRepo (method : string) (key : string)
| UserRepoId (method : string) (key : UUID)
| HashPassword.

Record World := {
  db : Db;
  env : Env;
  hashed : nat;            (* how many passwords were hashed *)
  trace : list Event
}.

Definition set_db (d : Db) (w : World) : World :=
  {| db := d; env := env w; hashed := hashed w; trace := trace w |}.
Definition set_env (e : Env) (w : World) : World :=
  {| db := db w; env := e; hashed := hashed w; trace := trace w |}.
Definition set_hashed (n : nat) (w : World) : World :=
  {| db := db w; env := env w; hashed := n; trace := trace w |}.
Definition set_trace (t : list Event) (w : World) : World :=
  {| db := db w; env := env w; hashed := hashed w; trace := t |}.

Definition set_blog_posts (m : gmap UUID BlogPostModel.t) (d : Db) : Db :=
  {| blog_posts := m; comments := comments d; users := users d |}.
Definition set_comments (m : gmap UUID Comment.t) (d : Db) : Db :=
  {| blog_posts := blog_posts d; comments := m; users := users d |}.
Definition set_users (m : gmap UUID User.t) (d : Db) : Db :=
  {| blog_posts := blog_posts d; comments := comments d; users := m |}.

#[global] Instance World_HasEnv : HasEnv World :=
  {| env_of := env; with_env := set_env |}.

Definition log (ev : Event) : M World unit :=
  modify (fun w => set_trace (trace w ++ [ev]) w).

Definition update_db (f : Db -> Db) : M World unit :=
  modify (fun w => set_db (f (db w)) w).

(** A method call [self.m(...)] on an entity held in a local variable:
    the method runs against the clock of the world, and the variable
    then refers to the object as the method left it. *)
Definition invoke {E} (m : M (E * Env) unit) (self : E) : M World E :=
  fun w => match m (self, env w) with
           | (Ok _, (self', e')) => (Ok self', set_env e' w)
           | (Raise x, (_, e')) => (Raise x, set_env e' w)
           end.

(** An entity constructor called from a use case. *)
Definition new {E} (m : M Env E) : M World E :=
  fun w => match m (env w) with
           | (Ok self, e') => (Ok self, set_env e' w)
           | (Raise x, e') => (Raise x, set_env e' w)
           end.

(** [Result.scalar_one_or_none]: no row, the only row, or
    [MultipleResultsFound], which every repository method turns into its
    repository error. *)
Definition scalar_one_or_none {S A} (rows : list A) (err : exn)
    : M S (option A) :=
  match rows with
  | [] => ret None
  | [r] => ret (Some r)
  | _ => raise err
  end.

(** The rows of a table that satisfy a [where] clause. *)
Definition select {A} (p : A -> bool) (table : gmap UUID A) : list A :=
  filter (fun r => p r = true) (map snd (map_to_list table)).

(** [ORDER BY created_at DESC].  Rows with the same time stamp come in
    an order the database chooses; the model fixes one. *)
Definition not_older {A} (created_at : A -> datetime) (a b : A) : Prop :=
  created_at b <= created_at a.

#[global] Instance not_older_dec {A} (created_at : A -> datetime) :
  RelDecision (not_older created_at) :=
  fun a b => Z_le_dec (created_at b) (created_at a).

Definition newest_first {A} (created_at : A -> datetime) (rows : list A)
    : list A :=
  merge_sort (not_older created_at) rows.

(** [LIMIT limit OFFSET offset], for numbers that are not negative. *)
Definition page {A} (limit offset : nat) (rows : list A) : list A :=
  take limit (drop offset rows).

(** ** Repositories (src/infrastructure/database/repositories) *)

Module CommentRepositoryImpl.

Definition owned_by (blog_post_id : UUID) (c : Comment.t) : bool :=
  bool_decide (Comment.blog_post_id c = blog_post_id).

(** The table without the comments of a post. *)
Definition without_post (blog_post_id : UUID) (table : gmap UUID Comment.t)
    : gmap UUID Comment.t :=
  filter (fun kv => owned_by blog_post_id (snd kv) = false) table.

Definition create (comment : Comment.t) : M World Comment.t :=
  log (CommentRepo "create" (Comment.id comment));;
  existing ← gets (fun w => comments (db w) !! Comment.id comment);
  match existing with
  | Some _ => raise (DuplicateCommentError (Comment.id comment))
  | None =>
      let db_comment := CommentModel.from_entity comment in
      update_db (fun d =>
        set_comments (<[Comment.id db_comment := db_comment]> (comments d)) d);;
      ret (CommentModel.to_entity db_comment)
  end.

Definition get_by_id (comment_id : UUID) : M World (option Comment.t) :=
  log (CommentRepo "get_by_id" comment_id);;
  db_comment ← gets (fun w => comments (db w) !! comment_id);
  ret (CommentModel.to_entity <$> db_comment).

Definition update (comment : Comment.t) : M World Comment.t :=
  log (CommentRepo "update" (Comment.id comment));;
  db_comment ← gets (fun w => comments (db w) !! Comment.id comment);
  match db_comment with
  | None => raise (CommentNotFoundError (Comment.id comment))
  | Some row =>
      let row' := CommentModel.update_from_entity comment row in
      update_db (fun d =>
        set_comments (<[Comment.id comment := row']> (comments d)) d);;
      ret (CommentModel.to_entity row')
  end.

Definition delete (comment_id : UUID) : M World bool :=
  log (CommentRepo "delete" comment_id);;
  db_comment ← gets (fun w => comments (db w) !! comment_id);
  match db_comment with
  | None => ret false
  | Some _ =>
      update_db (fun d => set_comments (base.delete comment_id (comments d)) d);;
      ret true
  end.

(** [DELETE FROM comments WHERE blog_post_id = :id], returning the number
    of rows deleted. *)
Definition delete_by_blog_post_id (blog_post_id : UUID) : M World nat :=
  log (CommentRepo "delete_by_blog_post_id" blog_post_id);;
  rows ← gets (fun w => select (owned_by blog_post_id) (comments (db w)));
  update_db (fun d =>
    set_comments (without_post blog_post_id (comments d)) d);;
  ret (length rows).

(** [exists] in the source; the query is on the primary key. *)
Definition exists_ (comment_id : UUID) : M World bool :=
  log (CommentRepo "exists" comment_id);;
  row ← gets (fun w => comments (db w) !! comment_id);
  ret (bool_decide (is_Some row)).

Definition approved_of (blog_post_id : UUID) (c : Comment.t) : bool :=
  owned_by blog_post_id c && bool_decide (Comment.is_approved c = true).

Definition get_by_blog_post_id (blog_post_id : UUID) (limit offset : nat)
    : M World (list Comment.t) :=
  log (CommentRepo "get_by_blog_post_id" blog_post_id);;
  rows ← gets (fun w => select (owned_by blog_post_id) (comments (db w)));
  ret (CommentModel.to_entity <$>
         page limit offset (newest_first Comment.created_at rows)).

Definition get_approved_by_blog_post_id (blog_post_id : UUID)
    (limit offset : nat) : M World (list Comment.t) :=
  log (CommentRepo "get_approved_by_blog_post_id" blog_post_id);;
  rows ← gets (fun w => select (approved_of blog_post_id) (comments (db w)));
  ret (CommentModel.to_entity <$>
         page limit offset (newest_first Comment.created_at rows)).

Definition count_by_blog_post_id (blog_post_id : UUID) : M World nat :=
  log (CommentRepo "count_by_blog_post_id" blog_post_id);;
  rows ← gets (fun w => select (owned_by blog_post_id) (comments (db w)));
  ret (length rows).

Definition count_approved_by_blog_post_id (blog_post_id : UUID)
    : M World nat :=
  log (CommentRepo "count_approved_by_blog_post_id" blog_post_id);;
  rows ← gets (fun w => select (approved_of blog_post_id) (comments (db w)));
  ret (length rows).

End CommentRepositoryImpl.

Module BlogPostRepositoryImpl.

(** The rows of the [comments] relationship of a post. *)
Definition comments_of (blog_post_id : UUID) (d : Db) : list Comment.t :=
  select (CommentRepositoryImpl.owned_by blog_post_id) (comments d).

Definition load (d : Db) (row : BlogPostModel.t) : BlogPost.t :=
  BlogPostModel.to_entity row (comments_of (BlogPostModel.id row) d).

Definition create (blog_post : BlogPost.t) : M World BlogPost.t :=
  log (BlogPostRepo "create" (BlogPost.id blog_post));;
  existing ← gets (fun w => blog_posts (db w) !! BlogPost.id blog_post);
  match existing with
  | Some _ => raise (DuplicateBlogPostError (BlogPost.id blog_post))
  | None =>
      let db_blog_post := BlogPostModel.from_entity blog_post in
      update_db (fun d =>
        set_blog_posts
          (<[BlogPostModel.id db_blog_post := db_blog_post]> (blog_posts d)) d);;
      gets (fun w => load (db w) db_blog_post)
  end.

Definition get_by_id (blog_post_id : UUID) : M World (option BlogPost.t) :=
  log (BlogPostRepo "get_by_id" blog_post_id);;
  gets (fun w => load (db w) <$> blog_posts (db w) !! blog_post_id).

Definition update (blog_post : BlogPost.t) : M World BlogPost.t :=
  log (BlogPostRepo "update" (BlogPost.id blog_post));;
  db_blog_post ← gets (fun w => blog_posts (db w) !! BlogPost.id blog_post);
  match db_blog_post with
  | None => raise (BlogPostNotFoundError (BlogPost.id blog_post))
  | Some row =>
      let row' := BlogPostModel.update_from_entity blog_post row in
      update_db (fun d =>
        set_blog_posts (<[BlogPost.id blog_post := row']> (blog_posts d)) d);;
      gets (fun w => load (db w) row')
  end.

(** [session.delete] on a post also deletes the rows of its [comments]
    relationship (cascade [all, delete-orphan]). *)
Definition delete (blog_post_id : UUID) : M World bool :=
  log (BlogPostRepo "delete" blog_post_id);;
  db_blog_post ← gets (fun w => blog_posts (db w) !! blog_post_id);
  match db_blog_post with
  | None => ret false
  | Some _ =>
      update_db (fun d =>
        set_blog_posts (base.delete blog_post_id (blog_posts d))
          (set_comments
             (CommentRepositoryImpl.without_post blog_post_id (comments d))
             d));;
      ret true
  end.

(** [exists] in the source; the query is on the primary key. *)
Definition exists_ (blog_post_id : UUID) : M World bool :=
  log (BlogPostRepo "exists" blog_post_id);;
  row ← gets (fun w => blog_posts (db w) !! blog_post_id);
  ret (bool_decide (is_Some row)).

End BlogPostRepositoryImpl.

Module UserRepositoryImpl.

Definition by_username (username : string) (d : Db) : list User.t :=
  select (fun u => bool_decide (User.username u = username)) (users d).

Definition by_email (email : string) (d : Db) : list User.t :=
  select (fun u => bool_decide (User.email u = Py.lower email)) (users d).

Definition exists_by_username (username : string) : M World bool :=
  log (UserRepo "exists_by_username" username);;
  rows ← gets (fun w => by_username username (db w));
  r ← scalar_one_or_none (map User.id rows) UserRepositoryError;
  ret (bool_decide (is_Some r)).

Definition exists_by_email (email : string) : M World bool :=
  log (UserRepo "exists_by_email" email);;
  rows ← gets (fun w => by_email email (db w));
  r ← scalar_one_or_none (map User.id rows) UserRepositoryError;
  ret (bool_decide (is_Some r)).

(** The checks of [create] call the two methods above on the repository
    itself; an exception other than [DuplicateUserError] leaves as
    [UserRepositoryError]. *)
Definition create (user : User.t) : M World User.t :=
  log (UserRepoId "create" (User.id user));;
  existing_id ← gets (fun w => users (db w) !! User.id user);
  match existing_id with
  | Some _ => raise (DuplicateUserError (str_of_uuid (User.id user)) "id")
  | None =>
      by_name ← exists_by_username (User.username user);
      if (by_name : bool) then
        raise (DuplicateUserError (User.username user) "username")
      else
        by_mail ← exists_by_email (User.email user);
        if (by_mail : bool) then
          raise (DuplicateUserError (User.email user) "email")
        else
          let db_user := UserModel.from_entity user in
          update_db (fun d =>
            set_users (<[User.id db_user := db_user]> (users d)) d);;
          ret (UserModel.to_entity db_user)
  end.

Definition get_by_id (user_id : UUID) : M World (option User.t) :=
  log (UserRepoId "get_by_id" user_id);;
  db_user ← gets (fun w => users (db w) !! user_id);
  ret (UserModel.to_entity <$> db_user).

Definition get_by_username (username : string) : M World (option User.t) :=
  log (UserRepo "get_by_username" username);;
  rows ← gets (fun w => by_username username (db w));
  db_user ← scalar_one_or_none rows UserRepositoryError;
  ret (UserModel.to_entity <$> db_user).

Definition get_by_email (email : string) : M World (option User.t) :=
  log (UserRepo "get_by_email" email);;
  rows ← gets (fun w => by_email email (db w));
  db_user ← scalar_one_or_none rows UserRepositoryError;
  ret (UserModel.to_entity <$> db_user).

Definition update (user : User.t) : M World User.t :=
  log (UserRepoId "update" (User.id user));;
  db_user ← gets (fun w => users (db w) !! User.id user);
  match db_user with
  | None => raise (UserNotFoundError (str_of_uuid (User.id user)) "id")
  | Some row =>
      let row' := UserModel.update_from_entity user row in
      update_db (fun d => set_users (<[User.id user := row']> (users d)) d);;
      ret (UserModel.to_entity row')
  end.

End UserRepositoryImpl.

(** ** Security services (src/infrastructure/security)

    The two services wrap libraries: passlib's [CryptContext] and jose's
    [jwt].  What the libraries compute is a parameter of the model. *)

Record Externals := {
  (* CryptContext.hash; the first argument tells the calls apart, as the
     salt does *)
  bcrypt_hash : nat -> string -> string;
  (* CryptContext.verify *)
  bcrypt_verify : string -> string -> bool;
  (* jwt.decode at a given time; None is JWTError *)
  jwt_decode : string -> datetime -> option (gmap string string);
  (* UUID(text); None is the ValueError of a malformed text *)
  uuid_parse : string -> option UUID
}.

Section UseCases.

Context (X : Externals).


(** [PasswordHasher.hash_password]. *)
Definition hash_password (password : string) : M World string :=
  log HashPassword;;
  n ← gets hashed;
  modify (set_hashed (S n));;
  ret (bcrypt_hash X n password).

(** [PasswordHasher.verify_password]. *)
Definition verify_password (plain_password hashed_password : string)
    : M World bool :=
  ret (bcrypt_verify X plain_password hashed_password).

(** [TokenManager.decode_reset_token]. *)
Definition decode_reset_token (token : string) : M World (gmap string string) :=
  try_except
    (now ← utcnow;
     match jwt_decode X token now with
     | None => raise JWTError
     | Some payload =>
         if bool_decide (payload !! "type" = Some "reset") then ret payload
         else raise (TokenInvalidError "Invalid token type")
     end)
    (fun e => match e with
              | JWTError => Some (raise (TokenInvalidError "Invalid reset token"))
              | _ => None
              end).

(** [UUID(payload.get(key))]. *)
Definition UUID_of_claim (payload : gmap string string) (key : string)
    : M World UUID :=
  match payload !! key with
  | None => raise TypeError
  | Some text =>
      match uuid_parse X text with
      | None => raise (ValueError "badly formed hexadecimal UUID string")
      | Some u => ret u
      end
  end.

(** ** Authentication use cases (src/domain/use_cases/auth_use_cases.py) *)

Definition special_chars : string := "!@#$%^&*()_+-=[]{}|;:,.<>?".

Definition _validate_password_strength {S} (password : string) : M S unit :=
  if (Py.len password <? 8)%nat then
    raise (ValueError "Password must be at least 8 characters long")
  else if negb (Py.any Py.isupper password) then
    raise (ValueError "Password must contain at least one uppercase letter")
  else if negb (Py.any Py.islower password) then
    raise (ValueError "Password must contain at least one lowercase letter")
  else if negb (Py.any Py.isdigit password) then
    raise (ValueError "Password must contain at least one digit")
  else if negb (Py.any (fun c => Py.char_in c special_chars) password) then
    raise (ValueError "Password must contain at least one special character")
  else ret tt.

Definition register_user (username email password : string)
    (full_name : option string) : M World User.t :=
  _validate_password_strength password;;
  name_taken ← UserRepositoryImpl.exists_by_username username;
  if (name_taken : bool) then raise (DuplicateUserError username "username")
  else
    email_taken ← UserRepositoryImpl.exists_by_email email;
    if (email_taken : bool) then raise (DuplicateUserError email "email")
    else
      password_hash ← hash_password password;
      user ← new (User.__init__ username email password_hash full_name);
      UserRepositoryImpl.create user.

Definition authenticate_user (username_or_email password : string)
    : M World (option User.t) :=
  user ← UserRepositoryImpl.get_by_username username_or_email;
  user ← match user with
         | Some _ => ret user
         | None => UserRepositoryImpl.get_by_email username_or_email
         end;
  match user with
  | None => ret None
  | Some u =>
      if negb (User.is_active u) then ret None
      else
        ok ← verify_password password (User.password_hash u);
        if negb ok then ret None else ret (Some u)
  end.

Definition confirm_password_reset (reset_token new_password : string)
    : M World bool :=
  try_except
    (payload ← decode_reset_token reset_token;
     user_id ← UUID_of_claim payload "user_id";
     user ← UserRepositoryImpl.get_by_id user_id;
     match user with
     | None => raise (ValueError "Invalid reset token")
     | Some user =>
         if negb (User.is_active user) then
           raise (ValueError "Invalid reset token")
         else
           _validate_password_strength new_password;;
           new_password_hash ← hash_password new_password;
           user ← invoke (User.update_password_hash new_password_hash) user;
           UserRepositoryImpl.update user;;
           ret true
     end)
    (fun _ => Some (raise (ValueError "Invalid or expired reset token"))).

(** ** Blog post use cases (src/domain/use_cases/blog_post_use_cases.py) *)

Definition create_blog_post (title content : string) : M World BlogPost.t :=
  blog_post ← new (BlogPost.__init__ title content);
  taken ← BlogPostRepositoryImpl.exists_ (BlogPost.id blog_post);
  if (taken : bool) then raise (DuplicateBlogPostError (BlogPost.id blog_post))
  else BlogPostRepositoryImpl.create blog_post.

Definition get_blog_post_by_id (blog_post_id : UUID) : M World BlogPost.t :=
  blog_post ← BlogPostRepositoryImpl.get_by_id blog_post_id;
  match blog_post with
  | None => raise (BlogPostNotFoundError blog_post_id)
  | Some blog_post => ret blog_post
  end.

Definition update_blog_post (blog_post_id : UUID) (title content : option string)
    : M World BlogPost.t :=
  blog_post ← get_blog_post_by_id blog_post_id;
  blog_post ← match title with
              | Some title => invoke (BlogPost.update_title title) blog_post
              | None => ret blog_post
              end;
  blog_post ← match content with
              | Some content => invoke (BlogPost.update_content content) blog_post
              | None => ret blog_post
              end;
  BlogPostRepositoryImpl.update blog_post.

Definition delete_blog_post (blog_post_id : UUID) : M World bool :=
  found ← BlogPostRepositoryImpl.exists_ blog_post_id;
  if negb found then ret false
  else
    CommentRepositoryImpl.delete_by_blog_post_id blog_post_id;;
    BlogPostRepositoryImpl.delete blog_post_id.

(** ** Comment use cases (src/domain/use_cases/comment_use_cases.py) *)

Definition get_comment_by_id (comment_id : UUID) : M World Comment.t :=
  comment ← CommentRepositoryImpl.get_by_id comment_id;
  match comment with
  | None => raise (CommentNotFoundError comment_id)
  | Some comment => ret comment
  end.

Definition approve_comment (comment_id : UUID) : M World Comment.t :=
  comment ← get_comment_by_id comment_id;
  comment ← invoke Comment.approve comment;
  CommentRepositoryImpl.update comment.

Definition reject_comment (comment_id : UUID) : M World Comment.t :=
  comment ← get_comment_by_id comment_id;
  comment ← invoke Comment.reject comment;
  CommentRepositoryImpl.update comment.

(** The body of the [for] loop of [moderate_comments_batch]. *)
Definition moderate_one (action : string) (comment_id : UUID)
    : M World Comment.t :=
  if bool_decide (action = "approve") then approve_comment comment_id
  else reject_comment comment_id.

(** The [for] loop of [moderate_comments_batch]. *)
Fixpoint moderate_loop (action : string) (comment_ids : list UUID)
    (moderated_comments : list Comment.t) : M World (list Comment.t) :=
  match comment_ids with
  | [] => ret moderated_comments
  | comment_id :: rest =>
      comment ← moderate_one action comment_id;
      moderate_loop action rest (moderated_comments ++ [comment])
  end.

Definition moderate_comments_batch (comment_ids : list UUID) (action : string)
    : M World (list Comment.t) :=
  if negb (bool_decide (action ∈ ["approve"; "reject"])) then
    raise (ValueError "Action must be 'approve' or 'reject'")
  else moderate_loop action comment_ids [].

End UseCases.

(** ** Validation rules, as conditions on the value

    The rule each validator enforces, as a boolean on the value it is
    given (section 3 of the specification). *)

Module Valid.

Definition blank (s : string) : bool := negb (Py.truthy (Py.strip s)).

(** Title: not blank, at most 200 characters. *)
Definition title (s : string) : bool :=
  negb (blank s) && (Py.len s <=? 200)%nat.

(** Content of a post: not blank. *)
Definition post_content (s : string) : bool := negb (blank s).

(** Content of a comment: not blank, at most 1000 characters. *)
Definition comment_content (s : string) : bool :=
  negb (blank s) && (Py.len s <=? 1000)%nat.

(** Author name: at most 100 characters. *)
Definition author_name (s : string) : bool := (Py.len s <=? 100)%nat.

(** Author email: at most 255 characters, with an [@] unless empty. *)
Definition author_email (s : string) : bool :=
  (Py.len s <=? 255)%nat && (negb (Py.truthy s) || Py.char_in "@" s).

(** A value that may be left out is checked only when given. *)
Definition opt (rule : string -> bool) (o : option string) : bool :=
  match o with Some s => rule s | None => true end.

(** Username, trimmed: 3 to 50 characters, letters, digits and
    underscores, no underscore at either end. *)
Definition username (s : string) : bool :=
  let u := Py.strip s in
  (3 <=? Py.len u)%nat && (Py.len u <=? 50)%nat &&
  Py.match_username_pattern u &&
  negb (Py.startswith_char "_" u) && negb (Py.endswith_char "_" u).

(** Email, trimmed and lowercased: not empty, at most 255 characters, of
    the shape local@domain.tld. *)
Definition email (s : string) : bool :=
  let m := Py.lower (Py.strip s) in
  negb (blank s) && (Py.len m <=? 255)%nat && Py.match_email_pattern m.

(** Password hash: not blank. *)
Definition password_hash (s : string) : bool := negb (blank s).

(** Full name, trimmed: at most 100 characters. *)
Definition full_name (s : string) : bool := (Py.len (Py.strip s) <=? 100)%nat.

(** Password strength: at least 8 characters, with an uppercase letter, a
    lowercase letter, a digit and a character of [special_chars]. *)
Definition strong_password (s : string) : bool :=
  (8 <=? Py.len s)%nat && Py.any Py.isupper s && Py.any Py.islower s &&
  Py.any Py.isdigit s && Py.any (fun c => Py.char_in c special_chars) s.

End Valid.

(** What a successful mutation stores: the value as the validator
    normalises it. *)
Definition stored_full_name (o : option string) : option string :=
  match o with
  | Some s => if Py.truthy (Py.strip s) then Some (Py.strip s) else None
  | None => None
  end.

Definition set_opt {E} (set : string -> E -> E) (o : option string) (x : E) : E :=
  match o with Some s => set s x | None => x end.

(** ** The operations of each entity, as data *)

Module BlogPostOp.
Inductive t :=
| UpdateTitle (new_title : string)
| UpdateContent (new_content : string)
| AddCommentId (comment_id : UUID)
| RemoveCommentId (comment_id : UUID).

Definition run (op : t) : M (BlogPost.t * Env) unit :=
  match op with
  | UpdateTitle s => BlogPost.update_title s
  | UpdateContent s => BlogPost.update_content s
  | AddCommentId c => BlogPost.add_comment_id c
  | RemoveCommentId c => BlogPost.remove_comment_id c
  end.
End BlogPostOp.

Module CommentOp.
Inductive t :=
| UpdateContent (new_content : string)
| UpdateAuthorInfo (name email : option string)
| Approve
| Reject.

Definition run (op : t) : M (Comment.t * Env) unit :=
  match op with
  | UpdateContent s => Comment.update_content s
  | UpdateAuthorInfo n m => Comment.update_author_info n m
  | Approve => Comment.approve
  | Reject => Comment.reject
  end.
End CommentOp.

Module UserOp.
Inductive t :=
| UpdateUsername (new_username : string)
| UpdateEmail (new_email : string)
| UpdatePasswordHash (new_password_hash : string)
| UpdateFullName (new_full_name : option string)
| Activate
| Deactivate
| MakeSuperuser
| RemoveSuperuser.

Definition run (op : t) : M (User.t * Env) unit :=
  match op with
  | UpdateUsername s => User.update_username s
  | UpdateEmail s => User.update_email s
  | UpdatePasswordHash s => User.update_password_hash s
  | UpdateFullName o => User.update_full_name o
  | Activate => User.activate
  | Deactivate => User.deactivate
  | MakeSuperuser => User.make_superuser
  | RemoveSuperuser => User.remove_superuser
  end.

End UserOp.

(** A caller that performs the operations one after the other on the
    same object, going on after an operation that raised. *)
Definition run_all {E Op} (run : Op -> M (E * Env) unit) (ops : list Op)
    (s : E * Env) : E * Env :=
  fold_left (fun s op => snd (run op s)) ops s.

(** ** Properties of states *)






(** A mutation either applies the value and stamps the object with the
    clock reading it takes, or raises [ValueError] and leaves object and
    clock as they were. *)
Definition applies_or_rolls_back {E} (m : M (E * Env) unit) (valid : bool)
    (apply : E -> E) (stamp : datetime -> E -> E) : Prop :=
  forall (self : E) (e : Env),
    if valid
    then m (self, e) = (Ok tt, (stamp (now_at e (ticks e)) (apply self), tick e))
    else exists msg, m (self, e) = (Raise (ValueError msg), (self, e)).

(** Every row of the table is stored under its own identifier: the
    primary key. *)
Definition keyed {A} (id_of : A -> UUID) (table : gmap UUID A) : Prop :=
  forall k r, table !! k = Some r -> id_of r = k.

(** The flag an action of the batch moderation sets. *)
Definition moderation_flag (action : string) : bool :=
  bool_decide (action = "approve").

(** A comment after [approve] (flag true) or [reject] (flag false) at
    clock reading [t]. *)
Definition moderated (flag : bool) (t : datetime) (c : Comment.t) : Comment.t :=
  if bool_decide (Comment.is_approved c = flag) then c
  else Comment.set_updated_at t (Comment.set_is_approved flag c).

(** The repository calls of the moderation of a list of comments that
    all exist. *)
Definition moderation_calls (ids : list UUID) : list Event :=
  flat_map (fun id => [CommentRepo "get_by_id" id; CommentRepo "update" id])
           ids.

(** What [scalar_one_or_none] comes to on the rows of a query. *)
Definition one_or_none {A} (rows : list A) (err : exn) : result (option A) :=
  match rows with
  | [] => Ok None
  | [r] => Ok (Some r)
  | _ => Raise err
  end.

(** The one failure of [confirm_password_reset]. *)
Definition generic_reset_failure : exn :=
  ValueError "Invalid or expired reset token".

(** What the check of a user that was found comes to. *)
Definition admitted (X : Externals) (password : string) (u : User.t)
    : option User.t :=
  if User.is_active u && bcrypt_verify X password (User.password_hash u)
  then Some u else None.


(** ** Sample data for the examples *)

Module Sample.

Definition env0 : Env :=
  {| now_at := fun n => 1000 + Z.of_nat n; ticks := 0;
     uuid_at := fun n => (100 + N.of_nat n)%N; drawn := 0 |}.

Definition hash (salt : nat) (password : string) : string :=
  pretty salt +:+ "$" +:+ password.

Definition verify (password hashed : string) : bool :=
  match Py.partition "$" hashed with
  | Some (_, p) => bool_decide (p = password)
  | None => false
  end.

(** The token ["reset-7"] is a valid reset token for user 7 and
    ["access-7"] a valid access token; no other text decodes. *)
Definition decode (token : string) (now : datetime)
    : option (gmap string string) :=
  if bool_decide (token = "reset-7") then
    Some (<["type" := "reset"]> (<["user_id" := "7"]> ∅))
  else if bool_decide (token = "access-7") then
    Some (<["type" := "access"]> (<["sub" := "7"]> ∅))
  else None.

Definition parse (text : string) : option UUID :=
  if bool_decide (text = "7") then Some 7%N else None.

Definition X : Externals :=
  {| bcrypt_hash := hash; bcrypt_verify := verify;
     jwt_decode := decode; uuid_parse := parse |}.

Definition alice : User.t :=
  User.mk "alice" "alice@example.com" (hash 0 "Valid123!") 7%N None
          true false 10 10.

Definition bob : User.t :=
  User.mk "bob" "bob@example.com" (hash 1 "Secret99#") 8%N None
          false false 20 20.

Definition post1 : BlogPostModel.t := BlogPostModel.mk 1%N "Hello" "World" 5 5.
Definition post2 : BlogPostModel.t := BlogPostModel.mk 2%N "Other" "Text" 5 5.

Definition comment (id post : UUID) (approved : bool) : Comment.t :=
  Comment.mk "nice" post id "Anonymous" "" 6 6 approved.

Definition db0 : Db :=
  {| blog_posts := <[1%N := post1]> (<[2%N := post2]> ∅);
     comments := <[11%N := comment 11%N 1%N false]>
                   (<[12%N := comment 12%N 1%N false]>
                      (<[13%N := comment 13%N 2%N true]> ∅));
     users := <[7%N := alice]> (<[8%N := bob]> ∅) |}.

Definition world0 : World :=
  {| db := db0; env := env0; hashed := 2; trace := [] |}.

End Sample.

(** ** The other use cases of posts and comments *)

(** [BlogPostUseCases.get_blog_post_with_comments]: the approved
    comments come from the repository with its default page (100 rows
    from the first). *)
Definition get_blog_post_with_comments (blog_post_id : UUID)
    : M World (BlogPost.t * list Comment.t) :=
  blog_post ← get_blog_post_by_id blog_post_id;
  comments ←
    CommentRepositoryImpl.get_approved_by_blog_post_id blog_post_id 100 0;
  ret (blog_post, comments).

(** [CommentUseCases.create_comment]. *)
Definition create_comment (blog_post_id : UUID)
    (content author_name author_email : string) : M World Comment.t :=
  blog_post ← BlogPostRepositoryImpl.get_by_id blog_post_id;
  match blog_post with
  | None => raise (BlogPostNotFoundError blog_post_id)
  | Some blog_post =>
      comment ← new (Comment.__init__ content blog_post_id
                       author_name author_email);
      taken ← CommentRepositoryImpl.exists_ (Comment.id comment);
      if (taken : bool) then raise (DuplicateCommentError (Comment.id comment))
      else
        created_comment ← CommentRepositoryImpl.create comment;
        blog_post ← invoke (BlogPost.add_comment_id (Comment.id created_comment))
                      blog_post;
        BlogPostRepositoryImpl.update blog_post;;
        ret created_comment
  end.

(** [CommentUseCases.get_comments_for_blog_post]. *)
Definition get_comments_for_blog_post (blog_post_id : UUID)
    (approved_only : bool) (limit offset : nat) : M World (list Comment.t) :=
  found ← BlogPostRepositoryImpl.exists_ blog_post_id;
  if negb found then raise (BlogPostNotFoundError blog_post_id)
  else if approved_only then
    CommentRepositoryImpl.get_approved_by_blog_post_id blog_post_id limit offset
  else
    CommentRepositoryImpl.get_by_blog_post_id blog_post_id limit offset.


(** [CommentUseCases.delete_comment]. *)
Definition delete_comment (comment_id : UUID) : M World bool :=
  found ← try_except
            (comment ← get_comment_by_id comment_id; ret (Some comment))
            (fun e => match e with
                      | CommentNotFoundError _ => Some (ret None)
                      | _ => None
                      end);
  match found with
  | None => ret false
  | Some comment =>
      blog_post ← BlogPostRepositoryImpl.get_by_id (Comment.blog_post_id comment);
      match blog_post with
      | Some blog_post =>
          try_except
            (blog_post ← invoke (BlogPost.remove_comment_id comment_id)
                           blog_post;
             BlogPostRepositoryImpl.update blog_post;;
             ret tt)
            (fun e => if is_ValueError e then Some (ret tt) else None)
      | None => ret tt
      end;;
      CommentRepositoryImpl.delete comment_id
  end.

(** The columns of a post that no use case of comments writes. *)
Definition post_core (row : BlogPostModel.t)
    : UUID * string * string * datetime :=
  (BlogPostModel.id row, BlogPostModel.title row, BlogPostModel.content row,
   BlogPostModel.created_at row).

(** ** Tokens and the other authentication use cases

    What is encoded by libraries is a parameter, as above: [jwt.encode]
    of jose and [datetime.isoformat]. *)

Record Encoders := {
  (* jwt.encode of the claims and of the expiry time *)
  jwt_encode : gmap string string -> datetime -> string;
  (* datetime.isoformat *)
  isoformat : datetime -> string
}.

(** [TokenSettings]: the two life times, in minutes. *)
Record TokenSettings := {
  access_token_expire_minutes : Z;
  reset_token_expire_minutes : Z
}.

Definition default_settings : TokenSettings :=
  {| access_token_expire_minutes := 30; reset_token_expire_minutes := 15 |}.

(** [timedelta(minutes=m)], in microseconds. *)
Definition minutes (m : Z) : Z := m * 60 * 1000000.

(** The values of a dictionary handed to the caller. *)
#[local] Unset Elimination Schemes.
Inductive pyval :=
| PStr (s : string)
| PBool (b : bool)
| PInt (z : Z)
| PNone
| PDict (items : list (string * pyval)).
#[local] Set Elimination Schemes.

(** The text of a boolean claim of a token. *)
Definition claim_of_bool (b : bool) : string := if b then "true" else "false".

Section Tokens.

Context (X : Externals) (E : Encoders) (settings : TokenSettings).

(** [TokenManager.create_access_token]: [exp] and [type] replace what
    the data may hold under these keys. *)
Definition TokenManager_create_access_token (data : gmap string string)
    : M World string :=
  now ← utcnow;
  let expire := now + minutes (access_token_expire_minutes settings) in
  let to_encode := <["type" := "access"]> (delete "exp" data) in
  ret (jwt_encode E to_encode expire).

(** [TokenManager.create_reset_token]. *)
Definition create_reset_token (data : gmap string string) : M World string :=
  now ← utcnow;
  let expire := now + minutes (reset_token_expire_minutes settings) in
  let to_encode := <["type" := "reset"]> (delete "exp" data) in
  ret (jwt_encode E to_encode expire).

(** [TokenManager.decode_token]. *)
Definition decode_token (token : string) : M World (gmap string string) :=
  try_except
    (now ← utcnow;
     match jwt_decode X token now with
     | None => raise JWTError
     | Some payload =>
         if bool_decide (payload !! "type" = Some "access") then ret payload
         else raise (TokenInvalidError "Invalid token type")
     end)
    (fun e => match e with
              | JWTError => Some (raise (TokenInvalidError "Invalid token"))
              | _ => None
              end).

(** [TokenManager.get_token_expiry_seconds]. *)
Definition get_token_expiry_seconds : Z :=
  access_token_expire_minutes settings * 60.

(** [User.to_dict]: the password hash is not among the entries. *)
Definition User_to_dict (self : User.t) : list (string * pyval) :=
  [("id", PStr (str_of_uuid (User.id self)));
   ("username", PStr (User.username self));
   ("email", PStr (User.email self));
   ("full_name", match User.full_name self with
                 | Some n => PStr n
                 | None => PNone
                 end);
   ("is_active", PBool (User.is_active self));
   ("is_superuser", PBool (User.is_superuser self));
   ("created_at", PStr (isoformat E (User.created_at self)));
   ("updated_at", PStr (isoformat E (User.updated_at self)))].

(** The claims [AuthUseCases.create_access_token] puts in the token. *)
Definition token_data (user : User.t) : gmap string string :=
  <["sub" := str_of_uuid (User.id user)]>
    (<["username" := User.username user]>
       (<["email" := User.email user]>
          (<["is_superuser" := claim_of_bool (User.is_superuser user)]> ∅))).

(** [AuthUseCases.create_access_token]. *)
Definition create_access_token (user : User.t)
    : M World (list (string * pyval)) :=
  access_token ← TokenManager_create_access_token (token_data user);
  ret [("access_token", PStr access_token);
       ("token_type", PStr "bearer");
       ("expires_in", PInt get_token_expiry_seconds);
       ("user", PDict (User_to_dict user))].

(** [AuthUseCases.get_current_user]. *)
Definition get_current_user (token : string) : M World (option User.t) :=
  try_except
    (payload ← decode_token token;
     user_id ← UUID_of_claim X payload "sub";
     user ← UserRepositoryImpl.get_by_id user_id;
     match user with
     | Some u => if User.is_active u then ret (Some u) else ret None
     | None => ret None
     end)
    (fun _ => Some (ret None)).

(** [AuthUseCases.change_password]. *)
Definition change_password (user_id : UUID)
    (current_password new_password : string) : M World bool :=
  user ← UserRepositoryImpl.get_by_id user_id;
  match user with
  | None => raise (UserNotFoundError (str_of_uuid user_id) "id")
  | Some user =>
      current_ok ← verify_password X current_password (User.password_hash user);
      if negb current_ok then
        raise (ValueError "Current password is incorrect")
      else
        _validate_password_strength new_password;;
        same ← verify_password X new_password (User.password_hash user);
        if (same : bool) then
          raise (ValueError
                   "New password must be different from current password")
        else
          new_password_hash ← hash_password X new_password;
          user ← invoke (User.update_password_hash new_password_hash) user;
          UserRepositoryImpl.update user;;
          ret true
  end.

(** [AuthUseCases.reset_password].  The token is printed, not returned;
    the standard output is not part of the world. *)
Definition reset_password (email : string) : M World bool :=
  user ← UserRepositoryImpl.get_by_email email;
  match user with
  | None => ret true
  | Some u =>
      if negb (User.is_active u) then ret true
      else
        create_reset_token
          (<["user_id" := str_of_uuid (User.id u)]> ∅);;
        ret true
  end.

End Tokens.

(** The entry of a dictionary under a key. *)
Fixpoint dict_get (key : string) (items : list (string * pyval))
    : option pyval :=
  match items with
  | [] => None
  | (k, v) :: rest => if bool_decide (k = key) then Some v else dict_get key rest
  end.

(** No two rows share a username or an email. *)
Definition unique_users (table : gmap UUID User.t) : Prop :=
  forall k1 k2 u1 u2,
    table !! k1 = Some u1 -> table !! k2 = Some u2 ->
    User.username u1 = User.username u2 \/ User.email u1 = User.email u2 ->
    k1 = k2.

(** Sample encoders: the claims of an access token of [Sample.alice]
    are encoded as ["access-alice"], which decodes to them. *)
Module SampleTokens.

Definition alice_claims : gmap string string :=
  <["type" := "access"]> (token_data Sample.alice).

Definition encode (claims : gmap string string) (exp : datetime) : string :=
  if bool_decide (claims = alice_claims) then "access-alice" else "unknown".

Definition decode (token : string) (now : datetime)
    : option (gmap string string) :=
  if bool_decide (token = "access-alice") then Some alice_claims
  else Sample.decode token now.

Definition E : Encoders :=
  {| jwt_encode := encode; isoformat := fun t => pretty t |}.

Definition X : Externals :=
  {| bcrypt_hash := Sample.hash; bcrypt_verify := Sample.verify;
     jwt_decode := decode; uuid_parse := Sample.parse |}.

End SampleTokens.

(** * Properties *)

(** ** Tactics for the monad *)

Ltac unfold_m :=
  cbv beta iota zeta delta
    [mbind mret M_bind M_ret bind ret raise gets modify try_except self_
     assign utcnow uuid4 construct invoke new log update_db
     scalar_one_or_none fst snd env_of with_env Obj_HasEnv Env_HasEnv
     World_HasEnv is_ValueError] in *.

(** ** Examples of the string functions and of the validators *)

Example strip_inner_space : Py.strip "  ab c  " = "ab c".
Proof. reflexivity. Qed.

Example email_with_subdomain :
  Py.match_email_pattern "a.b@x-y.example.com" = true.
Proof. reflexivity. Qed.

Example email_without_tld : Py.match_email_pattern "a@b" = false.
Proof. reflexivity. Qed.

Example email_short_tld : Py.match_email_pattern "a@b.c" = false.
Proof. reflexivity. Qed.

Example email_two_ats : Py.match_email_pattern "a@@b.com" = false.
Proof. reflexivity. Qed.

Example lower_keeps_symbols : Py.lower "AbC@X.Y" = "abc@x.y".
Proof. reflexivity. Qed.

(** The usernames of section 8 of the specification. *)
Example usernames_of_the_spec :
  Valid.username "_abc" = false /\ Valid.username "abc_" = false /\
  Valid.username "abc" = true /\ Valid.username "ABC_123" = true /\
  Valid.username "ab" = false.
Proof. repeat split; reflexivity. Qed.

(** The passwords of section 8 of the specification. *)
Example passwords_of_the_spec :
  Valid.strong_password "short1!" = false /\
  Valid.strong_password "alllowercase1!" = false /\
  Valid.strong_password "NoDigits!" = false /\
  Valid.strong_password "NoSpecial123" = false /\
  Valid.strong_password "Valid123!" = true.
Proof. repeat split; reflexivity. Qed.

(** ** Comment moderation flags *)

(** C10.  [Comment.approve] on a comment that is already approved returns
    without changing any field of the comment (so [updated_at] stays) and
    without reading the clock; on a comment that is not approved it sets
    the flag and stamps [updated_at] with the clock reading.  [reject] is
    the mirror image: nothing changes on a comment that is already not
    approved, and the flag is cleared and [updated_at] stamped
    otherwise. *)
Theorem C10_approve_reject_touch_only_on_flip :
  forall (c : Comment.t) (e : Env),
    Comment.approve (c, e) =
      (Ok tt,
       if Comment.is_approved c then (c, e)
       else (Comment.set_updated_at (now_at e (ticks e))
               (Comment.set_is_approved true c), tick e))
    /\
    Comment.reject (c, e) =
      (Ok tt,
       if Comment.is_approved c
       then (Comment.set_updated_at (now_at e (ticks e))
               (Comment.set_is_approved false c), tick e)
       else (c, e)).
Proof.
  intros c e. unfold Comment.approve, Comment.reject. unfold_m.
  destruct (Comment.is_approved c); split; reflexivity.
Qed.

(** ** Mutations validate, then apply or roll back *)

#[local] Arguments Py.strip : simpl never.
#[local] Arguments Py.lower : simpl never.
#[local] Arguments Py.len : simpl never.
#[local] Arguments Py.truthy : simpl never.
#[local] Arguments Py.any : simpl never.
#[local] Arguments Py.char_in : simpl never.
#[local] Arguments Py.startswith_char : simpl never.
#[local] Arguments Py.endswith_char : simpl never.
#[local] Arguments Py.match_username_pattern : simpl never.
#[local] Arguments Py.match_email_pattern : simpl never.
#[local] Arguments Nat.ltb : simpl never.
#[local] Arguments Nat.leb : simpl never.

(** Case analysis on the tests a validator makes. *)
Ltac case_tests :=
  repeat (match goal with
         | |- context [Py.truthy ?s] => destruct (Py.truthy s) eqn:?
         | |- context [Py.char_in ?c ?s] => destruct (Py.char_in c s) eqn:?
         | |- context [Py.any ?p ?s] => destruct (Py.any p s) eqn:?
         | |- context [Nat.ltb ?a ?b] => destruct (Nat.ltb a b) eqn:?
         | |- context [Py.match_username_pattern ?s] =>
             destruct (Py.match_username_pattern s) eqn:?
         | |- context [Py.match_email_pattern ?s] =>
             destruct (Py.match_email_pattern s) eqn:?
         | |- context [Py.startswith_char ?c ?s] =>
             destruct (Py.startswith_char c s) eqn:?
         | |- context [Py.endswith_char ?c ?s] =>
             destruct (Py.endswith_char c s) eqn:?
         end; cbn).

Ltac solve_mutation :=
  intros self e; destruct self;
  unfold_m; cbn; rewrite ?Nat.leb_antisym;
  case_tests; cbn;
  try discriminate; try reflexivity; try (eexists; reflexivity).

Lemma BlogPost_update_title_spec (new_title : string) :
  applies_or_rolls_back (BlogPost.update_title new_title)
    (Valid.title new_title) (BlogPost.set_title new_title)
    BlogPost.set_updated_at.
Proof.
  unfold applies_or_rolls_back, BlogPost.update_title,
    BlogPost._validate_title, Valid.title, Valid.blank.
  solve_mutation.
Qed.

Lemma BlogPost_update_content_spec (new_content : string) :
  applies_or_rolls_back (BlogPost.update_content new_content)
    (Valid.post_content new_content) (BlogPost.set_content new_content)
    BlogPost.set_updated_at.
Proof.
  unfold applies_or_rolls_back, BlogPost.update_content,
    BlogPost._validate_content, Valid.post_content, Valid.blank.
  solve_mutation.
Qed.

Lemma Comment_update_content_spec (new_content : string) :
  applies_or_rolls_back (Comment.update_content new_content)
    (Valid.comment_content new_content) (Comment.set_content new_content)
    Comment.set_updated_at.
Proof.
  unfold applies_or_rolls_back, Comment.update_content,
    Comment._validate_content, Valid.comment_content, Valid.blank.
  solve_mutation.
Qed.

Lemma Comment_update_author_info_spec (name email : option string) :
  applies_or_rolls_back (Comment.update_author_info name email)
    (Valid.opt Valid.author_name name && Valid.opt Valid.author_email email)
    (fun c => set_opt Comment.set_author_email email
                (set_opt Comment.set_author_name name c))
    Comment.set_updated_at.
Proof.
  unfold applies_or_rolls_back, Comment.update_author_info,
    Comment._validate_author_name, Comment._validate_author_email,
    Valid.opt, Valid.author_name, Valid.author_email, set_opt.
  destruct name as [name|], email as [email|]; solve_mutation.
Qed.

Lemma truthy_false_len (s : string) : Py.truthy s = false -> Py.len s = 0%nat.
Proof. destruct s; [reflexivity | discriminate]. Qed.

Lemma User_update_username_spec (new_username : string) :
  applies_or_rolls_back (User.update_username new_username)
    (Valid.username new_username)
    (User.set_username (Py.strip new_username)) User.set_updated_at.
Proof.
  unfold applies_or_rolls_back, User.update_username,
    User._validate_username, Valid.username.
  solve_mutation.
  match goal with
  | H : Py.truthy _ = false, H3 : (Py.len _ <? 3)%nat = false |- _ =>
      apply truthy_false_len in H; rewrite H in H3; discriminate H3
  end.
Qed.

Lemma User_update_email_spec (new_email : string) :
  applies_or_rolls_back (User.update_email new_email)
    (Valid.email new_email)
    (User.set_email (Py.lower (Py.strip new_email))) User.set_updated_at.
Proof.
  unfold applies_or_rolls_back, User.update_email, User._validate_email,
    Valid.email, Valid.blank.
  solve_mutation.
Qed.

Lemma User_update_password_hash_spec (new_password_hash : string) :
  applies_or_rolls_back (User.update_password_hash new_password_hash)
    (Valid.password_hash new_password_hash)
    (User.set_password_hash new_password_hash) User.set_updated_at.
Proof.
  unfold applies_or_rolls_back, User.update_password_hash,
    User._validate_password_hash, Valid.password_hash, Valid.blank.
  solve_mutation.
Qed.

Lemma User_update_full_name_spec (new_full_name : option string) :
  applies_or_rolls_back (User.update_full_name new_full_name)
    (Valid.opt Valid.full_name new_full_name)
    (User.set_full_name (stored_full_name new_full_name))
    User.set_updated_at.
Proof.
  unfold applies_or_rolls_back, User.update_full_name,
    User._validate_full_name, Valid.opt, Valid.full_name, stored_full_name.
  destruct new_full_name as [name|]; solve_mutation.
Qed.

(** C1.  Each single-field mutation of each entity either applies the new
    value (normalised as its validator does: the username trimmed, the
    email trimmed and lowercased, the full name trimmed and dropped when
    empty) and sets [updated_at] to the clock reading it takes, or, when
    the new value breaks the rule of the field, raises [ValueError] and
    leaves the object equal to what it was before the call, field by
    field, [updated_at] included, without reading the clock. *)
Theorem C1_mutation_applies_or_rolls_back :
  (forall s, applies_or_rolls_back (BlogPost.update_title s)
               (Valid.title s) (BlogPost.set_title s)
               BlogPost.set_updated_at) /\
  (forall s, applies_or_rolls_back (BlogPost.update_content s)
               (Valid.post_content s) (BlogPost.set_content s)
               BlogPost.set_updated_at) /\
  (forall s, applies_or_rolls_back (Comment.update_content s)
               (Valid.comment_content s) (Comment.set_content s)
               Comment.set_updated_at) /\
  (forall name email,
      applies_or_rolls_back (Comment.update_author_info name email)
        (Valid.opt Valid.author_name name &&
         Valid.opt Valid.author_email email)
        (fun c => set_opt Comment.set_author_email email
                    (set_opt Comment.set_author_name name c))
        Comment.set_updated_at) /\
  (forall s, applies_or_rolls_back (User.update_username s)
               (Valid.username s) (User.set_username (Py.strip s))
               User.set_updated_at) /\
  (forall s, applies_or_rolls_back (User.update_email s)
               (Valid.email s) (User.set_email (Py.lower (Py.strip s)))
               User.set_updated_at) /\
  (forall o, applies_or_rolls_back (User.update_full_name o)
               (Valid.opt Valid.full_name o)
               (User.set_full_name (stored_full_name o))
               User.set_updated_at) /\
  (forall s, applies_or_rolls_back (User.update_password_hash s)
               (Valid.password_hash s) (User.set_password_hash s)
               User.set_updated_at).
Proof.
  repeat split.
  - apply BlogPost_update_title_spec.
  - apply BlogPost_update_content_spec.
  - apply Comment_update_content_spec.
  - apply Comment_update_author_info_spec.
  - apply User_update_username_spec.
  - apply User_update_email_spec.
  - apply User_update_full_name_spec.
  - apply User_update_password_hash_spec.
Qed.

(** ** Time stamps and flags under the operations *)

















(** ** The superuser flag *)







(** ** What the repository calls return *)

Lemma User_to_entity (u : User.t) : UserModel.to_entity u = u.
Proof. destruct u; reflexivity. Qed.

Lemma Comment_to_entity (c : Comment.t) : CommentModel.to_entity c = c.
Proof. destruct c; reflexivity. Qed.

Lemma get_by_username_run (username : string) (w : World) :
  UserRepositoryImpl.get_by_username username w =
    (one_or_none (UserRepositoryImpl.by_username username (db w))
       UserRepositoryError,
     set_trace (trace w ++ [UserRepo "get_by_username" username]) w).
Proof.
  unfold UserRepositoryImpl.get_by_username. unfold_m. cbn.
  destruct (UserRepositoryImpl.by_username username (db w)) as [|u [|u' l]];
    cbn; rewrite ?User_to_entity; reflexivity.
Qed.

Lemma get_by_email_run (email : string) (w : World) :
  UserRepositoryImpl.get_by_email email w =
    (one_or_none (UserRepositoryImpl.by_email email (db w))
       UserRepositoryError,
     set_trace (trace w ++ [UserRepo "get_by_email" email]) w).
Proof.
  unfold UserRepositoryImpl.get_by_email. unfold_m. cbn.
  destruct (UserRepositoryImpl.by_email email (db w)) as [|u [|u' l]];
    cbn; rewrite ?User_to_entity; reflexivity.
Qed.

Lemma exists_by_username_run (username : string) (w : World) :
  UserRepositoryImpl.exists_by_username username w =
    (match UserRepositoryImpl.by_username username (db w) with
     | [] => Ok false
     | [_] => Ok true
     | _ => Raise UserRepositoryError
     end,
     set_trace (trace w ++ [UserRepo "exists_by_username" username]) w).
Proof.
  unfold UserRepositoryImpl.exists_by_username. unfold_m. cbn.
  destruct (UserRepositoryImpl.by_username username (db w)) as [|u [|u' l]];
    reflexivity.
Qed.

Lemma exists_by_email_run (email : string) (w : World) :
  UserRepositoryImpl.exists_by_email email w =
    (match UserRepositoryImpl.by_email email (db w) with
     | [] => Ok false
     | [_] => Ok true
     | _ => Raise UserRepositoryError
     end,
     set_trace (trace w ++ [UserRepo "exists_by_email" email]) w).
Proof.
  unfold UserRepositoryImpl.exists_by_email. unfold_m. cbn.
  destruct (UserRepositoryImpl.by_email email (db w)) as [|u [|u' l]];
    reflexivity.
Qed.

(** ** Authentication *)

Lemma authenticate_user_run (X : Externals) (ident password : string)
    (w : World) :
  authenticate_user X ident password w =
    match UserRepositoryImpl.by_username ident (db w) with
    | [u] =>
        (Ok (admitted X password u),
         set_trace (trace w ++ [UserRepo "get_by_username" ident]) w)
    | [] =>
        (match one_or_none (UserRepositoryImpl.by_email ident (db w))
                 UserRepositoryError with
         | Ok (Some u) => Ok (admitted X password u)
         | Ok None => Ok None
         | Raise e => Raise e
         end,
         set_trace (trace w ++ [UserRepo "get_by_username" ident;
                                UserRepo "get_by_email" ident]) w)
    | _ =>
        (Raise UserRepositoryError,
         set_trace (trace w ++ [UserRepo "get_by_username" ident]) w)
    end.
Proof.
  unfold authenticate_user, verify_password, admitted. unfold_m.
  rewrite get_by_username_run.
  destruct (UserRepositoryImpl.by_username ident (db w)) as [|u [|u' l]];
    cbn [one_or_none].
  - rewrite get_by_email_run. cbn [db set_trace trace].
    rewrite <- app_assoc. cbn [app].
    destruct (UserRepositoryImpl.by_email ident (db w)) as [|u [|u' l]];
      cbn [one_or_none]; try reflexivity.
    destruct (User.is_active u), (bcrypt_verify X password _); reflexivity.
  - destruct (User.is_active u), (bcrypt_verify X password _); reflexivity.
  - reflexivity.
Qed.

(** C4.  [authenticate_user] writes nothing, and it returns [None], not
    an exception, in each of the three cases of failure: no user has the
    identifier as username or as email; the user found is not active; the
    user found is active and the password does not verify.  The caller
    gets the same value in the three cases.  The user is looked up by
    username first: when that finds a user, the outcome is decided by
    that user and the lookup by email is not made; the lookup by email is
    made only when the lookup by username finds nobody. *)
Theorem C4_authentication_failures_look_alike :
  forall (X : Externals) (ident password : string) (w : World),
    let r := authenticate_user X ident password w in
    let by_name := UserRepositoryImpl.by_username ident (db w) in
    let by_mail := UserRepositoryImpl.by_email ident (db w) in
    (db r.2 = db w /\ env r.2 = env w /\ hashed r.2 = hashed w) /\
    (by_name = [] -> by_mail = [] -> r.1 = Ok None) /\
    (forall u, by_name = [u] \/ (by_name = [] /\ by_mail = [u]) ->
       (User.is_active u = false -> r.1 = Ok None) /\
       (bcrypt_verify X password (User.password_hash u) = false ->
        r.1 = Ok None) /\
       (User.is_active u = true ->
        bcrypt_verify X password (User.password_hash u) = true ->
        r.1 = Ok (Some u))) /\
    (forall u, by_name = [u] ->
       r = (Ok (admitted X password u),
            set_trace (trace w ++ [UserRepo "get_by_username" ident]) w)) /\
    (by_name = [] ->
       r.2 = set_trace (trace w ++ [UserRepo "get_by_username" ident;
                                    UserRepo "get_by_email" ident]) w).
Proof.
  intros X ident password w r by_name by_mail.
  subst r by_name by_mail. rewrite authenticate_user_run.
  split; [| split; [| split; [| split]]].
  - destruct (UserRepositoryImpl.by_username ident (db w)) as [|u [|u' l]];
      repeat split; reflexivity.
  - intros -> ->. reflexivity.
  - intros u [-> | [-> ->]]; cbn [one_or_none fst]; unfold admitted;
      (split; [| split]).
    all: try (intros ->; try rewrite andb_false_r; reflexivity).
    all: intros -> ->; reflexivity.
  - intros u ->. reflexivity.
  - intros ->. reflexivity.
Qed.

Lemma C4_witness :
  (authenticate_user Sample.X "nobody" "Valid123!" Sample.world0).1 = Ok None /\
  (authenticate_user Sample.X "bob" "Secret99#" Sample.world0).1 = Ok None /\
  (authenticate_user Sample.X "alice" "Wrong123!" Sample.world0).1 = Ok None /\
  (authenticate_user Sample.X "ALICE@example.com" "Valid123!" Sample.world0).1
    = Ok (Some Sample.alice).
Proof.
  split; [| split; [| split]].
  - exact (proj1 (proj2 (C4_authentication_failures_look_alike
             Sample.X "nobody" "Valid123!" Sample.world0)) eq_refl eq_refl).
  - exact (proj1 (proj1 (proj2 (proj2 (C4_authentication_failures_look_alike
             Sample.X "bob" "Secret99#" Sample.world0)))
             Sample.bob (or_introl eq_refl)) eq_refl).
  - exact (proj1 (proj2 (proj1 (proj2 (proj2
             (C4_authentication_failures_look_alike
                Sample.X "alice" "Wrong123!" Sample.world0)))
             Sample.alice (or_introl eq_refl))) eq_refl).
  - exact (proj2 (proj2 (proj1 (proj2 (proj2
             (C4_authentication_failures_look_alike
                Sample.X "ALICE@example.com" "Valid123!" Sample.world0)))
             Sample.alice (or_intror (conj eq_refl eq_refl))))
             eq_refl eq_refl).
Defined.

(** ** Registration *)

Lemma password_strength_run {S} (password : string) (s : S) :
  if Valid.strong_password password
  then _validate_password_strength password s = (Ok tt, s)
  else exists msg,
      _validate_password_strength password s = (Raise (ValueError msg), s).
Proof.
  unfold _validate_password_strength, Valid.strong_password. unfold_m.
  rewrite Nat.leb_antisym. case_tests; try reflexivity; eexists; reflexivity.
Qed.



(** ** Password reset *)

Ltac unfold_confirm_password_reset :=
  unfold confirm_password_reset, decode_reset_token, UUID_of_claim,
    UserRepositoryImpl.get_by_id, hash_password, UserRepositoryImpl.update,
    User.update_password_hash, User._validate_password_hash;
  unfold_m; cbn.

Lemma confirm_password_reset_cases (X : Externals) (token pw : string)
    (w : World) :
  let r := confirm_password_reset X token pw w in
  let now := now_at (env w) (ticks (env w)) in
  (r.1 = Raise generic_reset_failure /\ db r.2 = db w) \/
  (exists payload text id u row,
      jwt_decode X token now = Some payload /\
      payload !! "type" = Some "reset" /\
      payload !! "user_id" = Some text /\
      uuid_parse X text = Some id /\
      users (db w) !! id = Some u /\
      User.is_active u = true /\
      Valid.strong_password pw = true /\
      Valid.password_hash (bcrypt_hash X (hashed w) pw) = true /\
      users (db w) !! User.id u = Some row /\
      r.1 = Ok true /\
      db r.2 =
        set_users
          (<[User.id u :=
               UserModel.update_from_entity
                 (User.set_updated_at (now_at (env w) (S (ticks (env w))))
                    (User.set_password_hash (bcrypt_hash X (hashed w) pw) u))
                 row]> (users (db w)))
          (db w)).
Proof.
  intros r now. subst r now.
  pose proof (fun s => @password_strength_run World pw s) as Hpw.
  unfold_confirm_password_reset.
  destruct (Valid.strong_password pw) eqn:Hstrong;
  repeat (first
            [ rewrite Hpw
            | match goal with
              | |- context [_validate_password_strength pw ?s] =>
                  let msg := fresh "msg" in destruct (Hpw s) as [msg ->]
              end
            | match goal with
              | |- context [match ?x with _ => _ end] =>
                  lazymatch x with
                  | context [match _ with _ => _ end] => fail
                  | _ => destruct x eqn:?
                  end
              end ];
          cbn in *).
  all: try (left; split; reflexivity).
  right.
  match goal with
  | H : UserModel.to_entity <$> users (db w) !! ?id = Some ?t |- _ =>
      destruct (users (db w) !! id) as [u0|] eqn:Hu; [| discriminate H];
      cbn in H; rewrite User_to_entity in H; injection H as ->
  end.
  match goal with
  | H : bool_decide _ = true |- _ => apply bool_decide_eq_true in H
  end.
  match goal with
  | H : negb (User.is_active _) = false |- _ =>
      apply negb_false_iff in H
  end.
  unfold Valid.password_hash, Valid.blank.
  match goal with
  | H : negb (Py.truthy _) = false |- _ => rewrite H
  end.
  repeat eexists; eauto.
Qed.

Lemma confirm_password_reset_succeeds (X : Externals) (token pw : string)
    (w : World) payload text id u :
  jwt_decode X token (now_at (env w) (ticks (env w))) = Some payload ->
  payload !! "type" = Some "reset" ->
  payload !! "user_id" = Some text ->
  uuid_parse X text = Some id ->
  users (db w) !! id = Some u ->
  User.id u = id ->
  User.is_active u = true ->
  Valid.strong_password pw = true ->
  Valid.password_hash (bcrypt_hash X (hashed w) pw) = true ->
  let r := confirm_password_reset X token pw w in
  r.1 = Ok true /\
  users (db r.2) =
    <[id := User.set_updated_at (now_at (env w) (S (ticks (env w))))
              (User.set_password_hash (bcrypt_hash X (hashed w) pw) u)]>
      (users (db w)) /\
  blog_posts (db r.2) = blog_posts (db w) /\
  comments (db r.2) = comments (db w).
Proof.
  intros Hdec Htype Htext Hparse Hu Hid Hactive Hstrong Hhash r. subst r.
  pose proof (password_strength_run (S := World) pw) as Hpw.
  rewrite Hstrong in Hpw.
  unfold Valid.password_hash, Valid.blank in Hhash.
  apply negb_true_iff in Hhash.
  unfold_confirm_password_reset.
  rewrite Hdec. rewrite (bool_decide_eq_true_2 _ Htype). cbn.
  rewrite Htext, Hparse. cbn. rewrite Hu. cbn.
  rewrite User_to_entity, Hactive. cbn. rewrite Hpw. cbn.
  rewrite Hhash. cbn. rewrite Hid, Hu. cbn.
  repeat split.
Qed.

(** C6.  [confirm_password_reset] has two outcomes only: it returns
    [True] or it raises [ValueError] with the text "Invalid or expired
    reset token".  The failure is the same whatever went wrong (the token
    does not decode, its type is not [reset], its [user_id] claim is
    missing or malformed, the user does not exist or is not active, the
    new password is weak) and it leaves the database as it was.  Success
    requires all of these checks to pass, and then the row of the user
    holds the hash of the new password and the time of the change, and
    nothing else in the database has changed. *)
Theorem C6_reset_failures_collapse :
  forall (X : Externals) (token pw : string) (w : World),
    let r := confirm_password_reset X token pw w in
    let now := now_at (env w) (ticks (env w)) in
    let failed := r.1 = Raise generic_reset_failure /\ db r.2 = db w in
    (r.1 = Ok true \/ failed) /\
    (jwt_decode X token now = None -> failed) /\
    (forall payload, jwt_decode X token now = Some payload ->
       (payload !! "type" <> Some "reset" -> failed) /\
       ((payload !! "user_id" ≫= uuid_parse X) = None -> failed) /\
       (forall id, (payload !! "user_id" ≫= uuid_parse X) = Some id ->
          (users (db w) !! id = None -> failed) /\
          (forall u, users (db w) !! id = Some u ->
             User.is_active u = false -> failed))) /\
    (Valid.strong_password pw = false -> failed) /\
    (forall payload id u,
       jwt_decode X token now = Some payload ->
       payload !! "type" = Some "reset" ->
       (payload !! "user_id" ≫= uuid_parse X) = Some id ->
       users (db w) !! id = Some u ->
       User.id u = id ->
       User.is_active u = true ->
       Valid.strong_password pw = true ->
       Valid.password_hash (bcrypt_hash X (hashed w) pw) = true ->
       r.1 = Ok true /\
       users (db r.2) =
         <[id := User.set_updated_at (now_at (env w) (S (ticks (env w))))
                   (User.set_password_hash (bcrypt_hash X (hashed w) pw) u)]>
           (users (db w)) /\
       blog_posts (db r.2) = blog_posts (db w) /\
       comments (db r.2) = comments (db w)).
Proof.
  intros X token pw w r now failed.
  pose proof (confirm_password_reset_cases X token pw w) as Hcases.
  cbn zeta in Hcases. fold r in Hcases. fold now in Hcases.
  assert (Hfail : forall P : Prop,
             (forall (payload : gmap string string) (text : string)
                     (id : UUID) (u : User.t),
                 jwt_decode X token now = Some payload ->
                 payload !! "type" = Some "reset" ->
                 payload !! "user_id" = Some text ->
                 uuid_parse X text = Some id ->
                 users (db w) !! id = Some u ->
                 User.is_active u = true ->
                 Valid.strong_password pw = true -> P) ->
             (failed -> P) -> P).
  { intros P Hok Hko.
    destruct Hcases as [Hf | (payload & text & id & u & row & H)].
    - apply Hko. exact Hf.
    - destruct H as (H1 & H2 & H3 & H4 & H5 & H6 & H7 & _).
      eapply Hok; eassumption. }
  split; [| split; [| split; [| split]]].
  - destruct Hcases as [Hf | (payload & text & id & u & row & H)].
    + right. exact Hf.
    + left. apply H.
  - intros Hdec. apply Hfail; [| auto].
    intros. congruence.
  - intros payload Hdec. split; [| split].
    + intros Htype. apply Hfail; [| auto]. intros. congruence.
    + intros Hnone. apply Hfail; [| auto].
      intros payload' text id u Hd Ht Htext Hparse. intros.
      assert (payload' = payload) as -> by congruence.
      rewrite Htext in Hnone. cbn in Hnone. congruence.
    + intros id Hid. split.
      * intros Hu. apply Hfail; [| auto].
        intros payload' text id' u Hd Ht Htext Hparse Hu'. intros.
        assert (payload' = payload) as -> by congruence.
        rewrite Htext in Hid. cbn in Hid. congruence.
      * intros u Hu Hinactive. apply Hfail; [| auto].
        intros payload' text id' u' Hd Ht Htext Hparse Hu' Hact. intros.
        assert (payload' = payload) as -> by congruence.
        rewrite Htext in Hid. cbn in Hid. congruence.
  - intros Hweak. apply Hfail; [| auto]. intros. congruence.
  - intros payload id u Hdec Htype Hid Hu Hkey Hactive Hstrong Hhash.
    destruct (payload !! "user_id") as [text|] eqn:Htext; [| discriminate].
    cbn in Hid.
    exact (confirm_password_reset_succeeds X token pw w payload text id u
             Hdec Htype Htext Hid Hu Hkey Hactive Hstrong Hhash).
Qed.

Lemma C6_witness :
  ((confirm_password_reset Sample.X "reset-7" "Valid123!" Sample.world0).1
     = Ok true /\
   User.password_hash <$>
     users (db (confirm_password_reset Sample.X "reset-7" "Valid123!"
                  Sample.world0).2) !! 7%N
     = Some (Sample.hash 2 "Valid123!")) /\
  ((confirm_password_reset Sample.X "garbage" "Valid123!" Sample.world0).1
     = Raise generic_reset_failure /\
   db (confirm_password_reset Sample.X "garbage" "Valid123!" Sample.world0).2
     = db Sample.world0) /\
  ((confirm_password_reset Sample.X "reset-7" "weak" Sample.world0).1
     = Raise generic_reset_failure /\
   db (confirm_password_reset Sample.X "reset-7" "weak" Sample.world0).2
     = db Sample.world0).
Proof.
  split; [| split].
  - destruct (proj2 (proj2 (proj2 (proj2
               (C6_reset_failures_collapse Sample.X "reset-7" "Valid123!"
                  Sample.world0))))
               (<["type" := "reset"]> (<["user_id" := "7"]> ∅))
               7%N Sample.alice
               eq_refl eq_refl eq_refl eq_refl eq_refl eq_refl eq_refl eq_refl)
      as (Hok & Husers & _).
    split; [exact Hok |]. rewrite Husers. reflexivity.
  - exact (proj1 (proj2 (C6_reset_failures_collapse Sample.X "garbage"
                           "Valid123!" Sample.world0)) eq_refl).
  - exact (proj1 (proj2 (proj2 (proj2 (C6_reset_failures_collapse Sample.X
                           "reset-7" "weak" Sample.world0)))) eq_refl).
Defined.

(** ** Creating and reading back a post *)

Lemma BlogPost_init_valid (title content : string) (e : Env) :
  Valid.title title = true ->
  Valid.post_content content = true ->
  BlogPost.__init__ title content e =
    (Ok (BlogPost.mk title content (uuid_at e (drawn e))
           (now_at e (ticks e)) (now_at e (S (ticks e))) []),
     tick (tick (draw e))).
Proof.
  unfold Valid.title, Valid.post_content, Valid.blank, BlogPost.__init__,
    BlogPost._validate_title, BlogPost._validate_content.
  rewrite Nat.leb_antisym. unfold_m. cbn.
  case_tests; intros; try discriminate; reflexivity.
Qed.

(** C3, as stated, fails: the two time stamps of a new post are two
    readings of the clock, and the clock may advance between them. *)
Lemma C3_counterexample :
  Valid.title "Title" = true /\ Valid.post_content "Body" = true /\
  exists p w1 q w2,
    create_blog_post "Title" "Body" Sample.world0 = (Ok p, w1) /\
    get_blog_post_by_id (BlogPost.id p) w1 = (Ok q, w2) /\
    BlogPost.created_at q <> BlogPost.updated_at q.
Proof.
  split; [reflexivity |]. split; [reflexivity |].
  eexists. eexists. eexists. eexists.
  split; [vm_compute; reflexivity |].
  split; [vm_compute; reflexivity |].
  cbn. discriminate.
Qed.

(** C3, amended.  For a title that is not blank and has at most 200
    characters and a content that is not blank, when the identifier drawn
    for the post is not in use, [create_blog_post] returns a post and
    [get_blog_post_by_id] on its identifier returns the same post: title
    and content are the ones given, [created_at] is the reading of the
    clock taken first by the constructor and [updated_at] the reading
    taken next, so that the two stamps are equal exactly when the clock
    did not advance between the two readings. *)
Theorem C3_create_then_get :
  forall (title content : string) (w : World),
    Valid.title title = true ->
    Valid.post_content content = true ->
    blog_posts (db w) !! uuid_at (env w) (drawn (env w)) = None ->
    exists p w1 q w2,
      create_blog_post title content w = (Ok p, w1) /\
      get_blog_post_by_id (BlogPost.id p) w1 = (Ok q, w2) /\
      q = p /\
      BlogPost.id q = uuid_at (env w) (drawn (env w)) /\
      BlogPost.title q = title /\
      BlogPost.content q = content /\
      BlogPost.created_at q = now_at (env w) (ticks (env w)) /\
      BlogPost.updated_at q = now_at (env w) (S (ticks (env w))) /\
      (BlogPost.created_at q = BlogPost.updated_at q <->
       now_at (env w) (ticks (env w)) = now_at (env w) (S (ticks (env w)))).
Proof.
  intros title content w Htitle Hcontent Hfresh.
  unfold create_blog_post, get_blog_post_by_id,
    BlogPostRepositoryImpl.exists_, BlogPostRepositoryImpl.create,
    BlogPostRepositoryImpl.get_by_id.
  unfold_m. rewrite (BlogPost_init_valid _ _ _ Htitle Hcontent). cbn.
  repeat (rewrite Hfresh; cbn).
  do 4 eexists. split; [reflexivity |]. cbn.
  rewrite lookup_insert_eq. cbn.
  split; [reflexivity |].
  repeat split; cbn; auto.
Qed.

Lemma C3_witness :
  exists p w1 q w2,
    create_blog_post "Title" "Body" Sample.world0 = (Ok p, w1) /\
    get_blog_post_by_id (BlogPost.id p) w1 = (Ok q, w2) /\
    q = p /\
    BlogPost.title q = "Title" /\
    BlogPost.content q = "Body" /\
    BlogPost.created_at q = 1000 /\
    BlogPost.updated_at q = 1001.
Proof.
  destruct (C3_create_then_get "Title" "Body" Sample.world0
              eq_refl eq_refl eq_refl)
    as (p & w1 & q & w2 & H1 & H2 & H3 & _ & H4 & H5 & H6 & H7 & _).
  exists p, w1, q, w2. repeat split; assumption.
Defined.


(** ** Deleting a post *)

Lemma without_post_lookup (blog_post_id k : UUID) (c : Comment.t)
    (table : gmap UUID Comment.t) :
  CommentRepositoryImpl.without_post blog_post_id table !! k = Some c <->
  table !! k = Some c /\ Comment.blog_post_id c <> blog_post_id.
Proof.
  unfold CommentRepositoryImpl.without_post.
  rewrite map_lookup_filter_Some. cbn.
  unfold CommentRepositoryImpl.owned_by.
  rewrite bool_decide_eq_false. reflexivity.
Qed.

Lemma without_post_twice (blog_post_id : UUID) (table : gmap UUID Comment.t) :
  CommentRepositoryImpl.without_post blog_post_id
    (CommentRepositoryImpl.without_post blog_post_id table) =
  CommentRepositoryImpl.without_post blog_post_id table.
Proof.
  unfold CommentRepositoryImpl.without_post.
  apply map_filter_filter_l. auto.
Qed.



(** ** Batch moderation *)

Lemma moderate_one_run (action : string) (comment_id : UUID) (w : World)
    (c : Comment.t) :
  keyed Comment.id (comments (db w)) ->
  comments (db w) !! comment_id = Some c ->
  let flag := moderation_flag action in
  let c' := moderated flag (now_at (env w) (ticks (env w))) c in
  exists w',
    moderate_one action comment_id w = (Ok c', w') /\
    db w' = set_comments (<[comment_id := c']> (comments (db w))) (db w) /\
    trace w' = trace w ++ moderation_calls [comment_id].
Proof.
  intros Hkeyed Hc flag c'. subst flag c'.
  pose proof (Hkeyed _ _ Hc) as Hid.
  unfold moderate_one, moderation_flag, moderated, approve_comment,
    reject_comment, get_comment_by_id, CommentRepositoryImpl.get_by_id,
    CommentRepositoryImpl.update, Comment.approve, Comment.reject.
  destruct (bool_decide (action = "approve")); unfold_m; cbn;
    rewrite Hc; cbn; destruct c as [? ? ? ? ? ? ? approved]; cbn in *;
    subst; destruct approved; cbn; rewrite Hc; cbn;
    eexists; (split; [reflexivity |]); cbn;
    rewrite <- ?app_assoc; split; reflexivity.
Qed.

Lemma moderate_loop_cons (action : string) (id : UUID) (ids : list UUID)
    (acc : list Comment.t) (w : World) :
  moderate_loop action (id :: ids) acc w =
    match moderate_one action id w with
    | (Ok c, w') => moderate_loop action ids (acc ++ [c]) w'
    | (Raise e, w') => (Raise e, w')
    end.
Proof. reflexivity. Qed.

Lemma moderate_loop_app (action : string) (l1 l2 : list UUID) :
  forall (acc : list Comment.t) (w : World),
    moderate_loop action (l1 ++ l2) acc w =
      match moderate_loop action l1 acc w with
      | (Ok acc', w') => moderate_loop action l2 acc' w'
      | (Raise e, w') => (Raise e, w')
      end.
Proof.
  induction l1 as [|id l1 IH]; intros acc w.
  - reflexivity.
  - cbn [app]. rewrite !moderate_loop_cons.
    destruct (moderate_one action id w) as [[c|e] w']; [apply IH | reflexivity].
Qed.

Lemma moderated_id flag t c : Comment.id (moderated flag t c) = Comment.id c.
Proof. unfold moderated. case_bool_decide; reflexivity. Qed.

Lemma moderated_flag flag t c : Comment.is_approved (moderated flag t c) = flag.
Proof. unfold moderated. case_bool_decide; [assumption | reflexivity]. Qed.

(** The moderation of a list of comments that all exist. *)
Lemma moderate_loop_all_present (action : string) (ids : list UUID) :
  forall (acc : list Comment.t) (w : World),
    keyed Comment.id (comments (db w)) ->
    Forall (fun id => is_Some (comments (db w) !! id)) ids ->
    exists done w1,
      moderate_loop action ids acc w = (Ok (acc ++ done), w1) /\
      map Comment.id done = ids /\
      keyed Comment.id (comments (db w1)) /\
      trace w1 = trace w ++ moderation_calls ids /\
      blog_posts (db w1) = blog_posts (db w) /\
      users (db w1) = users (db w) /\
      (forall k, comments (db w1) !! k = None <-> comments (db w) !! k = None) /\
      (forall k, k ∉ ids -> comments (db w1) !! k = comments (db w) !! k) /\
      Forall (fun id => exists c, comments (db w1) !! id = Some c /\
                                  Comment.is_approved c = moderation_flag action)
             ids.
Proof.
  induction ids as [|id ids IH]; intros acc w Hkeyed Hall.
  - exists [], w. cbn. rewrite !app_nil_r. repeat split; auto.
  - inversion Hall as [|? ? [c Hc] Hrest]; subst.
    destruct (moderate_one_run action id w c Hkeyed Hc)
      as (w' & Hrun & Hdb & Htrace).
    set (c' := moderated (moderation_flag action)
                 (now_at (env w) (ticks (env w))) c) in *.
    assert (Hcomments : comments (db w') = <[id := c']> (comments (db w)))
      by (rewrite Hdb; reflexivity).
    assert (Hkeyed' : keyed Comment.id (comments (db w'))).
    { intros k r. rewrite Hcomments. rewrite lookup_insert.
      case_decide as Hk.
      - intros [= <-]. subst k. unfold c'. rewrite moderated_id.
        apply (Hkeyed _ _ Hc).
      - apply Hkeyed. }
    assert (Hall' : Forall (fun i => is_Some (comments (db w') !! i)) ids).
    { eapply Forall_impl; [exact Hrest |]. intros i Hi. cbn in Hi.
      rewrite Hcomments, lookup_insert. case_decide; eauto. }
    destruct (IH (acc ++ [c']) w' Hkeyed' Hall')
      as (done & w1 & Hloop & Hids & Hk1 & Htr1 & Hbp & Hus & Hdom & Hother & Hflag).
    exists (c' :: done), w1.
    rewrite moderate_loop_cons, Hrun, Hloop, <- app_assoc. cbn [app].
    split; [reflexivity |].
    split; [cbn; rewrite Hids; unfold c'; rewrite moderated_id;
            rewrite (Hkeyed _ _ Hc); reflexivity |].
    split; [exact Hk1 |].
    split; [rewrite Htr1, Htrace, <- app_assoc; reflexivity |].
    split; [rewrite Hbp, Hdb; reflexivity |].
    split; [rewrite Hus, Hdb; reflexivity |].
    split; [| split].
    + intros k. rewrite Hdom, Hcomments, lookup_insert.
      case_decide as Hk; [| reflexivity].
      subst k. rewrite Hc. split; discriminate.
    + intros k Hk. apply not_elem_of_cons in Hk as [Hne Hk].
      rewrite (Hother k Hk), Hcomments. apply lookup_insert_ne. congruence.
    + constructor; [| exact Hflag].
      destruct (decide (id ∈ ids)) as [Hin | Hnotin].
      * rewrite Forall_forall in Hflag. apply Hflag. exact Hin.
      * exists c'. rewrite (Hother id Hnotin), Hcomments, lookup_insert_eq.
        split; [reflexivity |]. unfold c'. apply moderated_flag.
Qed.

(** C7.  [moderate_comments_batch] with action [approve] or [reject]
    handles the identifiers in the order of the list.  When the
    identifiers before [bad] all exist and [bad] does not, the call
    raises [CommentNotFoundError] for [bad]; the repository calls made
    are the lookup and the update of each identifier before [bad], in
    list order, and then the lookup of [bad]; the identifiers after
    [bad] are not touched; and the database is left as the moderation of
    the identifiers before [bad] alone leaves it: each of them carries
    the flag of the action and nothing is rolled back.  In particular,
    for [id1; id2; bad] with action [approve], [id1] and [id2] end up
    approved although the call fails. *)
Theorem C7_batch_moderation_fails_fast_without_rollback :
  forall (action : string) (before : list UUID) (bad : UUID)
         (after : list UUID) (w : World),
    action ∈ ["approve"; "reject"] ->
    keyed Comment.id (comments (db w)) ->
    Forall (fun id => is_Some (comments (db w) !! id)) before ->
    comments (db w) !! bad = None ->
    let r := moderate_comments_batch (before ++ bad :: after) action w in
    r.1 = Raise (CommentNotFoundError bad) /\
    trace r.2 =
      trace w ++ moderation_calls before ++ [CommentRepo "get_by_id" bad] /\
    (exists done w1,
        moderate_comments_batch before action w = (Ok done, w1) /\
        map Comment.id done = before /\
        db r.2 = db w1) /\
    Forall (fun id => exists c, comments (db r.2) !! id = Some c /\
                                Comment.is_approved c = moderation_flag action)
           before /\
    (forall k, k ∉ before -> comments (db r.2) !! k = comments (db w) !! k).
Proof.
  intros action before bad after w Haction Hkeyed Hall Hbad r. subst r.
  unfold moderate_comments_batch.
  rewrite (bool_decide_eq_true_2 _ Haction). cbn [negb].
  destruct (moderate_loop_all_present action before [] w Hkeyed Hall)
    as (done & w1 & Hloop & Hids & _ & Htrace & _ & _ & Hdom & Hother & Hflag).
  cbn [app] in Hloop.
  assert (Hbad1 : comments (db w1) !! bad = None) by (apply Hdom; exact Hbad).
  assert (Hfail : moderate_loop action (bad :: after) done w1 =
                    (Raise (CommentNotFoundError bad),
                     set_trace (trace w1 ++ [CommentRepo "get_by_id" bad]) w1)).
  { rewrite moderate_loop_cons.
    unfold moderate_one, approve_comment, reject_comment, get_comment_by_id,
      CommentRepositoryImpl.get_by_id.
    destruct (bool_decide (action = "approve")); unfold_m; cbn;
      rewrite Hbad1; reflexivity. }
  rewrite moderate_loop_app, Hloop, Hfail. cbn.
  split; [reflexivity |].
  split; [rewrite Htrace, <- app_assoc; reflexivity |].
  split; [exists done, w1; auto |].
  split; [exact Hflag | exact Hother].
Qed.

Lemma C7_witness :
  (moderate_comments_batch [11; 12; 99]%N "approve" Sample.world0).1
    = Raise (CommentNotFoundError 99%N) /\
  Forall
    (fun id =>
       exists c,
         comments
           (db (moderate_comments_batch [11; 12; 99]%N "approve"
                  Sample.world0).2) !! id = Some c /\
         Comment.is_approved c = true)
    [11; 12]%N /\
  Comment.is_approved <$> comments (db Sample.world0) !! 11%N = Some false /\
  Comment.is_approved <$> comments (db Sample.world0) !! 12%N = Some false.
Proof.
  assert (Hkeyed : keyed Comment.id (comments (db Sample.world0))).
  { intros k r Hk.
    destruct (decide (k = 11%N)) as [-> | H11];
      [injection Hk as <-; reflexivity |].
    destruct (decide (k = 12%N)) as [-> | H12];
      [injection Hk as <-; reflexivity |].
    destruct (decide (k = 13%N)) as [-> | H13];
      [injection Hk as <-; reflexivity |].
    cbn in Hk. rewrite !lookup_insert_ne in Hk by congruence.
    rewrite lookup_empty in Hk. discriminate Hk. }
  destruct (C7_batch_moderation_fails_fast_without_rollback
              "approve" [11; 12]%N 99%N [] Sample.world0)
    as (Hfail & _ & _ & Hflag & _).
  - apply list_elem_of_here.
  - exact Hkeyed.
  - repeat constructor; eexists; reflexivity.
  - reflexivity.
  - split; [exact Hfail |]. split; [exact Hflag |]. split; reflexivity.
Defined.

(** * Further properties of the entities *)

(** ** The list of comment identifiers of a post *)

Lemma list_remove_not_in (x : N) (l : list N) :
  NoDup l -> x ∉ BlogPost.list_remove x l.
Proof.
  induction 1 as [|y l Hy Hl IH]; cbn.
  - apply not_elem_of_nil.
  - case_bool_decide as Hxy.
    + subst. exact Hy.
    + apply not_elem_of_cons. auto.
Qed.

Lemma list_remove_subset (x y : N) (l : list N) :
  y ∈ BlogPost.list_remove x l -> y ∈ l.
Proof.
  induction l as [|z l IH]; cbn; [auto |].
  case_bool_decide.
  - intros. apply list_elem_of_further. assumption.
  - intros [-> | H']%elem_of_cons.
    + apply list_elem_of_here.
    + apply list_elem_of_further. auto.
Qed.

Lemma list_remove_NoDup (x : N) (l : list N) :
  NoDup l -> NoDup (BlogPost.list_remove x l).
Proof.
  induction 1 as [|y l Hy Hl IH]; cbn; [constructor |].
  case_bool_decide; [assumption |].
  constructor; [| assumption].
  intros Hin. apply Hy. eapply list_remove_subset. exact Hin.
Qed.

Lemma list_remove_app_last (x : N) (l : list N) :
  x ∉ l -> BlogPost.list_remove x (l ++ [x]) = l.
Proof.
  induction l as [|y l IH]; cbn; intros Hx.
  - rewrite bool_decide_eq_true_2 by reflexivity. reflexivity.
  - apply not_elem_of_cons in Hx as [Hxy Hx].
    rewrite bool_decide_eq_false_2 by exact Hxy. f_equal. auto.
Qed.

Lemma add_comment_id_run (c : N) (p : BlogPost.t) (e : Env) :
  BlogPost.add_comment_id c (p, e) =
    if bool_decide (c ∈ BlogPost.comment_ids p)
    then (Raise (ValueError "Comment ID already exists for this post"), (p, e))
    else (Ok tt,
          (BlogPost.set_updated_at (now_at e (ticks e))
             (BlogPost.set_comment_ids (BlogPost.comment_ids p ++ [c]) p),
           tick e)).
Proof.
  unfold BlogPost.add_comment_id. unfold_m. cbn.
  destruct (bool_decide (c ∈ BlogPost.comment_ids p)); reflexivity.
Qed.

Lemma remove_comment_id_run (c : N) (p : BlogPost.t) (e : Env) :
  BlogPost.remove_comment_id c (p, e) =
    if bool_decide (c ∈ BlogPost.comment_ids p)
    then (Ok tt,
          (BlogPost.set_updated_at (now_at e (ticks e))
             (BlogPost.set_comment_ids
                (BlogPost.list_remove c (BlogPost.comment_ids p)) p),
           tick e))
    else (Raise (ValueError "Comment ID not found for this post"), (p, e)).
Proof.
  unfold BlogPost.remove_comment_id. unfold_m. cbn.
  destruct (bool_decide (c ∈ BlogPost.comment_ids p)); reflexivity.
Qed.

(** X1.  The comment identifiers of a post never hold a duplicate:
    [add_comment_id] refuses an identifier that is already listed, with
    [ValueError] and the post as it was, and appends a new one at the
    end; [remove_comment_id] refuses an identifier that is not listed,
    with [ValueError] and the post as it was; and a list without
    duplicates is without duplicates after any sequence of operations on
    the post. *)
Theorem X1_comment_ids_stay_distinct :
  (forall c p e, c ∈ BlogPost.comment_ids p ->
     BlogPost.add_comment_id c (p, e) =
       (Raise (ValueError "Comment ID already exists for this post"), (p, e))) /\
  (forall c p e, c ∉ BlogPost.comment_ids p ->
     exists p',
       BlogPost.add_comment_id c (p, e) = (Ok tt, (p', tick e)) /\
       BlogPost.comment_ids p' = BlogPost.comment_ids p ++ [c]) /\
  (forall c p e, c ∉ BlogPost.comment_ids p ->
     BlogPost.remove_comment_id c (p, e) =
       (Raise (ValueError "Comment ID not found for this post"), (p, e))) /\
  (forall ops p e, NoDup (BlogPost.comment_ids p) ->
     NoDup (BlogPost.comment_ids (run_all BlogPostOp.run ops (p, e)).1)).
Proof.
  split; [| split; [| split]].
  - intros c p e Hin. rewrite add_comment_id_run.
    rewrite bool_decide_eq_true_2 by exact Hin. reflexivity.
  - intros c p e Hnotin. rewrite add_comment_id_run.
    rewrite bool_decide_eq_false_2 by exact Hnotin.
    eexists. split; reflexivity.
  - intros c p e Hnotin. rewrite remove_comment_id_run.
    rewrite bool_decide_eq_false_2 by exact Hnotin. reflexivity.
  - intros ops. induction ops as [|op ops IH]; intros p e Hnodup.
    + exact Hnodup.
    + cbn [run_all fold_left]. fold (run_all BlogPostOp.run ops).
      destruct (BlogPostOp.run op (p, e)) as [r [p' e']] eqn:Hrun.
      cbn [snd]. apply IH.
      destruct op; cbn [BlogPostOp.run] in Hrun.
      * pose proof (BlogPost_update_title_spec new_title p e) as H.
        destruct (Valid.title new_title).
        -- rewrite H in Hrun. injection Hrun as _ <- _. exact Hnodup.
        -- destruct H as [msg H]. rewrite H in Hrun.
           injection Hrun as _ <- _. exact Hnodup.
      * pose proof (BlogPost_update_content_spec new_content p e) as H.
        destruct (Valid.post_content new_content).
        -- rewrite H in Hrun. injection Hrun as _ <- _. exact Hnodup.
        -- destruct H as [msg H]. rewrite H in Hrun.
           injection Hrun as _ <- _. exact Hnodup.
      * rewrite add_comment_id_run in Hrun. case_bool_decide as Hin.
        -- injection Hrun as _ <- _. exact Hnodup.
        -- injection Hrun as _ <- _. cbn.
           apply NoDup_app. split; [exact Hnodup |].
           split; [| apply NoDup_singleton].
           intros x Hx Hx'. apply list_elem_of_singleton in Hx'. subst.
           contradiction.
      * rewrite remove_comment_id_run in Hrun. case_bool_decide as Hin.
        -- injection Hrun as _ <- _. cbn. apply list_remove_NoDup. exact Hnodup.
        -- injection Hrun as _ <- _. exact Hnodup.
Qed.

Lemma X1_witness :
  NoDup (BlogPost.comment_ids
           (run_all BlogPostOp.run
              [BlogPostOp.AddCommentId 5%N; BlogPostOp.AddCommentId 5%N;
               BlogPostOp.AddCommentId 6%N; BlogPostOp.RemoveCommentId 5%N]
              (BlogPost.mk "T" "C" 1%N 0 0 [], Sample.env0)).1).
Proof.
  apply (proj2 (proj2 (proj2 X1_comment_ids_stay_distinct))).
  constructor.
Defined.

(** X2.  On a post whose identifiers are distinct, adding an identifier
    that is not listed and then removing it gives back the list as it
    was; removing a listed identifier leaves a list that does not hold it
    and is one shorter; and [get_comment_count] is the length of the
    list, one more after an addition. *)
Theorem X2_add_then_remove_comment_id :
  forall (c : N) (p : BlogPost.t) (e : Env),
    (c ∉ BlogPost.comment_ids p ->
       let s1 := (BlogPost.add_comment_id c (p, e)).2 in
       let s2 := (BlogPost.remove_comment_id c s1).2 in
       (BlogPost.remove_comment_id c s1).1 = Ok tt /\
       BlogPost.comment_ids s2.1 = BlogPost.comment_ids p /\
       (BlogPost.get_comment_count s1).1 =
         Ok (S (length (BlogPost.comment_ids p)))) /\
    (c ∈ BlogPost.comment_ids p -> NoDup (BlogPost.comment_ids p) ->
       let s1 := (BlogPost.remove_comment_id c (p, e)).2 in
       (c ∉ BlogPost.comment_ids s1.1) /\
       S (length (BlogPost.comment_ids s1.1)) =
         length (BlogPost.comment_ids p)).
Proof.
  intros c p e. split.
  - intros Hnotin s1 s2. subst s2 s1.
    rewrite add_comment_id_run, bool_decide_eq_false_2 by exact Hnotin.
    cbn [snd]. rewrite remove_comment_id_run. cbn.
    rewrite bool_decide_eq_true_2
      by (apply elem_of_app; right; apply list_elem_of_here).
    cbn. split; [reflexivity |]. split.
    + apply list_remove_app_last. exact Hnotin.
    + unfold BlogPost.get_comment_count. unfold_m. cbn.
      rewrite length_app. cbn. f_equal. lia.
  - intros Hin Hnodup s1. subst s1.
    rewrite remove_comment_id_run, bool_decide_eq_true_2 by exact Hin. cbn.
    split; [apply list_remove_not_in; exact Hnodup |].
    clear Hnodup. induction (BlogPost.comment_ids p) as [|y l IH]; cbn.
    + apply elem_of_nil in Hin. contradiction.
    + case_bool_decide as Hcy; [reflexivity |].
      cbn. f_equal. apply IH.
      apply elem_of_cons in Hin as [-> | Hin]; [contradiction | exact Hin].
Qed.

Lemma X2_witness :
  BlogPost.comment_ids
    (BlogPost.remove_comment_id 7%N
       (BlogPost.add_comment_id 7%N
          (BlogPost.mk "T" "C" 1%N 0 0 [5; 6]%N, Sample.env0)).2).2.1
    = [5; 6]%N.
Proof.
  refine (proj1 (proj2 (proj1 (X2_add_then_remove_comment_id 7%N
            (BlogPost.mk "T" "C" 1%N 0 0 [5; 6]%N) Sample.env0) _))).
  cbn. intros H. repeat (apply elem_of_cons in H as [H | H]; [discriminate |]).
  apply elem_of_nil in H. exact H.
Defined.

(** ** Flags are set once *)

(** X3.  The operations that set a flag do nothing the second time:
    calling [activate], [deactivate], [make_superuser] or
    [remove_superuser] on a user, or [approve] or [reject] on a comment,
    right after the same call returns what the first call returned and
    leaves every field, [updated_at] included, and the clock as the first
    call left them. *)
Theorem X3_flag_operations_are_idempotent :
  (forall s, User.activate (User.activate s).2 = User.activate s) /\
  (forall s, User.deactivate (User.deactivate s).2 = User.deactivate s) /\
  (forall s, User.make_superuser (User.make_superuser s).2
             = User.make_superuser s) /\
  (forall s, User.remove_superuser (User.remove_superuser s).2
             = User.remove_superuser s) /\
  (forall s, Comment.approve (Comment.approve s).2 = Comment.approve s) /\
  (forall s, Comment.reject (Comment.reject s).2 = Comment.reject s).
Proof.
  unfold User.activate, User.deactivate, User.make_superuser,
    User.remove_superuser, Comment.approve, Comment.reject.
  repeat split; intros [[] e]; unfold_m; cbn.
  - destruct is_active; reflexivity.
  - destruct is_active; reflexivity.
  - destruct is_active, is_superuser; reflexivity.
  - destruct is_superuser; reflexivity.
  - destruct is_approved; reflexivity.
  - destruct is_approved; reflexivity.
Qed.

(** ** The preview of a comment *)









(** ** Validated construction *)

(** X5.  The constructors of posts and comments accept exactly the
    values that satisfy the rules of the fields.  A post is built when
    the title is not blank and has at most 200 characters and the content
    is not blank; a comment when the content is not blank and has at most
    1000 characters, the author name has at most 100 characters, and the
    author email has at most 255 characters and holds an [@] unless it is
    empty.  The object built has the values as given, a fresh identifier,
    no comment identifiers (a post) and the approval flag set (a
    comment).  Any other value raises [ValueError] and no object is
    built; the identifier and the two clock readings are used up in
    either case. *)
Theorem X5_posts_and_comments_are_built_valid :
  (forall title content e,
     if Valid.title title && Valid.post_content content
     then BlogPost.__init__ title content e =
            (Ok (BlogPost.mk title content (uuid_at e (drawn e))
                   (now_at e (ticks e)) (now_at e (S (ticks e))) []),
             tick (tick (draw e)))
     else exists msg,
         BlogPost.__init__ title content e =
           (Raise (ValueError msg), tick (tick (draw e)))) /\
  (forall content post name email e,
     if Valid.comment_content content && Valid.author_name name &&
        Valid.author_email email
     then Comment.__init__ content post name email e =
            (Ok (Comment.mk content post (uuid_at e (drawn e)) name email
                   (now_at e (ticks e)) (now_at e (S (ticks e))) true),
             tick (tick (draw e)))
     else exists msg,
         Comment.__init__ content post name email e =
           (Raise (ValueError msg), tick (tick (draw e)))).
Proof.
  split.
  - intros title content e.
    unfold Valid.title, Valid.post_content, Valid.blank, BlogPost.__init__,
      BlogPost._validate_title, BlogPost._validate_content.
    rewrite Nat.leb_antisym. unfold_m. cbn.
    case_tests; try congruence; try reflexivity; eexists; reflexivity.
  - intros content post name email e.
    unfold Valid.comment_content, Valid.author_name, Valid.author_email,
      Valid.blank, Comment.__init__, Comment._validate_content,
      Comment._validate_blog_post_id, Comment._validate_author_name,
      Comment._validate_author_email.
    rewrite !Nat.leb_antisym. unfold_m. cbn.
    case_tests; try congruence; try reflexivity; eexists; reflexivity.
Qed.

(** X6.  The constructor of users accepts exactly the values that
    satisfy the rules of the fields (the full name is checked only when
    it is given and not empty) and stores them normalised: the username
    trimmed, the email trimmed and lowercased, a full name trimmed and
    dropped when nothing is left.  The user built is active and not
    superuser.  Any other value raises [ValueError]. *)
Theorem X6_users_are_built_valid_and_normalised :
  forall username email password_hash full_name e,
    if Valid.username username && Valid.email email &&
       Valid.password_hash password_hash &&
       (negb (User.truthy_opt full_name) || Valid.opt Valid.full_name full_name)
    then User.__init__ username email password_hash full_name e =
           (Ok (User.mk (Py.strip username) (Py.lower (Py.strip email))
                  password_hash (uuid_at e (drawn e))
                  (if User.truthy_opt full_name
                   then stored_full_name full_name else full_name)
                  true false (now_at e (ticks e)) (now_at e (S (ticks e)))),
            tick (tick (draw e)))
    else exists msg,
        User.__init__ username email password_hash full_name e =
          (Raise (ValueError msg), tick (tick (draw e))).
Proof.
  intros username email password_hash full_name e.
  unfold Valid.username, Valid.email, Valid.password_hash, Valid.opt,
    Valid.full_name, Valid.blank, User.__init__, User._validate_username,
    User._validate_email, User._validate_password_hash,
    User._validate_full_name, User.truthy_opt, stored_full_name.
  unfold_m.
  destruct full_name as [name|]; cbn; rewrite ?Nat.leb_antisym;
    case_tests; try congruence; try reflexivity; try (eexists; reflexivity);
    match goal with
    | H : Py.truthy _ = false, H3 : (Py.len _ <? 3)%nat = false |- _ =>
        apply truthy_false_len in H; rewrite H in H3; discriminate H3
    end.
Qed.

Lemma User_init_ok username email password_hash full_name e u e' :
  User.__init__ username email password_hash full_name e = (Ok u, e') ->
  u = User.mk (Py.strip username) (Py.lower (Py.strip email))
        password_hash (uuid_at e (drawn e))
        (if User.truthy_opt full_name
         then stored_full_name full_name else full_name)
        true false (now_at e (ticks e)) (now_at e (S (ticks e))) /\
  e' = tick (tick (draw e)) /\
  Valid.username username = true /\ Valid.email email = true /\
  Valid.password_hash password_hash = true.
Proof.
  unfold Valid.username, Valid.email, Valid.password_hash, Valid.opt,
    Valid.full_name, Valid.blank, User.__init__, User._validate_username,
    User._validate_email, User._validate_password_hash,
    User._validate_full_name, User.truthy_opt, stored_full_name.
  unfold_m.
  destruct full_name as [name|]; cbn; rewrite ?Nat.leb_antisym;
    case_tests; try congruence; intros [= <- <-]; repeat split.
Qed.

(** * Further properties of the authentication use cases *)

(** ** Changing a password *)

Ltac unfold_change_password :=
  unfold change_password, verify_password, UserRepositoryImpl.get_by_id,
    hash_password, UserRepositoryImpl.update, User.update_password_hash,
    User._validate_password_hash;
  unfold_m; cbn.

(** X7.  [change_password] checks, in this order: that the user exists
    ([UserNotFoundError] otherwise), that the current password verifies
    ([ValueError], whatever the new password is), that the new password
    is strong, and that the new password does not verify against the
    stored hash.  Each failure leaves the database as it was.  When all
    checks pass the row of the user holds the hash of the new password
    and the time of the change, and [True] is returned.  Whether the
    user is active plays no part. *)
Theorem X7_change_password_checks_in_order :
  forall (X : Externals) (user_id : N) (current new : string) (w : World),
    let r := change_password X user_id current new w in
    (users (db w) !! user_id = None ->
       r.1 = Raise (UserNotFoundError (str_of_uuid user_id) "id") /\
       db r.2 = db w) /\
    (forall u, users (db w) !! user_id = Some u ->
       let known := bcrypt_verify X current (User.password_hash u) in
       let same := bcrypt_verify X new (User.password_hash u) in
       let h := bcrypt_hash X (hashed w) new in
       (known = false ->
          r.1 = Raise (ValueError "Current password is incorrect") /\
          db r.2 = db w) /\
       (known = true -> Valid.strong_password new = false ->
          (exists msg, r.1 = Raise (ValueError msg)) /\ db r.2 = db w) /\
       (known = true -> Valid.strong_password new = true -> same = true ->
          r.1 = Raise (ValueError
                         "New password must be different from current password")
          /\ db r.2 = db w) /\
       (known = true -> Valid.strong_password new = true -> same = false ->
        Valid.password_hash h = true -> User.id u = user_id ->
          r.1 = Ok true /\
          users (db r.2) =
            <[user_id := User.set_updated_at (now_at (env w) (ticks (env w)))
                           (User.set_password_hash h u)]> (users (db w)) /\
          blog_posts (db r.2) = blog_posts (db w) /\
          comments (db r.2) = comments (db w))).
Proof.
  intros X user_id current new w r. subst r.
  pose proof (password_strength_run (S := World) new) as Hpw.
  split.
  - intros Hnone. unfold_change_password. rewrite Hnone. cbn. auto.
  - intros u Hu known same h. subst known same h.
    split; [| split; [| split]].
    + intros Hknown. unfold_change_password. rewrite Hu. cbn.
      rewrite User_to_entity, Hknown. cbn. auto.
    + intros Hknown Hweak. rewrite Hweak in Hpw.
      unfold_change_password. rewrite Hu. cbn.
      rewrite User_to_entity, Hknown. cbn.
      match goal with
      | |- context [_validate_password_strength new ?s] =>
          destruct (Hpw s) as [msg ->]
      end.
      cbn. eauto.
    + intros Hknown Hstrong Hsame. rewrite Hstrong in Hpw.
      unfold_change_password. rewrite Hu. cbn.
      rewrite User_to_entity, Hknown. cbn. rewrite Hpw. cbn.
      rewrite Hsame. cbn. auto.
    + intros Hknown Hstrong Hsame Hhash Hid. rewrite Hstrong in Hpw.
      unfold Valid.password_hash, Valid.blank in Hhash.
      apply negb_true_iff in Hhash.
      unfold_change_password. rewrite Hu. cbn.
      rewrite User_to_entity, Hknown. cbn. rewrite Hpw. cbn.
      rewrite Hsame. cbn. rewrite Hhash. cbn. rewrite Hid, Hu. cbn.
      repeat split.
Qed.

Lemma X7_witness :
  (change_password Sample.X 9%N "Valid123!" "Other456?" Sample.world0).1
    = Raise (UserNotFoundError (str_of_uuid 9%N) "id") /\
  (change_password Sample.X 7%N "Wrong" "weak" Sample.world0).1
    = Raise (ValueError "Current password is incorrect") /\
  (change_password Sample.X 7%N "Valid123!" "Valid123!" Sample.world0).1
    = Raise (ValueError "New password must be different from current password")
  /\
  (change_password Sample.X 8%N "Secret99#" "Other456?" Sample.world0).1
    = Ok true.
Proof.
  split; [| split; [| split]].
  - exact (proj1 (proj1 (X7_change_password_checks_in_order Sample.X 9%N
                           "Valid123!" "Other456?" Sample.world0) eq_refl)).
  - exact (proj1 (proj1 (proj2 (X7_change_password_checks_in_order Sample.X
                           7%N "Wrong" "weak" Sample.world0)
                           Sample.alice eq_refl) eq_refl)).
  - exact (proj1 (proj1 (proj2 (proj2 (proj2
             (X7_change_password_checks_in_order Sample.X 7%N "Valid123!"
                "Valid123!" Sample.world0) Sample.alice eq_refl)))
             eq_refl eq_refl eq_refl)).
  - exact (proj1 (proj2 (proj2 (proj2 (proj2
             (X7_change_password_checks_in_order Sample.X 8%N "Secret99#"
                "Other456?" Sample.world0) Sample.bob eq_refl)))
             eq_refl eq_refl eq_refl eq_refl eq_refl)).
Defined.

(** ** Asking for a password reset *)

(** X8.  [reset_password] never writes to the database and tells the
    caller nothing about the email: when at most one user has the email
    it returns [True], whether there is no such user, the user is not
    active, or a reset token was made for the user.  (With two users
    under one email the lookup fails with the error of the
    repository.) *)
Theorem X8_reset_request_always_succeeds :
  forall (E : Encoders) (settings : TokenSettings) (email : string)
         (w : World),
    let r := reset_password E settings email w in
    db r.2 = db w /\ hashed r.2 = hashed w /\
    (r.1 = Ok true \/ r.1 = Raise UserRepositoryError) /\
    ((length (UserRepositoryImpl.by_email email (db w)) <= 1)%nat ->
     r.1 = Ok true).
Proof.
  intros E settings email w r. subst r.
  unfold reset_password, create_reset_token. unfold_m.
  rewrite get_by_email_run.
  destruct (UserRepositoryImpl.by_email email (db w)) as [|u [|u' l]];
    cbn [one_or_none].
  - cbn. auto.
  - destruct (User.is_active u); cbn; auto.
  - cbn. repeat split; auto. intros H. lia.
Qed.

Lemma X8_witness :
  (reset_password
     {| jwt_encode := fun _ _ => "token"; isoformat := fun _ => "" |}
     default_settings "nobody@example.com" Sample.world0).1 = Ok true /\
  (reset_password
     {| jwt_encode := fun _ _ => "token"; isoformat := fun _ => "" |}
     default_settings "alice@example.com" Sample.world0).1 = Ok true /\
  (reset_password
     {| jwt_encode := fun _ _ => "token"; isoformat := fun _ => "" |}
     default_settings "bob@example.com" Sample.world0).1 = Ok true.
Proof.
  split; [| split].
  - apply (X8_reset_request_always_succeeds _ default_settings
             "nobody@example.com" Sample.world0).
    vm_compute. lia.
  - apply (X8_reset_request_always_succeeds _ default_settings
             "alice@example.com" Sample.world0).
    vm_compute. lia.
  - apply (X8_reset_request_always_succeeds _ default_settings
             "bob@example.com" Sample.world0).
    vm_compute. lia.
Defined.

(** ** The user of an access token *)

Ltac unfold_get_current_user :=
  unfold get_current_user, decode_token, UUID_of_claim,
    UserRepositoryImpl.get_by_id;
  unfold_m; cbn.

Lemma get_current_user_run (X : Externals) (token : string) (w : World) :
  let now := now_at (env w) (ticks (env w)) in
  let found :=
    payload ← jwt_decode X token now;
    guard (payload !! "type" = Some "access");;
    user_id ← payload !! "sub" ≫= uuid_parse X;
    u ← users (db w) !! user_id;
    guard (User.is_active u = true);;
    Some u in
  (get_current_user X token w).1 = Ok found /\
  db (get_current_user X token w).2 = db w.
Proof.
  intros now found. subst now found. unfold_get_current_user.
  destruct (jwt_decode X token _) as [payload|]; cbn; [| auto].
  case_bool_decide as Htype; cbn.
  - rewrite option_guard_True by exact Htype. cbn.
    destruct (payload !! "sub") as [text|]; cbn; [| auto].
    destruct (uuid_parse X text) as [user_id|]; cbn; [| auto].
    destruct (users (db w) !! user_id) as [u|]; cbn; [| auto].
    rewrite User_to_entity.
    destruct (User.is_active u) eqn:Hactive; cbn.
    + rewrite option_guard_True by reflexivity. auto.
    + rewrite option_guard_False by discriminate. auto.
  - rewrite option_guard_False by exact Htype. auto.
Qed.

(** X9.  [get_current_user] never raises and never writes: for every
    token it returns a user or [None].  It returns a user exactly when
    the token decodes, its type is [access], its [sub] claim is the
    well-formed identifier of a stored user, and that user is active; the
    user returned is that user. *)
Theorem X9_current_user_is_active_or_none :
  forall (X : Externals) (token : string) (w : World),
    let r := get_current_user X token w in
    let now := now_at (env w) (ticks (env w)) in
    (exists o, r.1 = Ok o) /\
    db r.2 = db w /\
    (forall u, r.1 = Ok (Some u) <->
       exists payload user_id,
         jwt_decode X token now = Some payload /\
         payload !! "type" = Some "access" /\
         (payload !! "sub" ≫= uuid_parse X) = Some user_id /\
         users (db w) !! user_id = Some u /\
         User.is_active u = true).
Proof.
  intros X token w r now. subst r now.
  destruct (get_current_user_run X token w) as [Hrun Hdb].
  split; [eauto |]. split; [exact Hdb |].
  intros u. rewrite Hrun. split.
  - intros [= H].
    destruct (jwt_decode X token _) as [payload|]; cbn in H; [| discriminate].
    case_guard as Htype; cbn in H; [| discriminate].
    destruct (payload !! "sub" ≫= uuid_parse X) as [user_id|] eqn:Hsub;
      cbn in H; [| discriminate].
    destruct (users (db w) !! user_id) as [u'|] eqn:Hu; cbn in H;
      [| discriminate].
    case_guard as Hactive; cbn in H; [| discriminate].
    injection H as ->. eauto 10.
  - intros (payload & user_id & Hdec & Htype & Hsub & Hu & Hactive).
    rewrite Hdec. cbn. rewrite option_guard_True by exact Htype. cbn.
    rewrite Hsub. cbn. rewrite Hu. cbn.
    rewrite option_guard_True by exact Hactive. reflexivity.
Qed.

Lemma X9_witness :
  (get_current_user Sample.X "access-7" Sample.world0).1
    = Ok (Some Sample.alice) /\
  (get_current_user Sample.X "reset-7" Sample.world0).1 <> Ok (Some Sample.alice).
Proof.
  pose proof (proj2 (proj2 (X9_current_user_is_active_or_none Sample.X
                              "access-7" Sample.world0)) Sample.alice) as H1.
  pose proof (proj2 (proj2 (X9_current_user_is_active_or_none Sample.X
                              "reset-7" Sample.world0)) Sample.alice) as H2.
  split.
  - apply H1.
    exists (<["type" := "access"]> (<["sub" := "7"]> ∅)), 7%N.
    repeat split; reflexivity.
  - intros H. apply H2 in H.
    destruct H as (payload & user_id & Hdec & Htype & _).
    injection Hdec as <-. discriminate Htype.
Defined.

(** ** The two kinds of token *)

Lemma decode_token_run (X : Externals) (token : string) (w : World) :
  decode_token X token w =
    (match jwt_decode X token (now_at (env w) (ticks (env w))) with
     | None => Raise (TokenInvalidError "Invalid token")
     | Some payload =>
         if bool_decide (payload !! "type" = Some "access") then Ok payload
         else Raise (TokenInvalidError "Invalid token type")
     end,
     set_env (tick (env w)) w).
Proof.
  unfold decode_token. unfold_m.
  destruct (jwt_decode X token _) as [payload|]; [| reflexivity].
  case_bool_decide; reflexivity.
Qed.

Lemma decode_reset_token_run (X : Externals) (token : string) (w : World) :
  decode_reset_token X token w =
    (match jwt_decode X token (now_at (env w) (ticks (env w))) with
     | None => Raise (TokenInvalidError "Invalid reset token")
     | Some payload =>
         if bool_decide (payload !! "type" = Some "reset") then Ok payload
         else Raise (TokenInvalidError "Invalid token type")
     end,
     set_env (tick (env w)) w).
Proof.
  unfold decode_reset_token. unfold_m.
  destruct (jwt_decode X token _) as [payload|]; [| reflexivity].
  case_bool_decide; reflexivity.
Qed.

(** X10.  A token serves one purpose.  At any one time, a token that
    [decode_token] accepts is refused by [decode_reset_token] as of the
    wrong type, and the other way round; so a reset token is no current
    user for [get_current_user], and an access token cannot confirm a
    password reset.  A text that does not decode is refused by both with
    [TokenInvalidError]. *)
Theorem X10_token_kinds_do_not_mix :
  forall (X : Externals) (token : string) (w : World),
    let now := now_at (env w) (ticks (env w)) in
    (forall payload, (decode_token X token w).1 = Ok payload ->
       (decode_reset_token X token w).1
         = Raise (TokenInvalidError "Invalid token type") /\
       forall new_password,
         (confirm_password_reset X token new_password w).1
           = Raise generic_reset_failure /\
         db (confirm_password_reset X token new_password w).2 = db w) /\
    (forall payload, (decode_reset_token X token w).1 = Ok payload ->
       (decode_token X token w).1
         = Raise (TokenInvalidError "Invalid token type") /\
       (get_current_user X token w).1 = Ok None) /\
    (jwt_decode X token now = None ->
       (decode_token X token w).1 = Raise (TokenInvalidError "Invalid token") /\
       (decode_reset_token X token w).1
         = Raise (TokenInvalidError "Invalid reset token")).
Proof.
  intros X token w now. subst now.
  rewrite decode_token_run, decode_reset_token_run. cbn [fst].
  split; [| split].
  - intros payload H.
    destruct (jwt_decode X token _) as [p|] eqn:Hdec; [| discriminate H].
    case_bool_decide as Haccess; [| discriminate H].
    assert (Hnot : p !! "type" <> Some "reset") by (rewrite Haccess; discriminate).
    split; [rewrite bool_decide_eq_false_2 by exact Hnot; reflexivity |].
    intros new_password.
    destruct (confirm_password_reset_cases X token new_password w)
      as [Hfail | (p' & text & id & u & row & Hd & Ht & _)].
    + exact Hfail.
    + cbn in Hd. rewrite Hdec in Hd. injection Hd as <-. contradiction.
  - intros payload H.
    destruct (jwt_decode X token _) as [p|] eqn:Hdec; [| discriminate H].
    case_bool_decide as Hreset; [| discriminate H].
    assert (Hnot : p !! "type" <> Some "access") by (rewrite Hreset; discriminate).
    split; [rewrite bool_decide_eq_false_2 by exact Hnot; reflexivity |].
    destruct (get_current_user_run X token w) as [-> _].
    rewrite Hdec. cbn. rewrite option_guard_False by exact Hnot. reflexivity.
  - intros ->. auto.
Qed.

Lemma X10_witness :
  (decode_reset_token Sample.X "access-7" Sample.world0).1
    = Raise (TokenInvalidError "Invalid token type") /\
  (confirm_password_reset Sample.X "access-7" "Valid123!" Sample.world0).1
    = Raise generic_reset_failure /\
  (get_current_user Sample.X "reset-7" Sample.world0).1 = Ok None.
Proof.
  destruct (proj1 (X10_token_kinds_do_not_mix Sample.X "access-7"
                     Sample.world0) _ eq_refl) as [H1 H2].
  destruct (proj1 (proj2 (X10_token_kinds_do_not_mix Sample.X "reset-7"
                            Sample.world0)) _ eq_refl) as [_ H3].
  split; [exact H1 |]. split; [apply H2 | exact H3].
Defined.

(** ** Issuing an access token and using it *)

(** X11.  The token that [create_access_token] issues names its user:
    the dictionary returned holds the token, the type [bearer], the life
    time in seconds and the public fields of the user, without the
    password hash; the token is the encoding of the claims [sub],
    [username], [email], [is_superuser] and [type = access] with expiry
    at the life time after the clock reading.  When the library decodes
    the token to these claims at the time of use, the identifier parses
    back from its text, and the user is stored and active,
    [get_current_user] on the token returns that user. *)
Theorem X11_issued_token_resolves_to_its_user :
  forall (X : Externals) (E : Encoders) (settings : TokenSettings)
         (user : User.t) (w : World),
    let issued := create_access_token E settings user w in
    let claims := <["type" := "access"]> (token_data user) in
    let token :=
      jwt_encode E claims
        (now_at (env w) (ticks (env w)) +
         minutes (access_token_expire_minutes settings)) in
    (exists d,
        issued.1 = Ok d /\
        dict_get "access_token" d = Some (PStr token) /\
        dict_get "token_type" d = Some (PStr "bearer") /\
        dict_get "expires_in" d =
          Some (PInt (access_token_expire_minutes settings * 60)) /\
        dict_get "user" d = Some (PDict (User_to_dict E user)) /\
        dict_get "password_hash" (User_to_dict E user) = None) /\
    db issued.2 = db w /\
    (jwt_decode X token (now_at (env issued.2) (ticks (env issued.2)))
       = Some claims ->
     uuid_parse X (str_of_uuid (User.id user)) = Some (User.id user) ->
     users (db w) !! User.id user = Some user ->
     User.is_active user = true ->
     (get_current_user X token issued.2).1 = Ok (Some user)).
Proof.
  intros X E settings user w issued claims token.
  assert (Hclaims : <["type" := "access"]> (delete "exp" (token_data user))
                    = claims).
  { reflexivity. }
  assert (Hissued : issued =
            (Ok [("access_token", PStr token); ("token_type", PStr "bearer");
                 ("expires_in",
                  PInt (access_token_expire_minutes settings * 60));
                 ("user", PDict (User_to_dict E user))],
             set_env (tick (env w)) w)).
  { subst issued token.
    unfold create_access_token, TokenManager_create_access_token,
      get_token_expiry_seconds.
    unfold_m. rewrite Hclaims. reflexivity. }
  rewrite Hissued. cbn [fst snd].
  split; [| split].
  - eexists. split; [reflexivity |]. repeat split.
  - reflexivity.
  - intros Hdec Hparse Hu Hactive.
    destruct (get_current_user_run X token (set_env (tick (env w)) w))
      as [-> _].
    rewrite Hdec. cbn.
    rewrite option_guard_True by apply lookup_insert_eq. cbn.
    assert (Hsub : claims !! "sub" = Some (str_of_uuid (User.id user))).
    { unfold claims, token_data.
      rewrite lookup_insert_ne by discriminate. apply lookup_insert_eq. }
    rewrite Hsub. cbn. rewrite Hparse. cbn. rewrite Hu. cbn.
    rewrite option_guard_True by exact Hactive. reflexivity.
Qed.

Lemma X11_witness :
  (get_current_user SampleTokens.X "access-alice"
     (create_access_token SampleTokens.E default_settings Sample.alice
        Sample.world0).2).1 = Ok (Some Sample.alice).
Proof.
  exact (proj2 (proj2 (X11_issued_token_resolves_to_its_user SampleTokens.X
                         SampleTokens.E default_settings Sample.alice
                         Sample.world0))
           eq_refl eq_refl eq_refl eq_refl).
Defined.

(** ** Registration, and logging in afterwards *)

Lemma lower_char_idem (c : ascii) :
  Py.lower_char (Py.lower_char c) = Py.lower_char c.
Proof. destruct c as [[] [] [] [] [] [] [] []]; reflexivity. Qed.

Lemma lower_idem (s : string) : Py.lower (Py.lower s) = Py.lower s.
Proof.
  induction s as [|c s IH]; [reflexivity |].
  change (String (Py.lower_char (Py.lower_char c)) (Py.lower (Py.lower s)) =
          String (Py.lower_char c) (Py.lower s)).
  rewrite lower_char_idem, IH. reflexivity.
Qed.

Lemma elem_of_select {A} (p : A -> bool) (table : gmap N A) (r : A) :
  r ∈ select p table <-> p r = true /\ exists k, table !! k = Some r.
Proof.
  unfold select. rewrite list_elem_of_filter, list_elem_of_In, in_map_iff.
  split.
  - intros [Hp ([k r'] & Heq & Hin)]. cbn in Heq. subst.
    split; [exact Hp |]. exists k.
    apply elem_of_map_to_list, list_elem_of_In. exact Hin.
  - intros [Hp [k Hk]]. split; [exact Hp |]. exists (k, r).
    split; [reflexivity |].
    apply list_elem_of_In, elem_of_map_to_list. exact Hk.
Qed.

Lemma select_nil {A} (p : A -> bool) (table : gmap N A) :
  select p table = [] ->
  forall k r, table !! k = Some r -> p r = false.
Proof.
  intros Hnil k r Hk. destruct (p r) eqn:Hp; [| reflexivity].
  assert (Hin : r ∈ select p table) by (apply elem_of_select; eauto).
  rewrite Hnil in Hin. apply elem_of_nil in Hin. contradiction.
Qed.

Lemma select_insert_fresh {A} (p : A -> bool) (table : gmap N A) k v :
  table !! k = None ->
  select p (<[k := v]> table) ≡ₚ
    (if p v then [v] else []) ++ select p table.
Proof.
  intros Hfresh. unfold select.
  rewrite (Permutation_map snd (map_to_list_insert table k v Hfresh)).
  change (map snd ((k, v) :: map_to_list table))
    with (v :: map snd (map_to_list table)).
  rewrite filter_cons. destruct (p v) eqn:Hp.
  - rewrite decide_True by reflexivity. reflexivity.
  - rewrite decide_False by discriminate. reflexivity.
Qed.

Lemma select_insert_only {A} (p : A -> bool) (table : gmap N A) k v :
  table !! k = None -> select p table = [] -> p v = true ->
  select p (<[k := v]> table) = [v].
Proof.
  intros Hfresh Hnil Hp. apply Permutation_singleton_r.
  rewrite (select_insert_fresh p table k v Hfresh), Hnil, Hp. reflexivity.
Qed.

Lemma User_from_entity (u : User.t) : UserModel.from_entity u = u.
Proof. destruct u; reflexivity. Qed.

(** What a registration that returns has done. *)
Lemma register_user_ok (X : Externals) (username email password : string)
    (full_name : option string) (w w' : World) (u : User.t) :
  register_user X username email password full_name w = (Ok u, w') ->
  Valid.strong_password password = true /\
  Valid.username username = true /\ Valid.email email = true /\
  u = User.mk (Py.strip username) (Py.lower (Py.strip email))
        (bcrypt_hash X (hashed w) password)
        (uuid_at (env w) (drawn (env w)))
        (if User.truthy_opt full_name
         then stored_full_name full_name else full_name)
        true false (now_at (env w) (ticks (env w)))
        (now_at (env w) (S (ticks (env w)))) /\
  users (db w) !! User.id u = None /\
  UserRepositoryImpl.by_username (User.username u) (db w) = [] /\
  UserRepositoryImpl.by_email (User.email u) (db w) = [] /\
  db w' = set_users (<[User.id u := u]> (users (db w))) (db w) /\
  hashed w' = S (hashed w).
Proof.
  intros H. unfold register_user, hash_password in H. unfold_m.
  pose proof (password_strength_run password w) as Hpw.
  destruct (Valid.strong_password password);
    [rewrite Hpw in H | destruct Hpw as [msg Hpw]; rewrite Hpw in H;
                        discriminate H].
  rewrite exists_by_username_run in H.
  destruct (UserRepositoryImpl.by_username username (db w)) as [|? [|? ?]];
    try discriminate H.
  rewrite exists_by_email_run in H. cbn [db set_trace] in H.
  destruct (UserRepositoryImpl.by_email email (db w)) as [|? [|? ?]];
    try discriminate H.
  cbn in H.
  destruct (User.__init__ username email (bcrypt_hash X (hashed w) password)
              full_name (env w)) as [[u0|e0] e1] eqn:Hinit;
    [| discriminate H].
  apply User_init_ok in Hinit as (Hu0 & He1 & Hvu & Hve & _).
  unfold UserRepositoryImpl.create in H. unfold_m. cbn in H.
  destruct (users (db w) !! User.id u0) as [?|] eqn:Hfresh;
    [discriminate H |].
  rewrite exists_by_username_run in H. cbn [db set_trace set_env set_hashed] in H.
  destruct (UserRepositoryImpl.by_username (User.username u0) (db w))
    as [|? [|? ?]] eqn:Hname; try discriminate H.
  rewrite exists_by_email_run in H. cbn [db set_trace set_env set_hashed] in H.
  destruct (UserRepositoryImpl.by_email (User.email u0) (db w))
    as [|? [|? ?]] eqn:Hmail; try discriminate H.
  cbn in H. rewrite User_to_entity, !User_from_entity in H.
  injection H as <- <-.
  cbn. rewrite <- Hu0. repeat split; auto.
Qed.

(** X12.  A registration that returns a user has stored that user, active
    and not superuser, under a new identifier, with the username trimmed,
    the email trimmed and lowercased and the hash of the password; and
    the user can log in: [authenticate_user] with the stored username
    returns the user for every password that verifies against the stored
    hash and [None] for every other, and so does [authenticate_user]
    with the stored email when no user has that text as username. *)
Theorem X12_registered_user_can_log_in :
  forall (X : Externals) (username email password : string)
         (full_name : option string) (w w' : World) (u : User.t),
    register_user X username email password full_name w = (Ok u, w') ->
    (users (db w) !! User.id u = None /\
     users (db w') !! User.id u = Some u /\
     User.is_active u = true /\ User.is_superuser u = false /\
     User.username u = Py.strip username /\
     User.email u = Py.lower (Py.strip email) /\
     User.password_hash u = bcrypt_hash X (hashed w) password) /\
    (forall attempt,
        (authenticate_user X (User.username u) attempt w').1 =
          Ok (if bcrypt_verify X attempt (User.password_hash u)
              then Some u else None)) /\
    (UserRepositoryImpl.by_username (User.email u) (db w') = [] ->
     forall attempt,
        (authenticate_user X (User.email u) attempt w').1 =
          Ok (if bcrypt_verify X attempt (User.password_hash u)
              then Some u else None)).
Proof.
  intros X username email password full_name w w' u Hreg.
  apply register_user_ok in Hreg
    as (_ & _ & _ & Hu & Hfresh & Hname & Hmail & Hdb & _).
  assert (Hactive : User.is_active u = true) by (rewrite Hu; reflexivity).
  assert (Husers : users (db w') = <[User.id u := u]> (users (db w)))
    by (rewrite Hdb; reflexivity).
  split.
  - rewrite Husers, lookup_insert_eq. rewrite Hu. repeat split. cbn.
    rewrite Hu in Hfresh. exact Hfresh.
  - split.
    + intros attempt. rewrite authenticate_user_run.
      unfold UserRepositoryImpl.by_username in *. rewrite Husers.
      rewrite (select_insert_only _ _ _ _ Hfresh Hname)
        by (apply bool_decide_eq_true_2; reflexivity).
      cbn [fst]. unfold admitted. rewrite Hactive. reflexivity.
    + intros Hnone attempt. rewrite authenticate_user_run, Hnone.
      unfold UserRepositoryImpl.by_email in *. rewrite Husers.
      assert (Hlow : Py.lower (User.email u) = User.email u)
        by (rewrite Hu; cbn; apply lower_idem).
      rewrite (select_insert_only _ _ _ _ Hfresh Hmail)
        by (apply bool_decide_eq_true_2; rewrite Hlow; reflexivity).
      cbn [fst one_or_none]. unfold admitted. rewrite Hactive. reflexivity.
Qed.

Lemma X12_witness :
  exists u w',
    register_user Sample.X "  carol " "Carol@Example.COM" "Valid123!" None
      Sample.world0 = (Ok u, w') /\
    User.username u = "carol" /\ User.email u = "carol@example.com" /\
    (authenticate_user Sample.X "carol" "Valid123!" w').1 = Ok (Some u) /\
    (authenticate_user Sample.X "carol" "Wrong123!" w').1 = Ok None.
Proof.
  eexists. eexists.
  match goal with
  | |- ?P /\ _ => assert (Hreg : P) by (vm_compute; reflexivity)
  end.
  split; [exact Hreg |].
  destruct (X12_registered_user_can_log_in _ _ _ _ _ _ _ _ Hreg)
    as ((_ & _ & _ & _ & Hn & Hm & _) & Hlogin & _).
  split; [exact Hn |]. split; [exact Hm |].
  split; [exact (Hlogin "Valid123!") | exact (Hlogin "Wrong123!")].
Defined.

(** X13.  Registration keeps usernames and emails unique.  If no two
    stored users share a username or an email, this is still so after a
    registration that returns a user, which adds that user and changes no
    other row; and a registration whose username, once trimmed, or whose
    email, once trimmed and lowercased, is that of a stored user never
    returns a user. *)
Theorem X13_registration_keeps_users_unique :
  forall (X : Externals) (username email password : string)
         (full_name : option string) (w w' : World) (u : User.t),
    register_user X username email password full_name w = (Ok u, w') ->
    users (db w') = <[User.id u := u]> (users (db w)) /\
    (forall k r, users (db w) !! k = Some r ->
                 users (db w') !! k = Some r /\
                 User.username r <> Py.strip username /\
                 User.email r <> Py.lower (Py.strip email)) /\
    (unique_users (users (db w)) -> unique_users (users (db w'))).
Proof.
  intros X username email password full_name w w' u Hreg.
  apply register_user_ok in Hreg
    as (_ & _ & _ & Hu & Hfresh & Hname & Hmail & Hdb & _).
  assert (Husers : users (db w') = <[User.id u := u]> (users (db w)))
    by (rewrite Hdb; reflexivity).
  assert (Hun : User.username u = Py.strip username) by (rewrite Hu; reflexivity).
  assert (Hue : User.email u = Py.lower (Py.strip email))
    by (rewrite Hu; reflexivity).
  assert (Hlow : Py.lower (User.email u) = User.email u)
    by (rewrite Hue; apply lower_idem).
  assert (Hother : forall k r, users (db w) !! k = Some r ->
            User.username r <> User.username u /\
            User.email r <> User.email u).
  { intros k r Hk. split.
    - pose proof (select_nil _ _ Hname k r Hk) as Hp. cbn in Hp.
      apply bool_decide_eq_false in Hp. exact Hp.
    - pose proof (select_nil _ _ Hmail k r Hk) as Hp. cbn in Hp.
      apply bool_decide_eq_false in Hp. rewrite Hlow in Hp. exact Hp. }
  split; [exact Husers |]. split.
  - intros k r Hk. destruct (Hother k r Hk) as [H1 H2].
    rewrite <- Hun, <- Hue. split; [| auto].
    rewrite Husers, lookup_insert_ne; [exact Hk |].
    intros <-. rewrite Hfresh in Hk. discriminate Hk.
  - intros Huniq k1 k2 u1 u2. rewrite Husers, !lookup_insert.
    repeat case_decide; subst.
    + reflexivity.
    + intros [= <-] H2 [Hs | Hs]; destruct (Hother _ _ H2) as [Ha Hb];
        [symmetry in Hs; contradiction | symmetry in Hs; contradiction].
    + intros H1 [= <-] [Hs | Hs]; destruct (Hother _ _ H1) as [Ha Hb];
        contradiction.
    + apply Huniq.
Qed.

Lemma X13_witness :
  exists u w',
    register_user Sample.X "carol" "carol@example.com" "Valid123!" None
      Sample.world0 = (Ok u, w') /\
    users (db w') !! 7%N = Some Sample.alice /\
    users (db w') !! 100%N = Some u.
Proof.
  eexists. eexists.
  match goal with
  | |- ?P /\ _ => assert (Hreg : P) by (vm_compute; reflexivity)
  end.
  split; [exact Hreg |].
  destruct (X13_registration_keeps_users_unique _ _ _ _ _ _ _ _ Hreg)
    as (Husers & Hkeep & _).
  split.
  - apply (Hkeep 7%N Sample.alice). vm_compute. reflexivity.
  - rewrite Husers. apply lookup_insert_eq.
Defined.

(** * Further properties of the use cases of posts and comments *)

(** ** Adding a comment *)

Lemma comment_ids_of_keyed (post_id k : N) (d : Db) :
  keyed Comment.id (comments d) ->
  comments d !! k = None ->
  k ∉ map Comment.id (BlogPostRepositoryImpl.comments_of post_id d).
Proof.
  intros Hkeyed Hnone Hin.
  apply list_elem_of_In, in_map_iff in Hin as (c & Hid & Hc).
  apply list_elem_of_In, elem_of_select in Hc as [_ [k' Hk']].
  pose proof (Hkeyed _ _ Hk') as Hkey. rewrite Hid in Hkey. subst k'.
  rewrite Hnone in Hk'. discriminate Hk'.
Qed.

Lemma comment_ids_of_stored (post_id k : N) (c : Comment.t) (d : Db) :
  comments d !! k = Some c ->
  Comment.blog_post_id c = post_id ->
  Comment.id c ∈ map Comment.id (BlogPostRepositoryImpl.comments_of post_id d).
Proof.
  intros Hk Hpost. apply list_elem_of_In, in_map.
  apply list_elem_of_In, elem_of_select. split; [| eauto].
  unfold CommentRepositoryImpl.owned_by. apply bool_decide_eq_true_2.
  exact Hpost.
Qed.

Lemma Comment_from_entity (c : Comment.t) : CommentModel.from_entity c = c.
Proof. destruct c; reflexivity. Qed.

Lemma Comment_init_run (content : string) (post : N) (name email : string)
    (e : Env) :
  if Valid.comment_content content && Valid.author_name name &&
     Valid.author_email email
  then Comment.__init__ content post name email e =
         (Ok (Comment.mk content post (uuid_at e (drawn e)) name email
                (now_at e (ticks e)) (now_at e (S (ticks e))) true),
          tick (tick (draw e)))
  else exists msg,
      Comment.__init__ content post name email e =
        (Raise (ValueError msg), tick (tick (draw e))).
Proof.
  unfold Valid.comment_content, Valid.author_name, Valid.author_email,
    Valid.blank, Comment.__init__, Comment._validate_content,
    Comment._validate_blog_post_id, Comment._validate_author_name,
    Comment._validate_author_email.
  rewrite !Nat.leb_antisym. unfold_m. cbn.
  case_tests; try congruence; try reflexivity; eexists; reflexivity.
Qed.

Ltac unfold_create_comment :=
  unfold create_comment, BlogPostRepositoryImpl.get_by_id,
    CommentRepositoryImpl.exists_, CommentRepositoryImpl.create,
    BlogPostRepositoryImpl.update, BlogPostRepositoryImpl.load;
  unfold_m; cbn.

(** X14.  [create_comment] on an identifier that no post has raises
    [BlogPostNotFoundError] and stores nothing; on a post that exists,
    values that break a rule of the comment raise [ValueError] and store
    nothing.  With values that satisfy the rules and a new identifier,
    the comment is stored, approved, with the values as given; it changes
    no other comment and no user; the post keeps its title, content and
    creation time and gets a new [updated_at]; afterwards
    [get_comment_by_id] returns the comment and the post read back lists
    its identifier. *)
Theorem X14_create_comment_stores_and_links :
  forall (post_id : N) (content name email : string) (w : World),
    let r := create_comment post_id content name email w in
    let valid := Valid.comment_content content && Valid.author_name name &&
                 Valid.author_email email in
    let new_id := uuid_at (env w) (drawn (env w)) in
    let c := Comment.mk content post_id new_id name email
               (now_at (env w) (ticks (env w)))
               (now_at (env w) (S (ticks (env w)))) true in
    (blog_posts (db w) !! post_id = None ->
       r.1 = Raise (BlogPostNotFoundError post_id) /\
       db r.2 = db w /\ env r.2 = env w) /\
    (forall row, blog_posts (db w) !! post_id = Some row -> valid = false ->
       (exists msg, r.1 = Raise (ValueError msg)) /\ db r.2 = db w) /\
    (forall row, blog_posts (db w) !! post_id = Some row ->
       BlogPostModel.id row = post_id ->
       valid = true ->
       keyed Comment.id (comments (db w)) ->
       comments (db w) !! new_id = None ->
       r.1 = Ok c /\
       comments (db r.2) = <[new_id := c]> (comments (db w)) /\
       blog_posts (db r.2) =
         <[post_id := BlogPostModel.mk post_id (BlogPostModel.title row)
                        (BlogPostModel.content row)
                        (BlogPostModel.created_at row)
                        (now_at (env w) (S (S (ticks (env w)))))]>
           (blog_posts (db w)) /\
       users (db r.2) = users (db w) /\
       (get_comment_by_id new_id r.2).1 = Ok c /\
       exists p, (get_blog_post_by_id post_id r.2).1 = Ok p /\
                 new_id ∈ BlogPost.comment_ids p).
Proof.
  intros post_id content name email w r valid new_id c.
  pose proof Comment_init_run as Hinit.
  split; [| split].
  - intros Hnone. subst r. unfold_create_comment. rewrite Hnone. cbn. auto.
  - intros row Hrow Hinvalid. subst r.
    specialize (Hinit content post_id name email (env w)).
    fold valid in Hinit. rewrite Hinvalid in Hinit.
    destruct Hinit as [msg Hinit].
    unfold_create_comment. rewrite Hrow. cbn. rewrite Hinit. cbn. eauto.
  - intros row Hrow Hrowid Hvalid Hkeyed Hfresh.
    specialize (Hinit content post_id name email (env w)).
    fold valid in Hinit. rewrite Hvalid in Hinit. fold new_id c in Hinit.
    assert (Hnotin :
      bool_decide
        (new_id ∈ map Comment.id
                    (BlogPostRepositoryImpl.comments_of post_id (db w)))
      = false).
    { apply bool_decide_eq_false_2.
      apply comment_ids_of_keyed; assumption. }
    assert (Hrun : r =
      (Ok c,
       set_db
         (set_blog_posts
            (<[post_id := BlogPostModel.mk post_id (BlogPostModel.title row)
                            (BlogPostModel.content row)
                            (BlogPostModel.created_at row)
                            (now_at (env w) (S (S (ticks (env w)))))]>
               (blog_posts (db w)))
            (set_comments (<[new_id := c]> (comments (db w))) (db w)))
         (set_env (tick (tick (tick (draw (env w)))))
            (set_trace
               (trace w ++
                  [BlogPostRepo "get_by_id" post_id;
                   CommentRepo "exists" new_id;
                   CommentRepo "create" new_id;
                   BlogPostRepo "update" post_id]) w)))).
    { subst r. unfold_create_comment. rewrite Hrow. cbn. rewrite Hinit. cbn.
      rewrite Hfresh. cbn. rewrite Hfresh. cbn.
      rewrite add_comment_id_run. cbn. rewrite Hrowid.
      fold new_id. rewrite Hnotin. cbn. rewrite Hrowid, Hrow. cbn.
      rewrite <- !app_assoc.
      rewrite ?Comment_from_entity, ?Comment_to_entity.
      clear - Hrowid. subst c new_id.
      destruct w as [[bp cm us] e h t], row. cbn in Hrowid. subst post_id.
      reflexivity. }
    rewrite Hrun. cbn [fst snd db set_db set_env set_trace blog_posts comments
                         users set_blog_posts set_comments].
    repeat split.
    + unfold get_comment_by_id, CommentRepositoryImpl.get_by_id. unfold_m. cbn.
      rewrite lookup_insert_eq. reflexivity.
    + unfold get_blog_post_by_id, BlogPostRepositoryImpl.get_by_id. unfold_m.
      cbn. rewrite lookup_insert_eq. cbn. eexists. split; [reflexivity |].
      unfold BlogPostRepositoryImpl.load. cbn.
      apply (comment_ids_of_stored post_id new_id c);
        [apply lookup_insert_eq | reflexivity].
Qed.

(** The sample tables are stored under their primary keys. *)
Lemma Sample_comments_keyed : keyed Comment.id (comments (db Sample.world0)).
Proof.
  intros k r Hk.
  destruct (decide (k = 11%N)) as [-> | H11];
    [injection Hk as <-; reflexivity |].
  destruct (decide (k = 12%N)) as [-> | H12];
    [injection Hk as <-; reflexivity |].
  destruct (decide (k = 13%N)) as [-> | H13];
    [injection Hk as <-; reflexivity |].
  cbn in Hk. rewrite !lookup_insert_ne in Hk by congruence.
  rewrite lookup_empty in Hk. discriminate Hk.
Qed.

Lemma Sample_posts_keyed :
  keyed BlogPostModel.id (blog_posts (db Sample.world0)).
Proof.
  intros k r Hk.
  destruct (decide (k = 1%N)) as [-> | H1];
    [injection Hk as <-; reflexivity |].
  destruct (decide (k = 2%N)) as [-> | H2];
    [injection Hk as <-; reflexivity |].
  cbn in Hk. rewrite !lookup_insert_ne in Hk by congruence.
  rewrite lookup_empty in Hk. discriminate Hk.
Qed.

Lemma X14_witness :
  let r := create_comment 1%N "Nice post" "Ann" "ann@example.com"
             Sample.world0 in
  exists c,
    r.1 = Ok c /\ Comment.id c = 100%N /\ Comment.is_approved c = true /\
    comments (db r.2) !! 100%N = Some c /\
    (get_comment_by_id 100%N r.2).1 = Ok c.
Proof.
  destruct (X14_create_comment_stores_and_links 1%N "Nice post" "Ann"
              "ann@example.com" Sample.world0) as (_ & _ & H).
  destruct (H Sample.post1) as (H1 & H2 & _ & _ & H5 & _).
  - vm_compute. reflexivity.
  - reflexivity.
  - vm_compute. reflexivity.
  - exact Sample_comments_keyed.
  - vm_compute. reflexivity.
  - eexists. split; [exact H1 |]. split; [reflexivity |].
    split; [reflexivity |]. split; [| exact H5].
    rewrite H2. apply lookup_insert_eq.
Defined.

(** ** Deleting a comment *)

Ltac unfold_delete_comment :=
  unfold delete_comment, get_comment_by_id, CommentRepositoryImpl.get_by_id,
    BlogPostRepositoryImpl.get_by_id, BlogPostRepositoryImpl.update,
    CommentRepositoryImpl.delete, BlogPostRepositoryImpl.load;
  unfold_m; cbn.

Lemma delete_comment_absent (comment_id : N) (w : World) :
  comments (db w) !! comment_id = None ->
  delete_comment comment_id w =
    (Ok false, set_trace (trace w ++ [CommentRepo "get_by_id" comment_id]) w).
Proof.
  intros Hnone. unfold_delete_comment. rewrite Hnone. reflexivity.
Qed.

Lemma delete_comment_present (comment_id : N) (c : Comment.t) (w : World) :
  comments (db w) !! comment_id = Some c ->
  keyed BlogPostModel.id (blog_posts (db w)) ->
  exists w',
    delete_comment comment_id w = (Ok true, w') /\
    comments (db w') = delete comment_id (comments (db w)) /\
    users (db w') = users (db w) /\
    (forall k, post_core <$> blog_posts (db w') !! k =
               post_core <$> blog_posts (db w) !! k) /\
    (forall k, k <> Comment.blog_post_id c ->
               blog_posts (db w') !! k = blog_posts (db w) !! k).
Proof.
  intros Hc Hposts. unfold_delete_comment. rewrite Hc. cbn.
  destruct (blog_posts (db w) !! Comment.blog_post_id c) as [row|] eqn:Hrow;
    cbn.
  - rewrite remove_comment_id_run. cbn.
    pose proof (Hposts _ _ Hrow) as Hid.
    destruct (bool_decide _); cbn.
    + rewrite Hid, Hrow. cbn. rewrite Hc. cbn.
      eexists. split; [reflexivity |]. cbn. repeat split.
      * intros k. destruct (decide (k = Comment.blog_post_id c)) as [-> | Hk].
        -- rewrite lookup_insert_eq, Hrow. reflexivity.
        -- rewrite lookup_insert_ne by congruence. reflexivity.
      * intros k Hk. rewrite lookup_insert_ne by congruence. reflexivity.
    + rewrite Hc. cbn. eexists. split; [reflexivity |]. cbn. repeat split.
  - rewrite Hc. cbn. eexists. split; [reflexivity |]. cbn. repeat split.
Qed.

Lemma keyed_delete {A} (id_of : A -> N) (table : gmap N A) (k : N) :
  keyed id_of table -> keyed id_of (delete k table).
Proof.
  intros Hkeyed k' r Hk'. apply lookup_delete_Some in Hk' as [_ Hk'].
  exact (Hkeyed _ _ Hk').
Qed.

(** X15.  [delete_comment] on an identifier that no comment has returns
    [False] and leaves the database as it was.  On the identifier of a
    stored comment it returns [True] and removes that row and no other;
    the users are as before, every post keeps its identifier, title,
    content and creation time, and every post but the one of the
    comment is unchanged; that the post of the comment does not exist or
    does not list the comment does not stop the deletion.  Afterwards [get_comment_by_id] raises [CommentNotFoundError], a
    second [delete_comment] returns [False], and no post read back
    lists the identifier. *)
Theorem X15_delete_comment_removes_and_unlinks :
  forall (comment_id : N) (w : World),
    let r := delete_comment comment_id w in
    (comments (db w) !! comment_id = None ->
       r.1 = Ok false /\ db r.2 = db w) /\
    (forall c, comments (db w) !! comment_id = Some c ->
       keyed BlogPostModel.id (blog_posts (db w)) ->
       r.1 = Ok true /\
       comments (db r.2) = delete comment_id (comments (db w)) /\
       users (db r.2) = users (db w) /\
       (forall k, post_core <$> blog_posts (db r.2) !! k =
                  post_core <$> blog_posts (db w) !! k) /\
       (forall k, k <> Comment.blog_post_id c ->
                  blog_posts (db r.2) !! k = blog_posts (db w) !! k) /\
       (get_comment_by_id comment_id r.2).1 =
         Raise (CommentNotFoundError comment_id) /\
       (delete_comment comment_id r.2).1 = Ok false /\
       (keyed Comment.id (comments (db w)) ->
        forall post_id p,
          (get_blog_post_by_id post_id r.2).1 = Ok p ->
          comment_id ∉ BlogPost.comment_ids p)).
Proof.
  intros comment_id w r. split.
  - intros Hnone. subst r. rewrite (delete_comment_absent _ _ Hnone).
    split; reflexivity.
  - intros c Hc Hposts.
    destruct (delete_comment_present _ _ _ Hc Hposts)
      as (w' & Hrun & Hcomments & Husers & Hcore & Hother).
    subst r. rewrite Hrun. cbn [fst snd].
    assert (Hgone : comments (db w') !! comment_id = None)
      by (rewrite Hcomments; apply lookup_delete_eq).
    repeat split; try assumption.
    + unfold get_comment_by_id, CommentRepositoryImpl.get_by_id. unfold_m.
      cbn. rewrite Hgone. reflexivity.
    + rewrite (delete_comment_absent _ _ Hgone). reflexivity.
    + intros Hkeyed post_id p Hp.
      unfold get_blog_post_by_id, BlogPostRepositoryImpl.get_by_id in Hp.
      unfold_m. cbn in Hp.
      destruct (blog_posts (db w') !! post_id) as [row|]; [| discriminate Hp].
      cbn in Hp. injection Hp as <-. cbn.
      apply comment_ids_of_keyed; [| exact Hgone].
      rewrite Hcomments. apply keyed_delete. exact Hkeyed.
Qed.

Lemma X15_witness :
  let r := delete_comment 11%N Sample.world0 in
  r.1 = Ok true /\
  comments (db r.2) !! 11%N = None /\
  (delete_comment 11%N r.2).1 = Ok false.
Proof.
  destruct (X15_delete_comment_removes_and_unlinks 11%N Sample.world0)
    as (_ & H).
  destruct (H (Sample.comment 11%N 1%N false))
    as (H1 & H2 & _ & _ & _ & _ & H7 & _).
  - vm_compute. reflexivity.
  - exact Sample_posts_keyed.
  - split; [exact H1 |]. split; [| exact H7].
    rewrite H2. apply lookup_delete_eq.
Defined.

(** ** Updating a post *)

Ltac unfold_update_blog_post :=
  unfold update_blog_post, get_blog_post_by_id,
    BlogPostRepositoryImpl.get_by_id, BlogPostRepositoryImpl.update,
    BlogPostRepositoryImpl.load;
  unfold_m; cbn.



(** ** Updating a comment *)




(** ** Listing the comments of a post *)

Lemma not_older_trans {A} (f : A -> datetime) : Transitive (not_older f).
Proof. intros a b c. unfold not_older. lia. Qed.

Lemma not_older_total {A} (f : A -> datetime) : Total (not_older f).
Proof. intros a b. unfold not_older. lia. Qed.

Lemma page_sublist {A} (limit offset : nat) (l : list A) :
  page limit offset l `sublist_of` l.
Proof.
  unfold page. etrans; [apply sublist_take | apply sublist_drop].
Qed.

Lemma select_ids_NoDup {A} (id_of : A -> N) (p : A -> bool)
    (table : gmap N A) :
  keyed id_of table -> NoDup (map id_of (select p table)).
Proof.
  intros Hkeyed. unfold select.
  apply (sublist_NoDup _ (map id_of (map snd (map_to_list table)))).
  - replace (map id_of (map snd (map_to_list table)))
      with (map fst (map_to_list table)).
    + apply NoDup_fst_map_to_list.
    + rewrite map_map. apply map_ext_in. intros [k v] Hin.
      apply list_elem_of_In, elem_of_map_to_list in Hin.
      cbn. symmetry. exact (Hkeyed _ _ Hin).
  - apply (fmap_sublist id_of), sublist_filter.
Qed.

Lemma listing_spec {A} (f : A -> datetime) (id_of : A -> N) (p : A -> bool)
    (limit offset : nat) (table : gmap N A) :
  let l := page limit offset (newest_first f (select p table)) in
  (length l <= limit)%nat /\
  (forall c, c ∈ l -> p c = true /\ exists k, table !! k = Some c) /\
  StronglySorted (not_older f) l /\
  (keyed id_of table -> NoDup (map id_of l)) /\
  (offset = 0%nat -> (length (select p table) <= limit)%nat ->
   forall k c, table !! k = Some c -> p c = true -> c ∈ l).
Proof.
  intros l. subst l.
  pose proof (merge_sort_Permutation (not_older f) (select p table)) as Hperm.
  fold (newest_first f (select p table)) in Hperm.
  split; [| split; [| split; [| split]]].
  - unfold page. rewrite length_take. lia.
  - intros c Hc. apply elem_of_select.
    rewrite <- Hperm. eapply elem_of_sublist; [exact Hc |].
    apply page_sublist.
  - unfold page.
    apply (StronglySorted_app_1_l _ _ (drop limit (drop offset
             (newest_first f (select p table))))).
    rewrite take_drop.
    apply (StronglySorted_app_1_r _ (take offset
             (newest_first f (select p table)))).
    rewrite take_drop.
    apply StronglySorted_merge_sort;
      [apply not_older_trans | apply not_older_total].
  - intros Hkeyed.
    apply (sublist_NoDup _ (map id_of (newest_first f (select p table)))).
    + rewrite Hperm. apply select_ids_NoDup, Hkeyed.
    + apply (fmap_sublist id_of), page_sublist.
  - intros -> Hlen k c Hk Hp. unfold page. rewrite drop_0.
    rewrite take_ge by (rewrite Hperm; exact Hlen).
    rewrite Hperm. apply elem_of_select. eauto.
Qed.

Lemma Comment_to_entity_list (l : list Comment.t) :
  CommentModel.to_entity <$> l = l.
Proof.
  induction l as [|c l IH]; [reflexivity |].
  cbn. rewrite Comment_to_entity. f_equal. exact IH.
Qed.

Lemma approved_of_true (post_id : N) (c : Comment.t) :
  CommentRepositoryImpl.approved_of post_id c = true <->
  Comment.blog_post_id c = post_id /\ Comment.is_approved c = true.
Proof.
  unfold CommentRepositoryImpl.approved_of, CommentRepositoryImpl.owned_by.
  rewrite andb_true_iff, !bool_decide_eq_true. reflexivity.
Qed.

Lemma owned_by_true (post_id : N) (c : Comment.t) :
  CommentRepositoryImpl.owned_by post_id c = true <->
  Comment.blog_post_id c = post_id.
Proof.
  unfold CommentRepositoryImpl.owned_by. apply bool_decide_eq_true.
Qed.

Ltac unfold_listing :=
  unfold get_comments_for_blog_post, get_blog_post_with_comments,
    get_blog_post_by_id, BlogPostRepositoryImpl.get_by_id,
    BlogPostRepositoryImpl.exists_,
    CommentRepositoryImpl.get_approved_by_blog_post_id,
    CommentRepositoryImpl.get_by_blog_post_id,
    CommentRepositoryImpl.count_approved_by_blog_post_id,
    CommentRepositoryImpl.count_by_blog_post_id;
  unfold_m; cbn.

(** X18.  [get_comments_for_blog_post] writes nothing and takes no
    reading of the clock.  For an identifier that no post has it raises
    [BlogPostNotFoundError].  Otherwise it returns at most [limit]
    comments; each is a stored comment of that post, approved when
    [approved_only] is set; they come newest first; under a primary key
    on the comments none comes twice; and with offset 0 and a limit that
    is at least the count of the repository
    ([count_approved_by_blog_post_id] or [count_by_blog_post_id]) the
    list has that length and holds every such comment. *)
Theorem X18_comment_listing_is_filtered_sorted_and_bounded :
  forall (post_id : N) (approved_only : bool) (limit offset : nat)
         (w : World),
    let r := get_comments_for_blog_post post_id approved_only limit offset w in
    let count :=
      if approved_only
      then CommentRepositoryImpl.count_approved_by_blog_post_id post_id
      else CommentRepositoryImpl.count_by_blog_post_id post_id in
    db r.2 = db w /\ env r.2 = env w /\
    (blog_posts (db w) !! post_id = None ->
       r.1 = Raise (BlogPostNotFoundError post_id)) /\
    (is_Some (blog_posts (db w) !! post_id) ->
       exists l,
         r.1 = Ok l /\
         (length l <= limit)%nat /\
         (forall c, c ∈ l ->
            (exists k, comments (db w) !! k = Some c) /\
            Comment.blog_post_id c = post_id /\
            (approved_only = true -> Comment.is_approved c = true)) /\
         StronglySorted (not_older Comment.created_at) l /\
         (keyed Comment.id (comments (db w)) -> NoDup (map Comment.id l)) /\
         (offset = 0%nat ->
          forall n, (count w).1 = Ok n -> (n <= limit)%nat ->
            length l = n /\
            forall k c, comments (db w) !! k = Some c ->
              Comment.blog_post_id c = post_id ->
              (approved_only = true -> Comment.is_approved c = true) ->
              c ∈ l)).
Proof.
  intros post_id approved_only limit offset w r count. subst r count.
  destruct (blog_posts (db w) !! post_id) as [row|] eqn:Hrow.
  - destruct approved_only.
    + destruct (listing_spec Comment.created_at Comment.id
                  (CommentRepositoryImpl.approved_of post_id)
                  limit offset (comments (db w)))
        as (Hlen & Hin & Hsorted & Hnodup & Hall).
      unfold_listing. rewrite Hrow. cbn. rewrite Comment_to_entity_list.
      repeat split; try discriminate.
      intros _. eexists. split; [reflexivity |].
      split; [exact Hlen |]. split; [| split; [exact Hsorted |
        split; [exact Hnodup |]]].
      * intros c Hc. destruct (Hin c Hc) as [Hp Hk].
        apply approved_of_true in Hp as [Hp Ha]. auto.
      * intros Hoff n Hn Hle. injection Hn as <-. split.
        -- subst offset. unfold page. rewrite drop_0.
           rewrite length_take_ge; unfold newest_first;
             rewrite merge_sort_Permutation; [reflexivity | exact Hle].
        -- intros k c Hk Hp Ha. apply (Hall Hoff Hle k c Hk).
           apply approved_of_true. auto.
    + destruct (listing_spec Comment.created_at Comment.id
                  (CommentRepositoryImpl.owned_by post_id)
                  limit offset (comments (db w)))
        as (Hlen & Hin & Hsorted & Hnodup & Hall).
      unfold_listing. rewrite Hrow. cbn. rewrite Comment_to_entity_list.
      repeat split; try discriminate.
      intros _. eexists. split; [reflexivity |].
      split; [exact Hlen |]. split; [| split; [exact Hsorted |
        split; [exact Hnodup |]]].
      * intros c Hc. destruct (Hin c Hc) as [Hp Hk].
        apply owned_by_true in Hp. split; [exact Hk |].
        split; [exact Hp | discriminate].
      * intros Hoff n Hn Hle. injection Hn as <-. split.
        -- subst offset. unfold page. rewrite drop_0.
           rewrite length_take_ge; unfold newest_first;
             rewrite merge_sort_Permutation; [reflexivity | exact Hle].
        -- intros k c Hk Hp Ha. apply (Hall Hoff Hle k c Hk).
           apply owned_by_true. exact Hp.
  - unfold_listing. rewrite Hrow. cbn. repeat split.
    intros [x Hx]. discriminate Hx.
Qed.

Lemma X18_witness :
  exists l,
    (get_comments_for_blog_post 1%N false 10 0 Sample.world0).1 = Ok l /\
    length l = 2%nat /\
    Sample.comment 11%N 1%N false ∈ l.
Proof.
  destruct (X18_comment_listing_is_filtered_sorted_and_bounded
              1%N false 10%nat 0%nat Sample.world0) as (_ & _ & _ & H).
  destruct H as (l & Hl & _ & _ & _ & _ & Hall);
    [exists Sample.post1; vm_compute; reflexivity |].
  destruct (Hall eq_refl 2%nat) as [Hlen Hin];
    [vm_compute; reflexivity | lia |].
  exists l. split; [exact Hl |]. split; [exact Hlen |].
  apply (Hin 11%N); [vm_compute; reflexivity | reflexivity | discriminate].
Defined.

(** X20.  [get_blog_post_with_comments] writes nothing.  For an
    identifier that no post has it raises [BlogPostNotFoundError].
    Otherwise it returns the post as [get_blog_post_by_id] returns it,
    with at most 100 comments, newest first; each is approved, belongs
    to the post and is listed in the [comment_ids] of the post; and the
    list is as long as [count_approved_by_blog_post_id] says unless it
    was cut at 100. *)
Theorem X20_post_with_comments_shows_approved_only :
  forall (post_id : N) (w : World),
    let r := get_blog_post_with_comments post_id w in
    db r.2 = db w /\ env r.2 = env w /\
    (blog_posts (db w) !! post_id = None ->
       r.1 = Raise (BlogPostNotFoundError post_id)) /\
    (forall row, blog_posts (db w) !! post_id = Some row ->
       BlogPostModel.id row = post_id ->
       exists p cs,
         r.1 = Ok (p, cs) /\
         (get_blog_post_by_id post_id w).1 = Ok p /\
         (length cs <= 100)%nat /\
         (forall c, c ∈ cs ->
            Comment.is_approved c = true /\
            Comment.blog_post_id c = post_id /\
            Comment.id c ∈ BlogPost.comment_ids p) /\
         StronglySorted (not_older Comment.created_at) cs /\
         ((CommentRepositoryImpl.count_approved_by_blog_post_id post_id w).1 =
            Ok (length cs) \/ length cs = 100%nat)).
Proof.
  intros post_id w r. subst r.
  destruct (blog_posts (db w) !! post_id) as [row|] eqn:Hrow.
  - destruct (listing_spec Comment.created_at Comment.id
                (CommentRepositoryImpl.approved_of post_id)
                100 0 (comments (db w)))
      as (Hlen & Hin & Hsorted & _ & _).
    unfold_listing. rewrite Hrow. cbn. rewrite Comment_to_entity_list.
    repeat split; try discriminate.
    intros row' Hrow' Hid. injection Hrow' as <-.
    eexists. eexists. split; [reflexivity |]. split; [reflexivity |].
    split; [exact Hlen |]. split; [| split; [exact Hsorted |]].
    + intros c Hc. destruct (Hin c Hc) as [Hp [k Hk]].
      apply approved_of_true in Hp as [Hp Ha].
      split; [exact Ha |]. split; [exact Hp |].
      unfold BlogPostRepositoryImpl.load. cbn. rewrite Hid.
      apply (comment_ids_of_stored post_id k c); assumption.
    + unfold page. rewrite drop_0, length_take.
      unfold newest_first. rewrite merge_sort_Permutation.
      destruct (Nat.min_spec 100
                  (length (select (CommentRepositoryImpl.approved_of post_id)
                             (comments (db w))))) as [[_ ->] | [_ ->]];
        [right | left]; reflexivity.
  - unfold_listing. rewrite Hrow. cbn. repeat split. discriminate.
Qed.

Lemma X20_witness :
  exists p cs,
    (get_blog_post_with_comments 2%N Sample.world0).1 = Ok (p, cs) /\
    cs = [Sample.comment 13%N 2%N true] /\
    BlogPost.comment_ids p = [13%N].
Proof.
  destruct (X20_post_with_comments_shows_approved_only 2%N Sample.world0)
    as (_ & _ & _ & H).
  destruct (H Sample.post2) as (p & cs & Hr & _);
    [vm_compute; reflexivity | reflexivity |].
  exists p, cs. split; [exact Hr |].
  assert (Hrun : (get_blog_post_with_comments 2%N Sample.world0).1 =
                 Ok (BlogPost.mk "Other" "Text" 2%N 5 5 [13%N],
                     [Sample.comment 13%N 2%N true]))
    by (vm_compute; reflexivity).
  rewrite Hrun in Hr. injection Hr as <- <-. split; reflexivity.
Defined.

(** ** Counting the comments of a post *)

Lemma create_comment_ok (post_id : N) (content name email : string)
    (w w' : World) (c : Comment.t) :
  create_comment post_id content name email w = (Ok c, w') ->
  is_Some (blog_posts (db w) !! post_id) /\
  comments (db w) !! Comment.id c = None /\
  Comment.blog_post_id c = post_id /\
  Comment.is_approved c = true /\
  comments (db w') = <[Comment.id c := c]> (comments (db w)) /\
  users (db w') = users (db w) /\
  is_Some (blog_posts (db w') !! post_id).
Proof.
  pose proof (Comment_init_run content post_id name email (env w)) as Hinit.
  unfold_create_comment.
  destruct (blog_posts (db w) !! post_id) as [row|] eqn:Hrow; cbn;
    [| discriminate].
  destruct (Valid.comment_content content && Valid.author_name name &&
            Valid.author_email email).
  - rewrite Hinit. cbn.
    destruct (comments (db w) !! uuid_at (env w) (drawn (env w)))
      as [old|] eqn:Hold; cbn; [discriminate |].
    rewrite Hold. cbn. rewrite add_comment_id_run. cbn.
    destruct (bool_decide _); cbn; [discriminate |].
    destruct (blog_posts (db w) !! BlogPostModel.id row) as [row'|]; cbn;
      [| discriminate].
    intros H. injection H as <- <-. cbn.
    rewrite Hold. repeat split; [eauto |].
    apply lookup_insert_is_Some'. right. eauto.
  - destruct Hinit as [msg ->]. cbn. discriminate.
Qed.

Lemma length_select_le {A} (p q : A -> bool) (table : gmap N A) :
  (forall r, p r = true -> q r = true) ->
  (length (select p table) <= length (select q table))%nat.
Proof.
  intros Himp. unfold select.
  induction (map snd (map_to_list table)) as [|r l IH]; [reflexivity |].
  rewrite !filter_cons.
  destruct (decide (p r = true)) as [Hp | Hp];
    destruct (decide (q r = true)) as [Hq | Hq]; cbn; try lia.
  exfalso. apply Hq, Himp, Hp.
Qed.

(** X19.  The two counts of the comments of a post never fail, and the
    approved count is at most the full count.  A [create_comment] that
    returns a comment raises both counts of its post by one, the new
    comment being approved, and leaves the counts of every other post
    as they were. *)
Theorem X19_counts_follow_created_comments :
  forall (post_id : N) (content name email : string) (w w' : World)
         (c : Comment.t),
    create_comment post_id content name email w = (Ok c, w') ->
    forall q : N,
    exists n a : nat,
      (CommentRepositoryImpl.count_by_blog_post_id q w).1 = Ok n /\
      (CommentRepositoryImpl.count_approved_by_blog_post_id q w).1 = Ok a /\
      (a <= n)%nat /\
      (CommentRepositoryImpl.count_by_blog_post_id q w').1 =
        Ok (if decide (q = post_id) then S n else n) /\
      (CommentRepositoryImpl.count_approved_by_blog_post_id q w').1 =
        Ok (if decide (q = post_id) then S a else a).
Proof.
  intros post_id content name email w w' c Hrun q.
  apply create_comment_ok in Hrun
    as (_ & Hfresh & Hpost & Happroved & Hcomments & _ & _).
  eexists. eexists.
  split; [reflexivity |]. split; [reflexivity |].
  split.
  - apply length_select_le. intros r Hr.
    apply approved_of_true in Hr as [Hr _]. apply owned_by_true. exact Hr.
  - unfold_listing. rewrite Hcomments.
    rewrite !(select_insert_fresh _ _ _ _ Hfresh).
    unfold CommentRepositoryImpl.approved_of, CommentRepositoryImpl.owned_by.
    rewrite Hpost, Happroved.
    destruct (decide (q = post_id)) as [-> | Hq].
    + rewrite bool_decide_eq_true_2 by reflexivity. cbn. split; reflexivity.
    + rewrite bool_decide_eq_false_2 by congruence. cbn. split; reflexivity.
Qed.

Lemma X19_witness :
  (CommentRepositoryImpl.count_by_blog_post_id 1%N Sample.world0).1
    = Ok 2%nat /\
  (CommentRepositoryImpl.count_by_blog_post_id 1%N
     (create_comment 1%N "Nice post" "Ann" "ann@example.com"
        Sample.world0).2).1 = Ok 3%nat.
Proof.
  assert (Hrun : exists c w',
             create_comment 1%N "Nice post" "Ann" "ann@example.com"
               Sample.world0 = (Ok c, w')).
  { eexists. eexists. vm_compute. reflexivity. }
  destruct Hrun as (c & w' & Hrun).
  destruct (X19_counts_follow_created_comments _ _ _ _ _ _ _ Hrun 1%N)
    as (n & a & Hn & _ & _ & Hn' & _).
  rewrite Hrun. cbn [snd].
  assert (H2 : (CommentRepositoryImpl.count_by_blog_post_id 1%N
                  Sample.world0).1 = Ok 2%nat) by (vm_compute; reflexivity).
  split; [exact H2 |].
  rewrite H2 in Hn. injection Hn as <-. exact Hn'.
Defined.

(** ** Moderation and what the public listing shows *)

Lemma keyed_insert {A} (id_of : A -> N) (table : gmap N A) (k : N) (v : A) :
  keyed id_of table -> id_of v = k -> keyed id_of (<[k := v]> table).
Proof.
  intros Hkeyed Hid k' r Hk'.
  destruct (decide (k' = k)) as [-> | Hne].
  - rewrite lookup_insert_eq in Hk'. injection Hk' as <-. exact Hid.
  - rewrite lookup_insert_ne in Hk' by congruence. exact (Hkeyed _ _ Hk').
Qed.

Lemma moderation_missing (comment_id : N) (w : World) :
  comments (db w) !! comment_id = None ->
  approve_comment comment_id w =
    (Raise (CommentNotFoundError comment_id),
     set_trace (trace w ++ [CommentRepo "get_by_id" comment_id]) w) /\
  reject_comment comment_id w =
    (Raise (CommentNotFoundError comment_id),
     set_trace (trace w ++ [CommentRepo "get_by_id" comment_id]) w).
Proof.
  intros Hnone.
  unfold approve_comment, reject_comment, get_comment_by_id,
    CommentRepositoryImpl.get_by_id.
  unfold_m. cbn. rewrite Hnone. split; reflexivity.
Qed.

(** X21.  [approve_comment] and [reject_comment] on an identifier that
    no comment has raise [CommentNotFoundError] and leave the database
    as it was.  On a stored comment of an existing post they return the
    comment with the flag set (with a new [updated_at] only when the
    flag changed), and they change no other comment.  After the
    approval the comment is in the public listing of its post whenever
    the limit covers the approved comments; after the rejection no page
    of the public listing holds a comment with its identifier, while
    the listing of all comments still shows it. *)
Theorem X21_moderation_decides_visibility :
  forall (comment_id : N) (w : World),
    let ra := approve_comment comment_id w in
    let rr := reject_comment comment_id w in
    (comments (db w) !! comment_id = None ->
       ra.1 = Raise (CommentNotFoundError comment_id) /\ db ra.2 = db w /\
       rr.1 = Raise (CommentNotFoundError comment_id) /\ db rr.2 = db w) /\
    (forall c, comments (db w) !! comment_id = Some c ->
       keyed Comment.id (comments (db w)) ->
       is_Some (blog_posts (db w) !! Comment.blog_post_id c) ->
       let post_id := Comment.blog_post_id c in
       let now := now_at (env w) (ticks (env w)) in
       ra.1 = Ok (moderated true now c) /\
       rr.1 = Ok (moderated false now c) /\
       (forall k, k <> comment_id ->
          comments (db ra.2) !! k = comments (db w) !! k /\
          comments (db rr.2) !! k = comments (db w) !! k) /\
       (forall limit n,
          (CommentRepositoryImpl.count_approved_by_blog_post_id post_id
             ra.2).1 = Ok n ->
          (n <= limit)%nat ->
          exists l,
            (get_comments_for_blog_post post_id true limit 0 ra.2).1 = Ok l /\
            moderated true now c ∈ l) /\
       (forall limit offset l,
          (get_comments_for_blog_post post_id true limit offset rr.2).1
            = Ok l ->
          forall x, x ∈ l -> Comment.id x <> comment_id) /\
       (forall limit n,
          (CommentRepositoryImpl.count_by_blog_post_id post_id rr.2).1
            = Ok n ->
          (n <= limit)%nat ->
          exists l,
            (get_comments_for_blog_post post_id false limit 0 rr.2).1 = Ok l /\
            moderated false now c ∈ l)).
Proof.
  intros comment_id w ra rr. split.
  - intros Hnone. subst ra rr.
    destruct (moderation_missing _ _ Hnone) as [-> ->]. cbn. auto.
  - intros c Hc Hkeyed [row Hrow] post_id now. subst post_id.
    destruct (moderate_one_run "approve" comment_id w c Hkeyed Hc)
      as (wa & Ha & Hdba & _).
    destruct (moderate_one_run "reject" comment_id w c Hkeyed Hc)
      as (wr & Hr & Hdbr & _).
    change (moderate_one "approve" comment_id w) with ra in Ha.
    change (moderate_one "reject" comment_id w) with rr in Hr.
    change (moderation_flag "approve") with true in *.
    change (moderation_flag "reject") with false in *.
    fold now in Ha, Hr, Hdba, Hdbr.
    rewrite Ha, Hr. cbn [fst snd].
    pose proof (Hkeyed _ _ Hc) as Hid.
    destruct wa as [dba ea ha ta], wr as [dbr er hr tr].
    cbn in Hdba, Hdbr. subst dba dbr.
    split; [reflexivity |]. split; [reflexivity |].
    split; [| split; [| split]].
    + intros k Hk. cbn.
      rewrite !lookup_insert_ne by congruence. auto.
    + intros limit n. unfold_listing. rewrite Hrow. cbn.
      rewrite Comment_to_entity_list. intros Hn Hle.
      eexists. split; [reflexivity |].
      injection Hn as <-.
      eapply (listing_spec Comment.created_at Comment.id _ limit 0);
        [reflexivity | exact Hle | apply lookup_insert_eq |].
      apply approved_of_true. split.
      * unfold moderated. case_bool_decide; reflexivity.
      * apply moderated_flag.
    + intros limit offset l. unfold_listing. rewrite Hrow. cbn.
      rewrite Comment_to_entity_list. intros Hl x Hx Hxid.
      injection Hl as <-.
      apply (listing_spec Comment.created_at Comment.id) in Hx
        as [Hp [k Hk]].
      apply approved_of_true in Hp as [_ Happroved].
      assert (Hkeyed' : keyed Comment.id
                (<[comment_id := moderated false now c]> (comments (db w)))).
      { apply keyed_insert; [exact Hkeyed |].
        rewrite moderated_id. exact Hid. }
      pose proof (Hkeyed' _ _ Hk) as Hkid. rewrite Hxid in Hkid. subst k.
      rewrite lookup_insert_eq in Hk. injection Hk as <-.
      rewrite moderated_flag in Happroved. discriminate Happroved.
    + intros limit n. unfold_listing. rewrite Hrow. cbn.
      rewrite Comment_to_entity_list. intros Hn Hle.
      eexists. split; [reflexivity |].
      injection Hn as <-.
      eapply (listing_spec Comment.created_at Comment.id _ limit 0);
        [reflexivity | exact Hle | apply lookup_insert_eq |].
      apply owned_by_true.
      unfold moderated. case_bool_decide; reflexivity.
Qed.

Lemma X21_witness :
  (approve_comment 11%N Sample.world0).1 =
    Ok (Comment.mk "nice" 1%N 11%N "Anonymous" "" 6 1000 true) /\
  exists l,
    (get_comments_for_blog_post 1%N true 10 0
       (approve_comment 11%N Sample.world0).2).1 = Ok l /\
    Comment.mk "nice" 1%N 11%N "Anonymous" "" 6 1000 true ∈ l.
Proof.
  destruct (X21_moderation_decides_visibility 11%N Sample.world0)
    as (_ & H).
  destruct (H (Sample.comment 11%N 1%N false))
    as (Ha & _ & _ & Hlist & _);
    [vm_compute; reflexivity | exact Sample_comments_keyed
    | exists Sample.post1; vm_compute; reflexivity |].
  split; [exact Ha |].
  destruct (Hlist 10%nat 1%nat) as (l & Hl & Hin);
    [vm_compute; reflexivity | lia |].
  exists l. split; [exact Hl | exact Hin].
Defined.

(** ** Batch moderation *)

Lemma moderated_same (flag : bool) (t : datetime) (c : Comment.t) :
  Comment.is_approved c = flag -> moderated flag t c = c.
Proof.
  intros Hflag. unfold moderated.
  rewrite bool_decide_eq_true_2 by exact Hflag. reflexivity.
Qed.

(** The comments a batch returns are the rows it leaves stored. *)
Lemma moderate_loop_stored (action : string) (ids : list UUID) :
  forall (acc : list Comment.t) (w : World),
    keyed Comment.id (comments (db w)) ->
    Forall (fun id => is_Some (comments (db w) !! id)) ids ->
    exists done w1,
      moderate_loop action ids acc w = (Ok (acc ++ done), w1) /\
      (forall k c, comments (db w) !! k = Some c ->
                   Comment.is_approved c = moderation_flag action ->
                   comments (db w1) !! k = Some c) /\
      Forall2 (fun id c => comments (db w1) !! id = Some c /\
                           Comment.is_approved c = moderation_flag action)
              ids done.
Proof.
  induction ids as [|id ids IH]; intros acc w Hkeyed Hall.
  - exists [], w. rewrite app_nil_r. repeat split; auto.
  - apply Forall_cons in Hall as [[c Hc] Hall].
    destruct (moderate_one_run action id w c Hkeyed Hc)
      as (w' & Hone & Hdb & _).
    set (c' := moderated (moderation_flag action)
                 (now_at (env w) (ticks (env w))) c) in *.
    assert (Hcomments : comments (db w') = <[id := c']> (comments (db w)))
      by (rewrite Hdb; reflexivity).
    assert (Hkeyed' : keyed Comment.id (comments (db w'))).
    { rewrite Hcomments. apply keyed_insert; [exact Hkeyed |].
      unfold c'. rewrite moderated_id. exact (Hkeyed _ _ Hc). }
    assert (Hall' : Forall (fun id => is_Some (comments (db w') !! id)) ids).
    { eapply Forall_impl; [exact Hall |]. intros k Hk. cbn in Hk.
      rewrite Hcomments.
      destruct (decide (k = id)) as [-> | Hne].
      - rewrite lookup_insert_eq. eauto.
      - rewrite lookup_insert_ne by congruence. exact Hk. }
    destruct (IH (acc ++ [c']) w' Hkeyed' Hall')
      as (done & w1 & Hloop & Hkeep & Hstored).
    exists (c' :: done), w1.
    rewrite moderate_loop_cons, Hone, Hloop, <- app_assoc.
    split; [reflexivity |]. split.
    + intros k r Hk Hflag. apply Hkeep; [| exact Hflag].
      rewrite Hcomments.
      destruct (decide (k = id)) as [-> | Hne].
      * rewrite lookup_insert_eq. rewrite Hc in Hk. injection Hk as <-.
        unfold c'. rewrite moderated_same by exact Hflag. reflexivity.
      * rewrite lookup_insert_ne by congruence. exact Hk.
    + constructor; [| exact Hstored].
      assert (Hflag : Comment.is_approved c' = moderation_flag action)
        by (unfold c'; apply moderated_flag).
      split; [| exact Hflag].
      apply Hkeep; [| exact Hflag].
      rewrite Hcomments. apply lookup_insert_eq.
Qed.

(** X22.  [moderate_comments_batch] checks the action before anything
    else: with an action other than [approve] and [reject] it raises
    [ValueError] and nothing at all has happened, whatever the
    identifiers.  With a valid action and identifiers that all exist it
    returns one comment for each identifier, in the order of the list
    (an identifier given twice gives two entries); each comment
    returned carries the identifier and the flag of the action and is
    the row stored afterwards; comments outside the list, and comments
    that carried the flag already, are as before, and so are posts and
    users. *)
Theorem X22_batch_moderation_checks_the_action_first :
  forall (ids : list UUID) (action : string) (w : World),
    let r := moderate_comments_batch ids action w in
    (action ∉ ["approve"; "reject"] ->
       r = (Raise (ValueError "Action must be 'approve' or 'reject'"), w)) /\
    (action ∈ ["approve"; "reject"] ->
     keyed Comment.id (comments (db w)) ->
     Forall (fun id => is_Some (comments (db w) !! id)) ids ->
       exists done,
         r.1 = Ok done /\
         Forall2 (fun id c => Comment.id c = id /\
                              Comment.is_approved c = moderation_flag action /\
                              comments (db r.2) !! id = Some c)
                 ids done /\
         (forall k, k ∉ ids -> comments (db r.2) !! k = comments (db w) !! k) /\
         (forall k c, comments (db w) !! k = Some c ->
                      Comment.is_approved c = moderation_flag action ->
                      comments (db r.2) !! k = Some c) /\
         blog_posts (db r.2) = blog_posts (db w) /\
         users (db r.2) = users (db w)).
Proof.
  intros ids action w r. subst r. unfold moderate_comments_batch. split.
  - intros Hbad. rewrite (bool_decide_eq_false_2 _ Hbad). reflexivity.
  - intros Hgood Hkeyed Hall. rewrite (bool_decide_eq_true_2 _ Hgood).
    cbn [negb].
    destruct (moderate_loop_all_present action ids [] w Hkeyed Hall)
      as (done & w1 & Hloop & Hids & Hkeyed1 & _ & Hposts & Husers & _ &
          Hother & _).
    destruct (moderate_loop_stored action ids [] w Hkeyed Hall)
      as (done' & w1' & Hloop' & Hkeep & Hstored).
    rewrite Hloop in Hloop'. injection Hloop' as <- <-.
    rewrite Hloop. cbn [fst snd app].
    exists done. split; [reflexivity |].
    split; [| auto].
    eapply Forall2_impl; [exact Hstored |].
    intros id c [Hc Hflag]. cbn in Hc.
    split; [exact (Hkeyed1 _ _ Hc) | auto].
Qed.

Lemma X22_witness :
  exists done,
    (moderate_comments_batch [11; 12; 11]%N "approve" Sample.world0).1
      = Ok done /\
    map Comment.is_approved done = [true; true; true] /\
    moderate_comments_batch [11; 12]%N "publish" Sample.world0 =
      (Raise (ValueError "Action must be 'approve' or 'reject'"),
       Sample.world0).
Proof.
  destruct (X22_batch_moderation_checks_the_action_first
              [11; 12; 11]%N "approve" Sample.world0) as [_ H].
  destruct H as (done & Hdone & Hall & _).
  - apply list_elem_of_here.
  - exact Sample_comments_keyed.
  - repeat constructor; eexists; vm_compute; reflexivity.
  - exists done. split; [exact Hdone |]. split.
    + repeat match goal with
             | H : Forall2 _ _ _ |- _ => inversion H; subst; clear H
             end.
      cbn. repeat f_equal; tauto.
    + destruct (X22_batch_moderation_checks_the_action_first
                  [11; 12]%N "publish" Sample.world0) as [H _].
      apply H. intros Hin.
      apply list_elem_of_In in Hin. cbn in Hin.
      destruct Hin as [Hin | [Hin | []]]; discriminate Hin.
Defined.

(** ** A changed password and the next login *)

Lemma select_none {A} (p : A -> bool) (table : gmap N A) :
  (forall k r, table !! k = Some r -> p r = false) -> select p table = [].
Proof.
  intros Hnone.
  destruct (select p table) as [|r l] eqn:Hsel; [reflexivity |].
  assert (Hin : r ∈ select p table) by (rewrite Hsel; apply list_elem_of_here).
  apply elem_of_select in Hin as [Hp [k Hk]].
  rewrite (Hnone _ _ Hk) in Hp. discriminate Hp.
Qed.

(** The query that finds one row keeps finding one row when that row is
    replaced by a row that satisfies the query. *)
Lemma select_insert_replace {A} (p : A -> bool) (table : gmap N A)
    (k : N) (v : A) :
  (forall k' v', table !! k' = Some v' -> p v' = true -> k' = k) ->
  p v = true ->
  select p (<[k := v]> table) = [v].
Proof.
  intros Honly Hp. rewrite <- insert_delete_eq.
  apply select_insert_only; [apply lookup_delete_eq | | exact Hp].
  apply select_none. intros k' v' Hk'.
  apply lookup_delete_Some in Hk' as [Hne Hk'].
  destruct (p v') eqn:Hpv; [| reflexivity].
  exfalso. apply Hne. symmetry. exact (Honly _ _ Hk' Hpv).
Qed.

Lemma change_password_ok (X : Externals) (user_id : N)
    (current new : string) (w : World) (u : User.t) :
  users (db w) !! user_id = Some u ->
  User.id u = user_id ->
  (change_password X user_id current new w).1 = Ok true ->
  bcrypt_verify X current (User.password_hash u) = true /\
  Valid.strong_password new = true /\
  bcrypt_verify X new (User.password_hash u) = false /\
  users (db (change_password X user_id current new w).2) =
    <[user_id := User.set_updated_at (now_at (env w) (ticks (env w)))
                   (User.set_password_hash (bcrypt_hash X (hashed w) new) u)]>
      (users (db w)).
Proof.
  intros Hu Hid.
  pose proof (password_strength_run (S := World) new) as Hpw.
  unfold_change_password. rewrite Hu. cbn. rewrite User_to_entity.
  destruct (bcrypt_verify X current (User.password_hash u)); cbn;
    [| discriminate].
  destruct (Valid.strong_password new).
  - rewrite Hpw. cbn.
    destruct (bcrypt_verify X new (User.password_hash u)); cbn;
      [discriminate |].
    destruct (negb (Py.truthy (Py.strip (bcrypt_hash X (hashed w) new))));
      cbn; [discriminate |].
    rewrite Hid, Hu. cbn. intros _. repeat split.
  - match goal with
    | |- context [_validate_password_strength new ?s] =>
        destruct (Hpw s) as [msg ->]
    end.
    cbn. discriminate.
Qed.

(** X23.  After a [change_password] that returned [True] the current
    password had verified, the row of the user holds the hash of the
    new password, and the other users are as before.  When no other
    user has the username, the next login by username is decided by the
    new hash alone: for a user who is active
    [authenticate_user] returns the user exactly for the passwords that
    verify against the hash of the new password, and [None] for the
    others, the old password among them unless it verifies against the
    new hash; a user who is not active can change the password and
    still gets [None]. *)
Theorem X23_changed_password_decides_the_next_login :
  forall (X : Externals) (user_id : N) (current new : string) (w : World)
         (u : User.t),
    users (db w) !! user_id = Some u ->
    User.id u = user_id ->
    (forall k v, users (db w) !! k = Some v ->
                 User.username v = User.username u -> k = user_id) ->
    let r := change_password X user_id current new w in
    r.1 = Ok true ->
    let h := bcrypt_hash X (hashed w) new in
    let u' := User.set_updated_at (now_at (env w) (ticks (env w)))
                (User.set_password_hash h u) in
    bcrypt_verify X current (User.password_hash u) = true /\
    users (db r.2) !! user_id = Some u' /\
    (forall k, k <> user_id -> users (db r.2) !! k = users (db w) !! k) /\
    forall attempt,
      (authenticate_user X (User.username u) attempt r.2).1 =
        Ok (if User.is_active u && bcrypt_verify X attempt h
            then Some u' else None).
Proof.
  intros X user_id current new w u Hu Hid Honly r Hok h u'.
  destruct (change_password_ok X user_id current new w u Hu Hid Hok)
    as (Hknown & _ & _ & Husers).
  fold r h u' in Husers.
  split; [exact Hknown |]. split; [| split].
  - rewrite Husers. apply lookup_insert_eq.
  - intros k Hk. rewrite Husers. apply lookup_insert_ne. congruence.
  - intros attempt. rewrite authenticate_user_run.
    unfold UserRepositoryImpl.by_username. rewrite Husers.
    rewrite (select_insert_replace _ _ user_id u').
    + cbn [fst]. unfold admitted. destruct u; reflexivity.
    + intros k v Hk Hname. apply bool_decide_eq_true in Hname.
      exact (Honly _ _ Hk Hname).
    + apply bool_decide_eq_true_2. destruct u; reflexivity.
Qed.

Lemma X23_witness :
  let r := change_password Sample.X 7%N "Valid123!" "Other456?"
             Sample.world0 in
  r.1 = Ok true /\
  (exists u', (authenticate_user Sample.X "alice" "Other456?" r.2).1
              = Ok (Some u')) /\
  (authenticate_user Sample.X "alice" "Valid123!" r.2).1 = Ok None.
Proof.
  assert (Hok : (change_password Sample.X 7%N "Valid123!" "Other456?"
                   Sample.world0).1 = Ok true) by (vm_compute; reflexivity).
  assert (Hu : users (db Sample.world0) !! 7%N = Some Sample.alice)
    by (vm_compute; reflexivity).
  assert (Honly : forall k v, users (db Sample.world0) !! k = Some v ->
                    User.username v = User.username Sample.alice -> k = 7%N).
  { intros k v Hk Hname.
    destruct (decide (k = 7%N)) as [-> | H7]; [reflexivity |].
    destruct (decide (k = 8%N)) as [-> | H8].
    - injection Hk as <-. discriminate Hname.
    - cbn in Hk. rewrite !lookup_insert_ne in Hk by congruence.
      rewrite lookup_empty in Hk. discriminate Hk. }
  destruct (X23_changed_password_decides_the_next_login Sample.X 7%N
              "Valid123!" "Other456?" Sample.world0 Sample.alice
              Hu eq_refl Honly Hok) as (_ & _ & _ & Hlogin).
  split; [exact Hok |]. split.
  - eexists.
    etransitivity; [exact (Hlogin "Other456?") | vm_compute; reflexivity].
  - etransitivity; [exact (Hlogin "Valid123!") | vm_compute; reflexivity].
Defined.

(** ** From the reset token to the next login *)

(** X24.  [create_reset_token] encodes the data given together with
    [type = reset] and an expiry at the life time of reset tokens after
    the clock reading; it changes nothing but the clock.  When the
    library decodes that token to these claims at the time of use, the
    identifier parses back from its text, the user is stored and
    active, and the new password is strong, [confirm_password_reset]
    with the token returns [True], the row of the user holds the hash
    of the new password, and, when no other user has the username,
    [authenticate_user] by username then returns the user exactly for
    the passwords that verify against that hash. *)
Theorem X24_issued_reset_token_sets_the_password :
  forall (X : Externals) (E : Encoders) (settings : TokenSettings)
         (u : User.t) (new : string) (w w1 : World),
    let data : gmap string string :=
      <["user_id" := str_of_uuid (User.id u)]> ∅ in
    let issued := create_reset_token E settings data w in
    let claims := <["type" := "reset"]> data in
    let token :=
      jwt_encode E claims
        (now_at (env w) (ticks (env w)) +
         minutes (reset_token_expire_minutes settings)) in
    issued = (Ok token, set_env (tick (env w)) w) /\
    (jwt_decode X token (now_at (env w1) (ticks (env w1))) = Some claims ->
     uuid_parse X (str_of_uuid (User.id u)) = Some (User.id u) ->
     users (db w1) !! User.id u = Some u ->
     User.is_active u = true ->
     Valid.strong_password new = true ->
     Valid.password_hash (bcrypt_hash X (hashed w1) new) = true ->
     (forall k v, users (db w1) !! k = Some v ->
                  User.username v = User.username u -> k = User.id u) ->
     let r := confirm_password_reset X token new w1 in
     let h := bcrypt_hash X (hashed w1) new in
     r.1 = Ok true /\
     exists u',
       users (db r.2) !! User.id u = Some u' /\
       User.password_hash u' = h /\
       forall attempt,
         (authenticate_user X (User.username u) attempt r.2).1 =
           Ok (if bcrypt_verify X attempt h then Some u' else None)).
Proof.
  intros X E settings u new w w1 data issued claims token.
  split; [reflexivity |].
  intros Hdec Hparse Hu Hactive Hstrong Hhash Honly r h.
  destruct (confirm_password_reset_succeeds X token new w1 claims
              (str_of_uuid (User.id u)) (User.id u) u Hdec)
    as (Hok & Husers & _); try assumption; try reflexivity.
  fold r h in Hok, Husers.
  split; [exact Hok |].
  eexists. split; [rewrite Husers; apply lookup_insert_eq |].
  split; [reflexivity |].
  intros attempt. rewrite authenticate_user_run.
  unfold UserRepositoryImpl.by_username. rewrite Husers.
  rewrite (select_insert_replace _ _ (User.id u)).
  - cbn [fst]. unfold admitted. cbn. rewrite Hactive. reflexivity.
  - intros k v Hk Hname. apply bool_decide_eq_true in Hname.
    exact (Honly _ _ Hk Hname).
  - apply bool_decide_eq_true_2. reflexivity.
Qed.

Lemma X24_witness :
  let E := {| jwt_encode := fun _ _ => "reset-7"; isoformat := fun _ => "" |} in
  (create_reset_token E default_settings
     (<["user_id" := str_of_uuid 7%N]> ∅) Sample.world0).1 = Ok "reset-7" /\
  let r := confirm_password_reset Sample.X "reset-7" "Other456?"
             Sample.world0 in
  r.1 = Ok true /\
  exists u',
    (authenticate_user Sample.X "alice" "Other456?" r.2).1 = Ok (Some u').
Proof.
  intros E.
  assert (Honly : forall k v, users (db Sample.world0) !! k = Some v ->
                    User.username v = User.username Sample.alice -> k = 7%N).
  { intros k v Hk Hname.
    destruct (decide (k = 7%N)) as [-> | H7]; [reflexivity |].
    destruct (decide (k = 8%N)) as [-> | H8].
    - injection Hk as <-. discriminate Hname.
    - cbn in Hk. rewrite !lookup_insert_ne in Hk by congruence.
      rewrite lookup_empty in Hk. discriminate Hk. }
  destruct (X24_issued_reset_token_sets_the_password Sample.X E
              default_settings Sample.alice "Other456?" Sample.world0
              Sample.world0) as [Hissued Hconfirm].
  split; [exact (f_equal fst Hissued) |].
  destruct Hconfirm as (Hok & u' & _ & _ & Hlogin);
    try (vm_compute; reflexivity); [exact Honly |].
  split; [exact Hok |].
  eexists.
  etransitivity; [exact (Hlogin "Other456?") | vm_compute; reflexivity].
Defined.

(** ** Rows and entities *)

(** X25.  Rows and entities convert without loss.  A comment or a user
    turned into a row and back, or a row turned into an entity and
    back, is unchanged; a post is unchanged when the comments handed to
    [to_entity] are the ones it lists.  Writing an entity that was just
    read back with [update_from_entity] changes nothing; and
    [update_from_entity] never writes the identifier or the creation
    time of a row, nor the post of a comment. *)
Theorem X25_rows_and_entities_round_trip :
  (forall (p : BlogPost.t) (cs : list Comment.t),
      BlogPostModel.to_entity (BlogPostModel.from_entity p) cs = p <->
      map Comment.id cs = BlogPost.comment_ids p) /\
  (forall (row : BlogPostModel.t) (cs : list Comment.t),
      BlogPostModel.from_entity (BlogPostModel.to_entity row cs) = row /\
      BlogPostModel.update_from_entity (BlogPostModel.to_entity row cs) row
        = row) /\
  (forall (p : BlogPost.t) (row : BlogPostModel.t),
      let row' := BlogPostModel.update_from_entity p row in
      BlogPostModel.id row' = BlogPostModel.id row /\
      BlogPostModel.created_at row' = BlogPostModel.created_at row) /\
  (forall c : Comment.t,
      CommentModel.to_entity (CommentModel.from_entity c) = c /\
      CommentModel.from_entity (CommentModel.to_entity c) = c /\
      CommentModel.update_from_entity (CommentModel.to_entity c) c = c) /\
  (forall c row : Comment.t,
      let row' := CommentModel.update_from_entity c row in
      Comment.id row' = Comment.id row /\
      Comment.blog_post_id row' = Comment.blog_post_id row /\
      Comment.created_at row' = Comment.created_at row) /\
  (forall u : User.t,
      UserModel.to_entity (UserModel.from_entity u) = u /\
      UserModel.from_entity (UserModel.to_entity u) = u /\
      UserModel.update_from_entity (UserModel.to_entity u) u = u) /\
  (forall u row : User.t,
      let row' := UserModel.update_from_entity u row in
      User.id row' = User.id row /\
      User.created_at row' = User.created_at row).
Proof.
  repeat split.
  - destruct p. cbn. intros [= ->]. reflexivity.
  - destruct p. cbn. intros <-. reflexivity.
  - destruct row. reflexivity.
  - destruct row. reflexivity.
  - destruct c. reflexivity.
  - destruct c. reflexivity.
  - destruct c. reflexivity.
  - destruct u. reflexivity.
  - destruct u. reflexivity.
  - destruct u. reflexivity.
Qed.

(** ** A post and its comments *)

(** X26.  Under the primary keys, a post read with
    [get_blog_post_by_id] carries the identifier asked for; its
    [comment_ids] hold no identifier twice and hold exactly the
    identifiers of the stored comments of that post, approved or not;
    and [get_comment_count] on it is what [count_by_blog_post_id] of
    the comment repository returns. *)
Theorem X26_loaded_post_lists_its_stored_comments :
  forall (post_id : N) (w : World) (p : BlogPost.t),
    keyed Comment.id (comments (db w)) ->
    keyed BlogPostModel.id (blog_posts (db w)) ->
    (get_blog_post_by_id post_id w).1 = Ok p ->
    BlogPost.id p = post_id /\
    NoDup (BlogPost.comment_ids p) /\
    (forall k, k ∈ BlogPost.comment_ids p <->
               exists c, comments (db w) !! k = Some c /\
                         Comment.blog_post_id c = post_id) /\
    (BlogPost.get_comment_count (p, env w)).1 =
      (CommentRepositoryImpl.count_by_blog_post_id post_id w).1.
Proof.
  intros post_id w p Hcomments Hposts.
  unfold get_blog_post_by_id, BlogPostRepositoryImpl.get_by_id,
    BlogPostRepositoryImpl.load, BlogPostRepositoryImpl.comments_of,
    BlogPost.get_comment_count,
    CommentRepositoryImpl.count_by_blog_post_id.
  unfold_m. cbn.
  destruct (blog_posts (db w) !! post_id) as [row|] eqn:Hrow; cbn;
    [| discriminate].
  rewrite (Hposts _ _ Hrow). intros [= <-]. cbn.
  split; [exact (Hposts _ _ Hrow) |]. split; [| split].
  - apply select_ids_NoDup, Hcomments.
  - intros k. split.
    + intros Hin. apply list_elem_of_In, in_map_iff in Hin as (c & Hid & Hc).
      apply list_elem_of_In, elem_of_select in Hc as [Hp [k' Hk']].
      apply owned_by_true in Hp.
      pose proof (Hcomments _ _ Hk') as Hkey. rewrite Hid in Hkey. subst k'.
      eauto.
    + intros (c & Hk & Hp).
      rewrite <- (Hcomments _ _ Hk).
      apply (comment_ids_of_stored post_id k c); assumption.
  - rewrite length_map. reflexivity.
Qed.

Lemma X26_witness :
  exists p,
    (get_blog_post_by_id 1%N Sample.world0).1 = Ok p /\
    NoDup (BlogPost.comment_ids p) /\
    11%N ∈ BlogPost.comment_ids p /\
    (BlogPost.get_comment_count (p, Sample.env0)).1 = Ok 2%nat.
Proof.
  assert (Hp : exists p, (get_blog_post_by_id 1%N Sample.world0).1 = Ok p)
    by (eexists; vm_compute; reflexivity).
  destruct Hp as [p Hp]. exists p. split; [exact Hp |].
  destruct (X26_loaded_post_lists_its_stored_comments 1%N Sample.world0 p
              Sample_comments_keyed Sample_posts_keyed Hp)
    as (_ & Hnodup & Hiff & Hcount).
  split; [exact Hnodup |]. split.
  - apply Hiff. eexists. split; [vm_compute; reflexivity | reflexivity].
  - etransitivity; [exact Hcount | vm_compute; reflexivity].
Defined.

(** ** A new comment in the public listing *)

(** X27.  A comment that [create_comment] returns is public at once:
    the public listing of its post, from the first row and with a limit
    that covers the approved comments, holds it; and when every comment
    stored before is older, the listing starts with it. *)
Theorem X27_created_comment_is_public_at_once :
  forall (post_id : N) (content name email : string) (w w' : World)
         (c : Comment.t),
    create_comment post_id content name email w = (Ok c, w') ->
    forall (limit n : nat),
      (CommentRepositoryImpl.count_approved_by_blog_post_id post_id w').1
        = Ok n ->
      (n <= limit)%nat ->
      exists l,
        (get_comments_for_blog_post post_id true limit 0 w').1 = Ok l /\
        c ∈ l /\
        ((forall k c0, comments (db w) !! k = Some c0 ->
                       Comment.created_at c0 < Comment.created_at c) ->
         head l = Some c).
Proof.
  intros post_id content name email w w' c Hrun limit n.
  apply create_comment_ok in Hrun
    as (_ & Hfresh & Hpost & Happroved & Hcomments & _ & [row Hrow]).
  destruct (listing_spec Comment.created_at Comment.id
              (CommentRepositoryImpl.approved_of post_id)
              limit 0 (comments (db w')))
    as (_ & Hin & Hsorted & _ & Hall).
  unfold_listing. rewrite Hrow. cbn. rewrite Comment_to_entity_list.
  intros Hn Hle. injection Hn as <-.
  eexists. split; [reflexivity |].
  assert (Hc : c ∈ page limit 0
                 (newest_first Comment.created_at
                    (select (CommentRepositoryImpl.approved_of post_id)
                       (comments (db w'))))).
  { apply (Hall eq_refl Hle (Comment.id c)).
    - rewrite Hcomments. apply lookup_insert_eq.
    - apply approved_of_true. auto. }
  split; [exact Hc |].
  intros Hnewest.
  destruct (page limit 0 _) as [|x l] eqn:Hpage.
  - apply elem_of_nil in Hc. contradiction.
  - cbn. f_equal.
    apply elem_of_cons in Hc as [-> | Hc]; [reflexivity |].
    apply StronglySorted_inv in Hsorted as [_ Hx].
    rewrite Forall_forall in Hx. specialize (Hx c Hc).
    unfold not_older in Hx.
    destruct (Hin x (list_elem_of_here _ _)) as [_ [k Hk]].
    rewrite Hcomments in Hk.
    destruct (decide (k = Comment.id c)) as [-> | Hne].
    + rewrite lookup_insert_eq in Hk. injection Hk as <-. reflexivity.
    + rewrite lookup_insert_ne in Hk by congruence.
      specialize (Hnewest _ _ Hk). lia.
Qed.

Lemma X27_witness :
  exists c l,
    (create_comment 2%N "Nice post" "Ann" "ann@example.com"
       Sample.world0).1 = Ok c /\
    (get_comments_for_blog_post 2%N true 10 0
       (create_comment 2%N "Nice post" "Ann" "ann@example.com"
          Sample.world0).2).1 = Ok l /\
    head l = Some c.
Proof.
  assert (Hrun : exists c w',
             create_comment 2%N "Nice post" "Ann" "ann@example.com"
               Sample.world0 = (Ok c, w')).
  { eexists. eexists. vm_compute. reflexivity. }
  destruct Hrun as (c & w' & Hrun).
  assert (Hat : Comment.created_at c = 1000).
  { assert (H : (create_comment 2%N "Nice post" "Ann" "ann@example.com"
                   Sample.world0).1 =
                Ok (Comment.mk "Nice post" 2%N 100%N "Ann" "ann@example.com"
                      1000 1001 true)) by (vm_compute; reflexivity).
    rewrite Hrun in H. injection H as ->. reflexivity. }
  assert (Hw : w' = (create_comment 2%N "Nice post" "Ann" "ann@example.com"
                       Sample.world0).2) by (rewrite Hrun; reflexivity).
  destruct (X27_created_comment_is_public_at_once _ _ _ _ _ _ _ Hrun
              10%nat 2%nat) as (l & Hl & _ & Hhead).
  - rewrite Hw. vm_compute. reflexivity.
  - lia.
  - exists c, l. rewrite Hrun. cbn [fst snd].
    split; [reflexivity |]. split; [exact Hl |].
    apply Hhead. intros k c0 Hk. rewrite Hat.
    destruct (decide (k = 11%N)) as [-> | H11];
      [injection Hk as <-; reflexivity |].
    destruct (decide (k = 12%N)) as [-> | H12];
      [injection Hk as <-; reflexivity |].
    destruct (decide (k = 13%N)) as [-> | H13];
      [injection Hk as <-; reflexivity |].
    cbn in Hk. rewrite !lookup_insert_ne in Hk by congruence.
    rewrite lookup_empty in Hk. discriminate Hk.
Defined.

(** ** After the deletion of a post *)

Lemma delete_blog_post_db (post_id : N) (w : World) :
  blog_posts (db (delete_blog_post post_id w).2) =
    delete post_id (blog_posts (db w)) /\
  (is_Some (blog_posts (db w) !! post_id) ->
   comments (db (delete_blog_post post_id w).2) =
     CommentRepositoryImpl.without_post post_id (comments (db w))).
Proof.
  unfold delete_blog_post, BlogPostRepositoryImpl.exists_,
    CommentRepositoryImpl.delete_by_blog_post_id,
    BlogPostRepositoryImpl.delete.
  unfold_m. cbn.
  destruct (blog_posts (db w) !! post_id) as [row|] eqn:Hrow; cbn.
  - rewrite Hrow. cbn. split; [reflexivity |]. intros _.
    apply without_post_twice.
  - split; [| intros [x Hx]; discriminate Hx].
    symmetry. apply delete_id. exact Hrow.
Qed.

(** X28.  After [delete_blog_post], whatever it returned, the post
    takes nothing any more: [create_comment], both listings of its
    comments, [get_blog_post_with_comments] and [update_blog_post]
    raise [BlogPostNotFoundError] and leave the database as it is.
    When the post existed, no stored comment names it any longer and
    [count_by_blog_post_id] returns 0. *)
Theorem X28_deleted_post_takes_no_comments :
  forall (post_id : N) (w : World),
    let w' := (delete_blog_post post_id w).2 in
    let gone {A} (r : result A * World) :=
      r.1 = Raise (BlogPostNotFoundError post_id) /\ db r.2 = db w' in
    (forall content name email,
        gone (create_comment post_id content name email w')) /\
    (forall approved_only limit offset,
        gone (get_comments_for_blog_post post_id approved_only limit offset
                w')) /\
    gone (get_blog_post_with_comments post_id w') /\
    (forall title content, gone (update_blog_post post_id title content w')) /\
    (is_Some (blog_posts (db w) !! post_id) ->
     (CommentRepositoryImpl.count_by_blog_post_id post_id w').1 = Ok 0%nat /\
     forall k c, comments (db w') !! k = Some c ->
                 Comment.blog_post_id c <> post_id).
Proof.
  intros post_id w w' gone. subst gone.
  destruct (delete_blog_post_db post_id w) as [Hposts Hcomments].
  fold w' in Hposts, Hcomments.
  assert (Hnone : blog_posts (db w') !! post_id = None)
    by (rewrite Hposts; apply lookup_delete_eq).
  split; [| split; [| split; [| split]]].
  - intros content name email. unfold_create_comment. rewrite Hnone. cbn.
    auto.
  - intros approved_only limit offset. unfold_listing. rewrite Hnone. cbn.
    auto.
  - unfold_listing. rewrite Hnone. cbn. auto.
  - intros title content. unfold_update_blog_post. rewrite Hnone. cbn. auto.
  - intros Hsome. specialize (Hcomments Hsome).
    assert (Hother : forall k c, comments (db w') !! k = Some c ->
                                 Comment.blog_post_id c <> post_id).
    { intros k c Hk. rewrite Hcomments in Hk.
      apply without_post_lookup in Hk as [_ Hne]. exact Hne. }
    split; [| exact Hother].
    unfold_listing. f_equal.
    rewrite select_none; [reflexivity |].
    intros k c Hk. apply bool_decide_eq_false_2. exact (Hother _ _ Hk).
Qed.

Lemma X28_witness :
  let w' := (delete_blog_post 1%N Sample.world0).2 in
  (create_comment 1%N "Nice post" "Ann" "" w').1 =
    Raise (BlogPostNotFoundError 1%N) /\
  (CommentRepositoryImpl.count_by_blog_post_id 1%N w').1 = Ok 0%nat.
Proof.
  destruct (X28_deleted_post_takes_no_comments 1%N Sample.world0)
    as (Hcreate & _ & _ & _ & Hcount).
  split.
  - exact (proj1 (Hcreate "Nice post" "Ann" "")).
  - apply Hcount. exists Sample.post1. vm_compute. reflexivity.
Defined.
